(** * personal-gantt-maker: the schedule parser, the chart builder, the file
      registry and the export action of [main.py], embedded in Rocq.

    The program reads JSON schedule documents, flattens their sections and
    tasks into timeline rows, builds a chart specification from the rows and
    exports it as an image.  The embedding keeps the dynamic typing of the
    source: a document is an arbitrary JSON value (its strings are held as
    UTF-8 text, so that every Python [str] is there), every Python operation
    that can raise is a function into [result], and the two nested [for]
    loops append to an accumulator exactly as the source appends to its
    [tasks] list.  The file system and the wall clock are an explicit
    [world]; what Plotly and the floating-point part of [datetime] compute is
    a parameter ([Library]), and every statement holds for all of its values.

    The first part holds the definitions: the Python values and operations,
    the calendar and [strptime] of [datetime], the program's own functions
    ([prepare_gantt_data], [create_gantt_figure], [load_json_files],
    [update_gantt_chart], [export_chart], [upload_json]), and the notions
    of the specification.  The second part holds the lemmas, and the third
    the theorems of the claims of the specification.  A last part holds
    further properties of the code, among them those of the page as it
    starts (lines 73-84) and of the upload callback (lines 176-192), whose
    libraries and operating system are a second parameter ([Platform]). *)

From Stdlib Require Import ZArith String Ascii List Lia Bool.
From Stdlib Require Import Floats.SpecFloat.
From stdpp Require Import gmap strings list fin_maps.

#[local] Set Warnings "-register-all".
#[local] Open Scope string_scope.
#[local] Open Scope Z_scope.
#[local] Open Scope list_scope.

(** ** Python values obtained from [json.load] *)

(** [json.load] yields [None], [bool], [int] (unbounded), [float] (an IEEE
    double, here Stdlib's [spec_float]), [str], [list] and [dict] with string
    keys.  A [str] is held as its UTF-8 encoding, a [string] of Rocq whose
    characters are the bytes (a lone surrogate is encoded like any other
    code point).  The program compares, searches and cuts its texts at ASCII
    characters only, which does the same on the encoding as on the
    characters; where characters count, they are cut out of the encoding by
    [next_char] and [utf8_chars] below. *)
Inductive json : Type :=
  | JNull
  | JBool (b : bool)
  | JInt (n : Z)
  | JFloat (f : spec_float)
  | JStr (s : string)
  | JArr (l : list json)
  | JObj (m : gmap string json).

(** ** Exceptions and the error monad *)

Inductive exn : Type :=
  | AttributeError
  | TypeError
  | KeyError
  | ValueError
  | OverflowError
  | JSONDecodeError
  | OSError
  | RecursionError.

Inductive result (A : Type) : Type :=
  | Ok (a : A)
  | Raise (e : exn).
Arguments Ok {A} a.
Arguments Raise {A} e.

#[global] Instance result_ret : MRet result := fun A a => Ok a.
#[global] Instance result_bind : MBind result := fun A B f r =>
  match r with
  | Ok a => f a
  | Raise e => Raise e
  end.
#[global] Instance result_fmap : FMap result := fun A B f r =>
  match r with
  | Ok a => Ok (f a)
  | Raise e => Raise e
  end.

Definition is_ok {A} (r : result A) : bool :=
  match r with
  | Ok _ => true
  | Raise _ => false
  end.

(** ** The characters of a string *)

(** The number of bytes of the character whose encoding starts with the
    byte [c]. *)
Definition char_length (c : ascii) : nat :=
  let n := N_of_ascii c in
  if (n <? 192)%N then 1%nat
  else if (n <? 224)%N then 2%nat
  else if (n <? 240)%N then 3%nat
  else 4%nat.

(** The first [n] bytes of [s] and the bytes after them. *)
Fixpoint split_at (n : nat) (s : string) : string * string :=
  match n, s with
  | S n', String c s' => let '(a, b) := split_at n' s' in (String c a, b)
  | _, _ => (EmptyString, s)
  end.

(** The first character of [s] and the text after it. *)
Definition next_char (s : string) : option (string * string) :=
  match s with
  | EmptyString => None
  | String c s' =>
      let '(tail, rest) := split_at (char_length c - 1) s' in
      Some (String c tail, rest)
  end.

(** The bytes of [s] that still belong to the character before it, [k] of
    them, and the characters after these. *)
Fixpoint utf8_split (k : nat) (s : string) : string * list string :=
  match s with
  | EmptyString => (EmptyString, [])
  | String c s' =>
      match k with
      | S k' => let '(tail, chars) := utf8_split k' s' in (String c tail, chars)
      | O =>
          let '(tail, chars) := utf8_split (char_length c - 1) s' in
          (EmptyString, String c tail :: chars)
      end
  end.

(** The characters of [s], each as a string. *)
Definition utf8_chars (s : string) : list string := snd (utf8_split 0 s).

(** ** Python's dynamic operations on JSON values *)

(** [bool(v)], as the conditional expression of line 29 evaluates it. *)
Definition truthy (v : json) : bool :=
  match v with
  | JNull => false
  | JBool b => b
  | JInt n => negb (n =? 0)
  | JFloat (S754_zero _) => false
  | JFloat _ => true
  | JStr s => negb (String.eqb s "")
  | JArr l => match l with [] => false | _ :: _ => true end
  | JObj m => match map_to_list m with [] => false | _ :: _ => true end
  end.

(** [v.get(k, d)]: only a [dict] has the method. *)
Definition dict_get (v : json) (k : string) (d : json) : result json :=
  match v with
  | JObj m => Ok (default d (m !! k))
  | _ => Raise AttributeError
  end.

(** [v[k]] for a string key [k]: a missing key of a [dict] is a [KeyError];
    a [list] or [str] rejects a string index and the other values are not
    subscriptable, both with [TypeError]. *)
Definition getitem (v : json) (k : string) : result json :=
  match v with
  | JObj m =>
      match m !! k with
      | Some x => Ok x
      | None => Raise KeyError
      end
  | _ => Raise TypeError
  end.

(** [iter(v)], the elements a [for] loop visits: the items of a [list], the
    one-character strings of a [str], the keys of a [dict] (in the order of
    [map_to_list]; every key is a [str], which is all the loop bodies below
    observe); anything else is not iterable. *)
Definition py_iter (v : json) : result (list json) :=
  match v with
  | JArr l => Ok l
  | JStr s => Ok (map JStr (utf8_chars s))
  | JObj m => Ok (map (fun kv => JStr (fst kv)) (map_to_list m))
  | _ => Raise TypeError
  end.

(** ** The calendar of [datetime] (proleptic Gregorian) *)

Module Calendar.

Definition MINYEAR : Z := 1.
Definition MAXYEAR : Z := 9999.
Definition MAXORDINAL : Z := 3652059.

Definition is_leap (year : Z) : bool :=
  (year mod 4 =? 0) && (negb (year mod 100 =? 0) || (year mod 400 =? 0)).

Definition DAYS_IN_MONTH (month : Z) : Z :=
  match month with
  | 1 => 31 | 2 => 28 | 3 => 31 | 4 => 30 | 5 => 31 | 6 => 30
  | 7 => 31 | 8 => 31 | 9 => 30 | 10 => 31 | 11 => 30 | 12 => 31
  | _ => 0
  end.

Definition DAYS_BEFORE_MONTH (month : Z) : Z :=
  match month with
  | 1 => 0 | 2 => 31 | 3 => 59 | 4 => 90 | 5 => 120 | 6 => 151
  | 7 => 181 | 8 => 212 | 9 => 243 | 10 => 273 | 11 => 304 | 12 => 334
  | _ => 0
  end.

Definition days_before_year (year : Z) : Z :=
  let y := year - 1 in
  y * 365 + y / 4 - y / 100 + y / 400.

Definition days_in_month (year month : Z) : Z :=
  if (month =? 2) && is_leap year then 29 else DAYS_IN_MONTH month.

Definition days_before_month (year month : Z) : Z :=
  DAYS_BEFORE_MONTH month + Z.b2z ((2 <? month) && is_leap year).

Definition ymd2ord (year month day : Z) : Z :=
  days_before_year year + days_before_month year month + day.

Definition DI400Y : Z := 146097.
Definition DI100Y : Z := 36524.
Definition DI4Y : Z := 1461.

(** [_ord2ymd]: the date of ordinal [n], 0001-01-01 being day 1. *)
Definition ord2ymd (n : Z) : Z * Z * Z :=
  let n := n - 1 in
  let n400 := n / DI400Y in
  let n := n mod DI400Y in
  let year := n400 * 400 + 1 in
  let n100 := n / DI100Y in
  let n := n mod DI100Y in
  let n4 := n / DI4Y in
  let n := n mod DI4Y in
  let n1 := n / 365 in
  let n := n mod 365 in
  let year := year + n100 * 100 + n4 * 4 + n1 in
  if (n1 =? 4) || (n100 =? 4) then (year - 1, 12, 31)
  else
    let leapyear := (n1 =? 3) && (negb (n4 =? 24) || (n100 =? 3)) in
    let month := Z.shiftr (n + 50) 5 in
    let preceding := DAYS_BEFORE_MONTH month + Z.b2z ((2 <? month) && leapyear) in
    if n <? preceding then
      let month := month - 1 in
      let preceding :=
        preceding - (DAYS_IN_MONTH month + Z.b2z ((month =? 2) && leapyear)) in
      (year, month, n - preceding + 1)
    else (year, month, n - preceding + 1).

(** [_check_date_fields]. *)
Definition check_date_fields (year month day : Z) : bool :=
  (MINYEAR <=? year) && (year <=? MAXYEAR) &&
  (1 <=? month) && (month <=? 12) &&
  (1 <=? day) && (day <=? days_in_month year month).

End Calendar.

(** ** [datetime] and [timedelta] *)

Record datetime : Type := mk_datetime {
  dt_year : Z;
  dt_month : Z;
  dt_day : Z;
  dt_hour : Z;
  dt_minute : Z;
  dt_second : Z;
  dt_microsecond : Z
}.

(** A [timedelta] in its normal form: days, seconds and microseconds. *)
Record timedelta : Type := mk_timedelta {
  td_days : Z;
  td_seconds : Z;
  td_microseconds : Z
}.

Definition toordinal (d : datetime) : Z :=
  Calendar.ymd2ord (dt_year d) (dt_month d) (dt_day d).

(** Seconds since midnight. *)
Definition second_of_day (d : datetime) : Z :=
  dt_hour d * 3600 + dt_minute d * 60 + dt_second d.

(** [timedelta]'s bound on the magnitude of its days. *)
Definition MAX_DELTA_DAYS : Z := 999999999.

(** [datetime.__add__]: the date's ordinal and time of day are turned into a
    [timedelta], the operand is added with carries, and the sum is turned
    back; a sum of days outside [1..MAXORDINAL] (or beyond [timedelta]'s own
    range) is an [OverflowError]. *)
Definition datetime_add (d : datetime) (delta : timedelta) : result datetime :=
  let us := dt_microsecond d + td_microseconds delta in
  let s := second_of_day d + td_seconds delta + us / 1000000 in
  let days := toordinal d + td_days delta + s / 86400 in
  if MAX_DELTA_DAYS <? Z.abs days then Raise OverflowError
  else if (0 <? days) && (days <=? Calendar.MAXORDINAL) then
    let '(y, m, dd) := Calendar.ord2ymd days in
    let s := s mod 86400 in
    Ok (mk_datetime y m dd (s / 3600) (s mod 3600 / 60) (s mod 3600 mod 60)
          (us mod 1000000))
  else Raise OverflowError.

(** ** What the embedding leaves to the libraries *)

(** One element of the [tasks] list: the dictionary of lines 25-31. *)
Record row : Type := mk_row {
  row_Task : string;
  row_Start : datetime;
  row_Finish : datetime;
  row_Critical_Path : string;
  row_Section : json
}.

(** Some library computations are taken as they come: [timedelta(days=f)]
    for a [float] [f] (IEEE arithmetic and rounding to microseconds), and
    the text that an f-string gives for a value that is not a [str].
    [timeline_error] is what [px.timeline] raises, if anything, for the rows
    and the title it is given (it checks its data frame), and
    [write_image_error] what [plotly.io.write_image] raises, if anything,
    for a file name.  [unicode_decimal] is the Unicode database of the
    interpreter: the decimal value of a character outside ASCII (given by
    its encoding) when the character is a decimal digit, as the Arabic-Indic
    digits are; [\d] and [int] consult it.  Every theorem below holds for
    every such library. *)
Class Library : Type := {
  timedelta_float_days : spec_float -> result timedelta;
  format_value : json -> string;
  timeline_error : list row -> json -> option exn;
  write_image_error : string -> option exn;
  unicode_decimal : string -> option Z
}.

(** [timedelta(days=v)]: an [int] (or a [bool], which is an [int]) within
    the range of [timedelta]; a [float]; any other value is a [TypeError]. *)
Definition timedelta_days `{Library} (v : json) : result timedelta :=
  match v with
  | JInt n =>
      if MAX_DELTA_DAYS <? Z.abs n then Raise OverflowError
      else Ok (mk_timedelta n 0 0)
  | JBool b => Ok (mk_timedelta (Z.b2z b) 0 0)
  | JFloat f => timedelta_float_days f
  | _ => Raise TypeError
  end.

(** [f"{v}"]. *)
Definition fstring `{Library} (v : json) : string :=
  match v with
  | JStr s => s
  | _ => format_value v
  end.

(** ** [datetime.strptime] with the format ['%Y-%m-%d'] *)

Module Strptime.

(** The regular expressions that [_strptime] builds from a format: literals,
    [\d] (any decimal digit of Unicode: the patterns are [str] patterns),
    character ranges, sequence, ordered alternatives and named groups.
    There is no repetition in them.  Literals and ranges are ASCII, so they
    are matched on one byte. *)
Inductive regex : Type :=
  | Lit (c : ascii)
  | Digit
  | Range (lo hi : ascii)
  | Seq (r1 r2 : regex)
  | Alt (r1 r2 : regex)
  | Group (name : string) (r : regex).

Definition in_range (lo hi c : ascii) : bool :=
  ((N_of_ascii lo <=? N_of_ascii c) && (N_of_ascii c <=? N_of_ascii hi))%N.

Definition is_digit (c : ascii) : bool := in_range "0" "9" c.

Definition is_ascii (c : ascii) : bool := (N_of_ascii c <? 128)%N.

Definition digit_value (c : ascii) : Z := Z.of_N (N_of_ascii c) - 48.

(** [found.groupdict()[name]]. *)
Fixpoint group (found : list (string * string)) (name : string) : string :=
  match found with
  | [] => ""
  | (n, v) :: found' => if String.eqb n name then v else group found' name
  end.

Fixpoint skip_spaces (s : string) : string :=
  match s with
  | String " " s' => skip_spaces s'
  | _ => s
  end.

Section WithLibrary.
Context `{Library}.

(** The decimal value of the character [ch], when it is a decimal digit:
    one of 0-9, or a whole character outside ASCII that the Unicode database
    knows as one. *)
Definition decimal (ch : string) : option Z :=
  match ch with
  | EmptyString => None
  | String c tail =>
      if is_ascii c then
        match tail with
        | EmptyString => if is_digit c then Some (digit_value c) else None
        | String _ _ => None
        end
      else if (String.length ch =? char_length c)%nat && (2 <=? char_length c)%nat
      then unicode_decimal ch
      else None
  end.

(** Backtracking match at the head of [s]: the continuation [k] receives
    the text matched, the text left and the groups captured; when it gives
    up, the next alternative is tried, as Python's [re] does. *)
Fixpoint re_match {A : Type} (r : regex) (s : string) (g : list (string * string))
    (k : string -> string -> list (string * string) -> option A) : option A :=
  match r with
  | Lit c =>
      match s with
      | String c' s' => if Ascii.eqb c c' then k (String c' "") s' g else None
      | EmptyString => None
      end
  | Digit =>
      match next_char s with
      | Some (ch, s') =>
          match decimal ch with
          | Some _ => k ch s' g
          | None => None
          end
      | None => None
      end
  | Range lo hi =>
      match s with
      | String c' s' => if in_range lo hi c' then k (String c' "") s' g else None
      | EmptyString => None
      end
  | Seq r1 r2 =>
      re_match r1 s g (fun m1 s1 g1 =>
        re_match r2 s1 g1 (fun m2 s2 g2 => k (m1 +:+ m2) s2 g2))
  | Alt r1 r2 =>
      match re_match r1 s g k with
      | Some a => Some a
      | None => re_match r2 s g k
      end
  | Group name r =>
      re_match r s g (fun m s' g' => k m s' ((name, m) :: g'))
  end.

(** The number that the decimal digits [chars] write after [acc]. *)
Fixpoint int_chars (acc : Z) (chars : list string) : result Z :=
  match chars with
  | [] => Ok acc
  | ch :: chars' =>
      match decimal ch with
      | Some v => int_chars (10 * acc + v) chars'
      | None => Raise ValueError
      end
  end.

(** [int(s)] on decimal digits, leading blanks stripped (the captures of
    the groups below are of this form). *)
Definition py_int (s : string) : result Z :=
  match skip_spaces s with
  | EmptyString => Raise ValueError
  | s' => int_chars 0 (utf8_chars s')
  end.

End WithLibrary.

(** [%Y] is [(?P<Y>\d\d\d\d)]. *)
Definition Y_regex : regex :=
  Group "Y" (Seq Digit (Seq Digit (Seq Digit Digit))).

(** [%m] is [(?P<m>1[0-2]|0[1-9]|[1-9])]. *)
Definition m_regex : regex :=
  Group "m" (Alt (Seq (Lit "1") (Range "0" "2"))
            (Alt (Seq (Lit "0") (Range "1" "9"))
                 (Range "1" "9"))).

(** [%d] is [(?P<d>3[0-1]|[1-2]\d|0[1-9]|[1-9]| [1-9])]. *)
Definition d_regex : regex :=
  Group "d" (Alt (Seq (Lit "3") (Range "0" "1"))
            (Alt (Seq (Range "1" "2") Digit)
            (Alt (Seq (Lit "0") (Range "1" "9"))
            (Alt (Range "1" "9")
                 (Seq (Lit " ") (Range "1" "9")))))).

(** The regex of ['%Y-%m-%d']. *)
Definition format_regex : regex :=
  Seq Y_regex (Seq (Lit "-") (Seq m_regex (Seq (Lit "-") d_regex))).

(** [datetime.strptime(data_string, '%Y-%m-%d')]: a non-[str] argument is a
    [TypeError]; a string the regex does not match at its head, or that has
    text left after the match, or whose fields are no date, is a
    [ValueError]; otherwise the date at midnight. *)
Definition strptime `{Library} (data_string : json) : result datetime :=
  match data_string with
  | JStr s =>
      match re_match format_regex s [] (fun m _ found => Some (m, found)) with
      | None => Raise ValueError
      | Some (m, found) =>
          if negb (String.length s =? String.length m)%nat then Raise ValueError
          else
            year ← py_int (group found "Y");
            month ← py_int (group found "m");
            day ← py_int (group found "d");
            if Calendar.check_date_fields year month day
            then Ok (mk_datetime year month day 0 0 0 0)
            else Raise ValueError
      end
  | _ => Raise TypeError
  end.

End Strptime.

(** ** The schedule parser (lines 12-32) *)

Definition PLACEHOLDER_TITLE : string := "Project Gantt Chart".

Section Parser.
Context `{Library}.

(** The body of the inner loop (lines 20-31), up to the appended row. *)
Definition task_row (section_name task : json) : result row :=
  task_name ← getitem task "task_name";
  date_string ← getitem task "start_date";
  start_date ← Strptime.strptime date_string;
  duration_days ← getitem task "duration_days";
  delta ← timedelta_days duration_days;
  end_date ← datetime_add start_date delta;
  is_critical ← dict_get task "is_critical" (JBool false);
  mret {| row_Task := fstring task_name;
          row_Start := start_date;
          row_Finish := end_date;
          row_Critical_Path :=
            if truthy is_critical then "Critical" else "Non-Critical";
          row_Section := section_name |}.

(** The inner loop (line 19): [tasks] is the list built so far. *)
Fixpoint task_loop (section_name : json) (items : list json) (tasks : list row)
    : result (list row) :=
  match items with
  | [] => Ok tasks
  | task :: items' =>
      r ← task_row section_name task;
      task_loop section_name items' (tasks ++ [r])
  end.

(** The outer loop (line 17). *)
Fixpoint section_loop (sections : list json) (tasks : list row)
    : result (list row) :=
  match sections with
  | [] => Ok tasks
  | section :: sections' =>
      section_name ← getitem section "section_name";
      section_tasks ← getitem section "tasks";
      items ← py_iter section_tasks;
      tasks' ← task_loop section_name items tasks;
      section_loop sections' tasks'
  end.

(** Lines 15-32 on the loaded document. *)
Definition gantt_data (data : json) : result (list row * json) :=
  chart_name ← dict_get data "chart_name" (JStr PLACEHOLDER_TITLE);
  sections ← dict_get data "sections" (JArr []);
  items ← py_iter sections;
  tasks ← section_loop items [];
  mret (tasks, chart_name).

End Parser.

(** ** The chart builder (lines 35-59) *)

(** The chart specification: the arguments given to [px.timeline] and the
    settings of [update_layout], [update_xaxes] and [update_yaxes], as
    written.  Setting values are JSON-like, so [json] is reused for them.
    How Plotly draws the specification is outside the embedding. *)
Record figure : Type := mk_figure {
  fig_data_frame : list row;
  fig_x_start : string;
  fig_x_end : string;
  fig_y : string;
  fig_color : string;
  fig_color_discrete_map : list (string * string);
  fig_title : json;
  fig_layout : list (string * json);
  fig_xaxes : list (string * json);
  fig_yaxes : list (string * json)
}.

(** The double 0.5. *)
Definition one_half : spec_float := S754_finite false 4503599627370496 (-53).

Definition create_gantt_figure `{Library} (tasks : list row) (chart_title : json)
    : result figure :=
  let color_map := [("Critical", "#C81D25"); ("Non-Critical", "#3C4E66")] in
  match timeline_error tasks chart_title with
  | Some e => Raise e
  | None => Ok
  {| fig_data_frame := tasks;
     fig_x_start := "Start";
     fig_x_end := "Finish";
     fig_y := "Task";
     fig_color := "Critical Path";
     fig_color_discrete_map := color_map;
     fig_title := chart_title;
     fig_layout :=
       [("plot_bgcolor", JStr "#F4F4F9");
        ("paper_bgcolor", JStr "#F4F4F9");
        ("xaxis_title", JStr "Timeline");
        ("yaxis_title", JStr "Tasks");
        ("title_x", JFloat one_half);
        ("xaxis", JObj {["tickformat" := JStr "%Y-%m"]});
        ("height", JInt 600);
        ("font", JObj (<["family" := JStr "Arial"]> {["color" := JStr "#3C4E66"]}));
        ("title_font",
         JObj (<["size" := JInt 24]>
              (<["family" := JStr "Arial Black"]> {["color" := JStr "#3C4E66"]})))];
     fig_xaxes := [("showgrid", JBool false)];
     fig_yaxes := [("showgrid", JBool false);
                   ("categoryorder", JStr "total ascending")] |}
  end.

(** ** The file system *)

(** A path of the process, by what [json.load(open(path))] makes of it: the
    value that is loaded; [JSONDecodeError] for a text that is no JSON; or
    any other exception of [open] and [json.load], such as [OSError] for a
    directory or a file that may not be read, [ValueError] for bytes that
    are no text in the encoding of the platform or for a number of too many
    digits, and [RecursionError] for a document that is nested too deep.  A
    path under which there is nothing is absent from [files]. *)
Inductive file : Type :=
  | JsonFile (data : json)
  | NotJson
  | Unreadable (e : exn).

(** The ambient state of the process: what [os.listdir("json")] returns,
    the files by path, the images written to the working directory, and
    the wall clock. *)
Record world : Type := mk_world {
  listdir_json : result (list string);
  files : gmap string file;
  images : gmap string figure;
  clock : Z
}.

(** [json.load(open(path))]. *)
Definition load_json (w : world) (path : string) : result json :=
  match files w !! path with
  | Some (JsonFile data) => Ok data
  | Some NotJson => Raise JSONDecodeError
  | Some (Unreadable e) => Raise e
  | None => Raise OSError
  end.

(** [pio.write_image(fig, name)].  The images are kept apart from the files
    that [json.load] reads: what an export does to a file of the same name
    is outside the embedding, and nothing below is stated about it. *)
Definition write_image `{Library} (w : world) (fig : figure) (name : string)
    : result world :=
  match write_image_error name with
  | Some e => Raise e
  | None =>
      Ok {| listdir_json := listdir_json w;
            files := files w;
            images := <[name := fig]> (images w);
            clock := clock w |}
  end.

(** ** String and path operations *)

(** [s.endswith(suffix)]. *)
Definition endswith (s suffix : string) : bool :=
  let n := String.length s in
  let m := String.length suffix in
  (m <=? n)%nat && String.eqb (substring (n - m) m s) suffix.

(** [os.path.join(a, b)] (POSIX) for a directory name [a] without a
    trailing slash. *)
Definition path_join (a b : string) : string :=
  if String.prefix "/" b then b else a +:+ "/" +:+ b.

Fixpoint basename_from (candidate p : string) : string :=
  match p with
  | EmptyString => candidate
  | String c p' =>
      if Ascii.eqb c "/" then basename_from p' p' else basename_from candidate p'
  end.

(** [os.path.basename(p)] (POSIX): the text after the last slash. *)
Definition basename (p : string) : string := basename_from p p.

(** [s.replace(old, new)] for a non-empty [old]: every occurrence, left to
    right, without overlap.  [skip] counts the characters of an occurrence
    still to be dropped. *)
Fixpoint replace_from (old new : string) (skip : nat) (s : string) : string :=
  match s with
  | EmptyString => EmptyString
  | String c s' =>
      match skip with
      | S k => replace_from old new k s'
      | O =>
          if String.prefix old s
          then new +:+ replace_from old new (String.length old - 1) s'
          else String c (replace_from old new 0 s')
      end
  end.

Definition str_replace (s old new : string) : string := replace_from old new 0 s.

(** ** The program's operations *)

(** An element of the registry listing: [{"file": ..., "name": ...}]. *)
Record entry : Type := mk_entry {
  entry_file : string;
  entry_name : json
}.

Section Program.
Context `{Library}.

(** Lines 12-32. *)
Definition prepare_gantt_data (w : world) (json_file : string)
    : result (list row * json) :=
  data ← load_json w json_file;
  gantt_data data.

(** The dictionary that the comprehension of lines 66-69 builds for the
    file [f] of the directory. *)
Definition registry_entry (w : world) (f : string) : result entry :=
  let path := path_join "json" f in
  data ← load_json w (path_join "json" f);
  name ← dict_get data "chart_name" (JStr f);
  mret {| entry_file := path; entry_name := name |}.

(** Lines 65-70: the comprehension visits the names that end in [.json],
    in the order of [os.listdir]. *)
Definition load_json_files (w : world) : result (list entry) :=
  names ← listdir_json w;
  mapM (registry_entry w) (List.filter (fun f => endswith f ".json") names).

(** Lines 150-152. *)
Definition update_gantt_chart (w : world) (json_file : string) : result figure :=
  '(tasks, chart_name) ← prepare_gantt_data w json_file;
  create_gantt_figure tasks chart_name.

(** [if n_clicks:] for the click count of the button, [None] before the
    first click. *)
Definition clicked (n_clicks : option Z) : bool :=
  match n_clicks with
  | Some n => negb (n =? 0)
  | None => false
  end.

Definition output_filename_of (json_file : string) : string :=
  str_replace (basename json_file) ".json" "_gantt_chart.png".

(** Lines 160-167: the status message and the world after the call. *)
Definition export_chart (w : world) (n_clicks : option Z) (json_file : string)
    : result (string * world) :=
  if clicked n_clicks then
    '(tasks, chart_name) ← prepare_gantt_data w json_file;
    fig ← create_gantt_figure tasks chart_name;
    let output_filename := output_filename_of json_file in
    w' ← write_image w fig output_filename;
    mret ("Gantt chart exported as '" +:+ output_filename +:+ "'", w')
  else Ok ("", w).

End Program.

(** ** The page and the upload callback (lines 73-84 and 176-192) *)

(** An option of the dropdown: [{"label": ..., "value": ...}]. *)
Record dropdown_option : Type := mk_dropdown_option {
  option_label : json;
  option_value : string
}.

(** The comprehension of lines 83 and 190. *)
Definition dropdown_options (json_files : list entry) : list dropdown_option :=
  map (fun item => {| option_label := entry_name item;
                      option_value := entry_file item |}) json_files.

(** Line 84: [json_files[0]["file"] if json_files else None]. *)
Definition default_value (json_files : list entry) : option string :=
  match json_files with
  | item :: _ => Some (entry_file item)
  | [] => None
  end.

(** Lines 73 and 81-84: the options and the value with which the dropdown
    starts.  The listing is made once, when the module is loaded. *)
Definition json_selector (w : world)
    : result (list dropdown_option * option string) :=
  json_files ← load_json_files w;
  mret (dropdown_options json_files, default_value json_files).

(** The callback of line 150 on the value of the dropdown, which is [None]
    while nothing is selected: [open(None, 'r')] is a [TypeError]. *)
Definition update_gantt_chart_value `{Library} (w : world) (value : option string)
    : result figure :=
  match value with
  | Some json_file => update_gantt_chart w json_file
  | None => Raise TypeError
  end.

(** [s.split(sep)] for a separator of one character: the pieces between the
    separators, empty ones included. *)
Fixpoint split_on (sep : ascii) (s : string) : list string :=
  match s with
  | EmptyString => [EmptyString]
  | String c s' =>
      if Ascii.eqb c sep then EmptyString :: split_on sep s'
      else
        match split_on sep s' with
        | piece :: pieces => String c piece :: pieces
        | [] => [String c EmptyString]
        end
  end.

(** What the upload takes from its libraries and from the operating system:
    [base64.b64decode] of a [str]; [bytes.decode("utf-8")]; what [json.load]
    makes of a file that holds a given text; whether [open(path, "w")] or
    the write raises, and the world that is left when it does; and the order
    in which [os.listdir] returns the names once a name has been added.
    Every theorem on the upload holds for every such platform. *)
Class Platform : Type := {
  b64decode : string -> result (list Byte.byte);
  decode_utf8 : list Byte.byte -> result string;
  json_of_text : string -> file;
  write_failure : world -> string -> string -> option (exn * world);
  listing_with : string -> list string -> list string;
  listing_with_perm : forall (f : string) (names : list string),
    listing_with f names ≡ₚ (if bool_decide (f ∈ names) then names else f :: names)
}.

Fixpoint after_prefix (p s : string) : option string :=
  match p, s with
  | EmptyString, _ => Some s
  | String a p', String b s' => if Ascii.eqb a b then after_prefix p' s' else None
  | String _ _, EmptyString => None
  end.

Definition contains_slash (s : string) : bool :=
  existsb (Ascii.eqb "/") (list_ascii_of_string s).

(** The name under which [os.listdir("json")] lists the file at [path], if
    it does: [path] is [json/<name>], and the name has no slash and is none
    of the directory's own names. *)
Definition listed_name (path : string) : option string :=
  match after_prefix "json/" path with
  | Some f =>
      if contains_slash f || String.eqb f "" || String.eqb f "." || String.eqb f ".."
      then None else Some f
  | None => None
  end.

(** [with open(path, "w") as file: file.write(text)]: afterwards the file
    holds the text, and a file that lies in [json] is listed there.  Paths
    are taken literally, as everywhere in [world]: no links, and no two
    spellings of one path.  So the embedding tells what is read back under
    the path that was written and how a name spelt [json/<name>] is listed;
    what the write does to the same file under another spelling, or to an
    exported image, is outside it, and nothing below is stated about it. *)
Definition write_text `{Platform} (w : world) (path text : string)
    : world * result unit :=
  match write_failure w path text with
  | Some (e, w') => (w', Raise e)
  | None =>
      ({| listdir_json :=
            match listed_name path with
            | Some f => names ← listdir_json w; mret (listing_with f names)
            | None => listdir_json w
            end;
          files := <[path := json_of_text text]> (files w);
          images := images w;
          clock := clock w |},
       Ok tt)
  end.

(** What the upload callback returns: [dash.no_update] twice, or the new
    options and the new value of the dropdown. *)
Inductive upload_output : Type :=
  | no_update
  | updated (options : list dropdown_option) (value : string).

(** Lines 176-192: the world after the call, which keeps what was written
    before an exception, and the outcome.  The unpacking of line 179 needs
    exactly two pieces and is a [ValueError] otherwise. *)
Definition upload_json `{Platform} (w : world) (contents : option string)
    (filename : string) : world * result upload_output :=
  match contents with
  | Some contents =>
      match split_on "," contents with
      | [content_type; content_string] =>
          match b64decode content_string ≫= decode_utf8 with
          | Ok decoded =>
              let file_path := path_join "json" filename in
              match write_text w file_path decoded with
              | (w', Ok _) =>
                  (w', json_files ← load_json_files w';
                       mret (updated (dropdown_options json_files) file_path))
              | (w', Raise e) => (w', Raise e)
              end
          | Raise e => (w, Raise e)
          end
      | _ => (w, Raise ValueError)
      end
  | None => (w, Ok no_update)
  end.

(** ** Notions used to state further properties *)

(** The exceptions that the body of the inner loop raises. *)
Definition task_error (e : exn) : Prop :=
  e = TypeError \/ e = KeyError \/ e = ValueError \/ e = OverflowError.

(** [timedelta(days=x)] for a [float] [x] raises nothing but
    [OverflowError] (infinite or too large) and [ValueError] (not a number),
    as Python's does. *)
Definition float_days_errors `{Library} : Prop :=
  forall (x : spec_float) (e : exn),
    timedelta_float_days x = Raise e -> e = OverflowError \/ e = ValueError.

(** A [datetime] whose fields are in range (a date of the calendar and a
    time of the day), and one at midnight. *)
Definition valid_datetime (d : datetime) : bool :=
  Calendar.check_date_fields (dt_year d) (dt_month d) (dt_day d)
  && (0 <=? dt_hour d) && (dt_hour d <? 24)
  && (0 <=? dt_minute d) && (dt_minute d <? 60)
  && (0 <=? dt_second d) && (dt_second d <? 60)
  && (0 <=? dt_microsecond d) && (dt_microsecond d <? 1000000).

Definition midnight (d : datetime) : bool :=
  (dt_hour d =? 0) && (dt_minute d =? 0) && (dt_second d =? 0)
  && (dt_microsecond d =? 0).

(** The values that are no number: [None], a [str], a [list], a [dict]. *)
Definition not_a_number (v : json) : bool :=
  match v with
  | JNull | JStr _ | JArr _ | JObj _ => true
  | _ => false
  end.

(** The number of times the character [c] occurs in [s]; whether the text
    [old] occurs in [s]; and [json.load] on a file that holds [text]. *)
Definition occurrences (c : ascii) (s : string) : nat :=
  count_occ Ascii.ascii_dec (list_ascii_of_string s) c.

Fixpoint occurs (old s : string) : bool :=
  match s with
  | EmptyString => String.prefix old s
  | String _ s' => String.prefix old s || occurs old s'
  end.

Definition load_text `{Platform} (text : string) : result json :=
  match json_of_text text with
  | JsonFile data => Ok data
  | NotJson => Raise JSONDecodeError
  | Unreadable e => Raise e
  end.

(** ** Notions of the specification *)

(** The specification speaks of valid schedule documents, of the number of
    tasks of a document, of the shape of a document, of dates written
    YYYY-MM-DD and of the name of the exported file.  These notions, and the
    ones the amended statements need beside them, are written down here; the
    program above uses none of them. *)
Module Spec.

(** *** The text of a date *)

Definition digit_char (n : Z) : ascii := ascii_of_N (Z.to_N (48 + n)).

Definition pad2 (n : Z) : string :=
  String (digit_char (n / 10)) (String (digit_char (n mod 10)) "").

Definition pad4 (n : Z) : string :=
  String (digit_char (n / 1000))
    (String (digit_char (n / 100 mod 10)) (pad2 (n mod 100))).

(** The date [y]-[m]-[d] written YYYY-MM-DD. *)
Definition iso_date (y m d : Z) : string :=
  pad4 y +:+ "-" +:+ pad2 m +:+ "-" +:+ pad2 d.

(** A string of the shape YYYY-MM-DD: four digits, a hyphen, two digits, a
    hyphen, two digits. *)
Definition is_YYYY_MM_DD (s : string) : bool :=
  match list_ascii_of_string s with
  | [y1; y2; y3; y4; h1; m1; m2; h2; d1; d2] =>
      forallb Strptime.is_digit [y1; y2; y3; y4; m1; m2; d1; d2]
      && Ascii.eqb h1 "-" && Ascii.eqb h2 "-"
  | _ => false
  end.

(** The ways a year, a month and a day may be written for [strptime].  A
    year is four decimal digits, each one of 0-9 or a decimal digit of
    another script.  A month is two digits, or one digit without its leading
    zero.  A day is two digits, of which the second may be a decimal digit
    of another script when the first is 1 or 2, or one digit, or a blank and
    one digit. *)
Definition year_text `{Library} (y : Z) (ys : string) : Prop :=
  exists c1 c2 c3 c4 v1 v2 v3 v4,
    Strptime.decimal c1 = Some v1 /\ Strptime.decimal c2 = Some v2 /\
    Strptime.decimal c3 = Some v3 /\ Strptime.decimal c4 = Some v4 /\
    ys = c1 +:+ c2 +:+ c3 +:+ c4 /\
    y = 1000 * v1 + 100 * v2 + 10 * v3 + v4.

Definition month_text (m : Z) (ms : string) : Prop :=
  ms = pad2 m \/ (m < 10 /\ ms = String (digit_char m) "").

Definition day_text `{Library} (d : Z) (ds : string) : Prop :=
  ds = pad2 d \/
  (exists j ch v,
     1 <= j <= 2 /\ Strptime.decimal ch = Some v /\
     ds = String (digit_char j) ch /\ d = 10 * j + v) \/
  (d < 10 /\ (ds = String (digit_char d) "" \/
              ds = String " " (String (digit_char d) ""))).

(** [s] writes the existing date [y]-[m]-[d] in one of these ways. *)
Definition date_text `{Library} (s : string) (y m d : Z) : Prop :=
  Calendar.check_date_fields y m d = true /\
  exists ys ms ds, year_text y ys /\ month_text m ms /\ day_text d ds /\
    s = ys +:+ "-" +:+ ms +:+ "-" +:+ ds.

(** *** Valid schedule documents (section 6 of the specification) *)

(** A task: [task_name] a string, [start_date] a string that is a date,
    [duration_days] an integer, [is_critical] a boolean or absent. *)
Definition valid_task `{Library} (t : json) : bool :=
  match t with
  | JObj tm =>
      match tm !! "task_name", tm !! "start_date", tm !! "duration_days" with
      | Some (JStr _), Some (JStr s), Some (JInt _) =>
          is_ok (Strptime.strptime (JStr s)) &&
          match tm !! "is_critical" with
          | None | Some (JBool _) => true
          | Some _ => false
          end
      | _, _, _ => false
      end
  | _ => false
  end.

Definition valid_section `{Library} (sec : json) : bool :=
  match sec with
  | JObj sm =>
      match sm !! "section_name", sm !! "tasks" with
      | Some (JStr _), Some (JArr ts) => forallb valid_task ts
      | _, _ => false
      end
  | _ => false
  end.

Definition valid_document `{Library} (doc : json) : bool :=
  match doc with
  | JObj m =>
      match m !! "chart_name" with
      | None | Some (JStr _) => true
      | Some _ => false
      end &&
      match m !! "sections" with
      | Some (JArr secs) => forallb valid_section secs
      | _ => false
      end
  | _ => false
  end.

(** The sections of a document and the tasks of a section, when they are
    sequences. *)
Definition sections_of (doc : json) : list json :=
  match doc with
  | JObj m =>
      match m !! "sections" with
      | Some (JArr secs) => secs
      | _ => []
      end
  | _ => []
  end.

Definition tasks_of (sec : json) : list json :=
  match sec with
  | JObj sm =>
      match sm !! "tasks" with
      | Some (JArr ts) => ts
      | _ => []
      end
  | _ => []
  end.

Definition section_name_of (sec : json) : json :=
  match sec with
  | JObj sm => default JNull (sm !! "section_name")
  | _ => JNull
  end.

(** The total number of tasks across all sections. *)
Definition task_count (doc : json) : nat :=
  foldr (fun sec n => (length (tasks_of sec) + n)%nat) 0%nat (sections_of doc).

(** The tasks of a document in document order, each with the name of its
    section: the in-order concatenation of the tasks of the sections. *)
Definition section_tasks (sec : json) : list (json * json) :=
  map (pair (section_name_of sec)) (tasks_of sec).

Definition document_tasks (doc : json) : list (json * json) :=
  concat (map section_tasks (sections_of doc)).

(** The title of a document: its [chart_name], or the placeholder. *)
Definition title_of (doc : json) : json :=
  match doc with
  | JObj m => default (JStr PLACEHOLDER_TITLE) (m !! "chart_name")
  | _ => JStr PLACEHOLDER_TITLE
  end.

(** The shape of section 4.1: a sequence of sections, each containing a
    sequence of tasks. *)
Definition sequence_shape (doc : json) : bool :=
  match doc with
  | JObj m =>
      match m !! "sections" with
      | Some (JArr secs) =>
          forallb (fun sec =>
            match sec with
            | JObj sm =>
                match sm !! "tasks" with
                | Some (JArr _) => true
                | _ => false
                end
            | _ => false
            end) secs
      | _ => false
      end
  | _ => false
  end.

(** The same with the names of the sections present: every key that the two
    loops read outside the tasks is there. *)
Definition section_shape (sec : json) : bool :=
  match sec with
  | JObj sm =>
      match sm !! "section_name", sm !! "tasks" with
      | Some _, Some (JArr _) => true
      | _, _ => false
      end
  | _ => false
  end.

Definition well_shaped (doc : json) : bool :=
  match doc with
  | JObj m =>
      match m !! "sections" with
      | Some (JArr secs) => forallb section_shape secs
      | _ => false
      end
  | _ => false
  end.

(** The shapes that do not stop the two loops by themselves: an object whose
    [sections], when present, can be iterated, its elements being objects
    with a [section_name] and with [tasks] that can be iterated.  Besides
    sequences, Python iterates strings and objects. *)
Definition loop_shape (doc : json) : bool :=
  match doc with
  | JObj m =>
      match py_iter (default (JArr []) (m !! "sections")) with
      | Ok secs =>
          forallb (fun sec =>
            match sec with
            | JObj sm =>
                match sm !! "section_name", sm !! "tasks" with
                | Some _, Some ts => is_ok (py_iter ts)
                | _, _ => false
                end
            | _ => false
            end) secs
      | Raise _ => false
      end
  | _ => false
  end.

(** The errors of a malformed schedule, in Python's classes. *)
Definition malformed_schedule_error (e : exn) : bool :=
  match e with
  | AttributeError | TypeError | KeyError => true
  | _ => false
  end.

(** *** Truth values *)

(** The JSON values that Python takes for false: [None], [False], the
    integer zero, the zeros of the doubles, the empty string, the empty list
    and the empty object.  Every other value is taken for true, among them
    [True], every other number (infinities and NaN included) and every
    container with an element. *)
Definition falsy_values : list json :=
  [JNull; JBool false; JInt 0; JFloat (S754_zero false); JFloat (S754_zero true);
   JStr ""; JArr []; JObj ∅].

(** *** The dates of a task *)

Definition duration_of (t : json) : Z :=
  match t with
  | JObj tm =>
      match tm !! "duration_days" with
      | Some (JInt n) => n
      | _ => 0
      end
  | _ => 0
  end.

Definition start_of `{Library} (t : json) : result datetime :=
  match t with
  | JObj tm => Strptime.strptime (default JNull (tm !! "start_date"))
  | _ => Raise TypeError
  end.

(** The end date of the task is a date of the calendar: its ordinal, the
    ordinal of the start date plus the duration, is within
    0001-01-01..9999-12-31. *)
Definition ends_in_calendar `{Library} (t : json) : bool :=
  match start_of t with
  | Ok start =>
      let o := toordinal start + duration_of t in
      (1 <=? o) && (o <=? Calendar.MAXORDINAL)
  | Raise _ => false
  end.

(** The dates of the row [r] are those of the task [t]: the start is the
    date read from [start_date], the end is [duration_days] calendar days
    later at the same time of day, and it is the start itself when the
    duration is zero. *)
Definition row_dates `{Library} (t : json) (r : row) : Prop :=
  start_of t = Ok (row_Start r) /\
  toordinal (row_Finish r) = toordinal (row_Start r) + duration_of t /\
  second_of_day (row_Finish r) = second_of_day (row_Start r) /\
  dt_microsecond (row_Finish r) = dt_microsecond (row_Start r) /\
  Calendar.check_date_fields
    (dt_year (row_Finish r)) (dt_month (row_Finish r)) (dt_day (row_Finish r))
  = true /\
  (duration_of t = 0 -> row_Finish r = row_Start r).

(** *** The name of the exported image *)

Fixpoint has_dot (s : string) : bool :=
  match s with
  | EmptyString => false
  | String c s' => Ascii.eqb c "." || has_dot s'
  end.

Fixpoint strip_last_extension (s : string) : string :=
  match s with
  | EmptyString => EmptyString
  | String c s' =>
      if Ascii.eqb c "." && negb (has_dot s') then EmptyString
      else String c (strip_last_extension s')
  end.

(** The file name without its extension (a leading dot starts no
    extension). *)
Definition without_extension (name : string) : string :=
  match name with
  | EmptyString => EmptyString
  | String c s' => String c (strip_last_extension s')
  end.

(** A name without dots and slashes. *)
Fixpoint plain (s : string) : bool :=
  match s with
  | EmptyString => true
  | String c s' => negb (Ascii.eqb c ".") && negb (Ascii.eqb c "/") && plain s'
  end.

(** [<original-filename-without-extension>_gantt_chart.<ext>], the image
    extension being [png]. *)
Definition image_name (json_file : string) : string :=
  without_extension (basename json_file) +:+ "_gantt_chart" +:+ ".png".

End Spec.

(** The error [e] comes from a task of the document: some task of some
    section that the loops visit raises it in the body of the inner loop. *)
Definition raised_by_task `{Library} (doc : json) (e : exn) : Prop :=
  exists m sections section section_name section_tasks items task,
    doc = JObj m /\
    py_iter (default (JArr []) (m !! "sections")) = Ok sections /\
    In section sections /\
    getitem section "section_name" = Ok section_name /\
    getitem section "tasks" = Ok section_tasks /\
    py_iter section_tasks = Ok items /\
    In task items /\
    task_row section_name task = Raise e.

(** ** Example documents and file systems *)

Module Examples.

Definition obj (fields : list (string * json)) : json := JObj (list_to_map fields).

Definition task (name date : string) (days : Z) : json :=
  obj [("task_name", JStr name); ("start_date", JStr date);
       ("duration_days", JInt days)].

Definition one_file (path : string) (doc : json) : world :=
  {| listdir_json := Ok []; files := {[path := JsonFile doc]};
     images := ∅; clock := 0 |}.

(** The scenario of section 8. *)
Definition launch : json :=
  obj [("chart_name", JStr "Launch");
       ("sections", JArr [
          obj [("section_name", JStr "Prep");
               ("tasks", JArr [
                  obj [("task_name", JStr "Design");
                       ("start_date", JStr "2024-01-01");
                       ("duration_days", JInt 5);
                       ("is_critical", JBool true)]])]])].

(** Two sections, three tasks, no title; durations zero and negative. *)
Definition two_sections : json :=
  obj [("sections", JArr [
          obj [("section_name", JStr "Build");
               ("tasks", JArr [task "Frame" "2024-02-28" 2;
                               task "Roof" "2024-03-01" 0])];
          obj [("section_name", JStr "Sell");
               ("tasks", JArr [task "List" "2024-03-10" (-10)])]])].

(** A valid document whose only task ends after 9999-12-31. *)
Definition last_day : json :=
  obj [("sections", JArr [
          obj [("section_name", JStr "End");
               ("tasks", JArr [task "Party" "9999-12-31" 1])]])].

(** A date written day first, and one written without leading zeros. *)
Definition day_first : json :=
  obj [("sections", JArr [
          obj [("section_name", JStr "Prep");
               ("tasks", JArr [task "Design" "01-01-2024" 5])]])].

Definition short_date : json :=
  obj [("sections", JArr [
          obj [("section_name", JStr "Prep");
               ("tasks", JArr [task "Design" "2024-1-5" 5])]])].

(** A section that parses, a section whose second task is dated day first
    and is followed by a task that is no object, and a section that is no
    object. *)
Definition planned : json :=
  obj [("section_name", JStr "Plan");
       ("tasks", JArr [task "Scope" "2024-01-02" 3])].

Definition prepared : json :=
  obj [("section_name", JStr "Prep");
       ("tasks", JArr [task "Order" "2024-1-5" 2;
                       task "Design" "01-01-2024" 5;
                       JNull])].

Definition date_then_malformed : json :=
  obj [("sections", JArr [planned; prepared; JInt 3])].

(** Tasks whose [is_critical] is no boolean: a non-empty string, zero, null,
    an empty list and the double 0.0. *)
Definition flagged (name : string) (flag : json) : json :=
  obj [("task_name", JStr name); ("start_date", JStr "2024-05-01");
       ("duration_days", JInt 1); ("is_critical", flag)].

Definition odd_flags : json :=
  obj [("chart_name", JStr "Flags");
       ("sections", JArr [
          obj [("section_name", JStr "Odd");
               ("tasks", JArr [flagged "text" (JStr "no");
                               flagged "zero" (JInt 0);
                               flagged "null" JNull;
                               flagged "list" (JArr []);
                               flagged "real" (JFloat (S754_zero false))])]])].

(** Tasks with [true], [false], 1, a list that holds a zero, an object with
    a key, a negative fraction and the negative zero as [is_critical], and a
    task without the key. *)
Definition all_flags : json :=
  obj [("sections", JArr [
          obj [("section_name", JStr "All");
               ("tasks", JArr [flagged "true" (JBool true);
                               flagged "false" (JBool false);
                               flagged "one" (JInt 1);
                               flagged "list" (JArr [JInt 0]);
                               flagged "object" (obj [("a", JNull)]);
                               flagged "half" (JFloat (S754_finite true 1 (-1)));
                               flagged "minus zero" (JFloat (S754_zero true));
                               flagged "empty object" (obj []);
                               task "absent" "2024-05-01" 1])]])].

(** A document without sections, and one whose sections are no sequence. *)
Definition no_sections : json := obj [("chart_name", JStr "Empty")].

Definition sections_number : json := obj [("sections", JInt 3)].

(** A library whose [px.timeline] and [write_image] raise nothing; no
    example that is run with it has a fractional duration, a task name that
    is not a string or a character outside ASCII. *)
Definition obliging_library : Library :=
  {| timedelta_float_days := fun _ => Raise OverflowError;
     format_value := fun _ => "";
     timeline_error := fun _ _ => None;
     write_image_error := fun _ => None;
     unicode_decimal := fun _ => None |}.

(** The date 2024-01-15 with its year and the last digit of its day in
    Arabic-Indic digits (U+0660 to U+0669, encoded as the byte 217 and a
    byte of 160 to 169), a document with a task that starts on it, and a
    library whose Unicode database knows these digits. *)
Definition arabic_indic (k : Z) : string :=
  String (ascii_of_nat 217) (String (ascii_of_N (Z.to_N (160 + k))) "").

Definition arabic_indic_date : string :=
  arabic_indic 2 +:+ arabic_indic 0 +:+ arabic_indic 2 +:+ arabic_indic 4
  +:+ "-01-1" +:+ arabic_indic 5.

Definition other_script : json :=
  obj [("sections", JArr [
          obj [("section_name", JStr "Prep");
               ("tasks", JArr [task "Design" arabic_indic_date 5])]])].

Definition arabic_indic_library : Library :=
  {| timedelta_float_days := fun _ => Raise OverflowError;
     format_value := fun _ => "";
     timeline_error := fun _ _ => None;
     write_image_error := fun _ => None;
     unicode_decimal := fun ch =>
       match ch with
       | String a (String b EmptyString) =>
           if ((N_of_ascii a =? 217) && (160 <=? N_of_ascii b)
               && (N_of_ascii b <=? 169))%N
           then Some (Z.of_N (N_of_ascii b) - 160)
           else None
       | _ => None
       end |}.

(** A directory with two schedules and a file that is not one, and the same
    directory with a schedule file that is not JSON. *)
Definition registry : world :=
  {| listdir_json := Ok ["plan.json"; "notes.txt"; "launch.json"];
     files := <["json/plan.json" := JsonFile two_sections]>
              (<["json/notes.txt" := NotJson]>
              {["json/launch.json" := JsonFile launch]});
     images := ∅; clock := 0 |}.


(** The fields of a task that lasts [true] days. *)
Definition true_days : gmap string json :=
  list_to_map [("task_name", JStr "Design"); ("start_date", JStr "2024-01-01");
               ("duration_days", JBool true)].

(** An upload: the text of the scenario of section 8, its base64 encoding,
    and a platform that agrees with Python on the texts used here, never
    fails to write and lists a new name last. *)
Module Uploads.

Definition quoted (s : string) : string :=
  let q := String (ascii_of_nat 34) EmptyString in q +:+ s +:+ q.

Definition launch_text : string :=
  "{" +:+ quoted "chart_name" +:+ ":" +:+ quoted "Launch" +:+ ","
  +:+ quoted "sections" +:+ ":[{" +:+ quoted "section_name" +:+ ":"
  +:+ quoted "Prep" +:+ "," +:+ quoted "tasks" +:+ ":[{"
  +:+ quoted "task_name" +:+ ":" +:+ quoted "Design" +:+ ","
  +:+ quoted "start_date" +:+ ":" +:+ quoted "2024-01-01" +:+ ","
  +:+ quoted "duration_days" +:+ ":5," +:+ quoted "is_critical"
  +:+ ":true}]}]}".

Definition launch_base64 : string :=
  "eyJjaGFydF9uYW1lIjoiTGF1bmNoIiwic2VjdGlvbnMiOlt7InNlY3Rpb25fbmFtZSI6IlByZX"
  +:+ "AiLCJ0YXNrcyI6W3sidGFza19uYW1lIjoiRGVzaWduIiwic3RhcnRfZGF0ZSI6IjIwMjQt"
  +:+ "MDEtMDEiLCJkdXJhdGlvbl9kYXlzIjo1LCJpc19jcml0aWNhbCI6dHJ1ZX1dfV19".

Definition launch_contents : string :=
  "data:application/json;base64," +:+ launch_base64.

(** The text [not json] and its encoding. *)
Definition prose_base64 : string := "bm90IGpzb24=".

Definition prose_contents : string := "data:text/plain;base64," +:+ prose_base64.

Definition platform : Platform :=
  {| b64decode := fun s =>
       if String.eqb s launch_base64 then Ok (list_byte_of_string launch_text)
       else if String.eqb s prose_base64 then Ok (list_byte_of_string "not json")
       else Raise ValueError;
     decode_utf8 := fun b => Ok (string_of_list_byte b);
     json_of_text := fun text =>
       if String.eqb text launch_text then JsonFile launch else NotJson;
     write_failure := fun _ _ _ => None;
     listing_with := fun f names =>
       if bool_decide (f ∈ names) then names else names ++ [f];
     listing_with_perm := fun f names =>
       match bool_decide (f ∈ names) as b
         return (if b then names else names ++ [f])
                ≡ₚ (if b then names else f :: names)
       with
       | true => Permutation_refl names
       | false => Permutation_sym (Permutation_cons_append names f)
       end |}.

End Uploads.

End Examples.

(** * Properties *)

Lemma bind_Ok {A B : Type} (a : A) (f : A -> result B) : (Ok a ≫= f) = f a.
Proof. reflexivity. Qed.

Lemma bind_Raise {A B : Type} (e : exn) (f : A -> result B) :
  (Raise e ≫= f) = Raise e.
Proof. reflexivity. Qed.

(** Running the binds whose first computation is known. *)
Ltac run_binds := repeat (rewrite bind_Ok; cbv beta).

(** ** The calendar *)

Module CalendarFacts.
Import Calendar.

Lemma days_before_year_split (a b c e : Z) :
  0 <= b <= 3 -> 0 <= c <= 24 -> 0 <= e <= 3 ->
  days_before_year (400 * a + 100 * b + 4 * c + e + 1)
  = DI400Y * a + DI100Y * b + DI4Y * c + 365 * e.
Proof.
  intros Hb Hc He. unfold days_before_year, DI400Y, DI100Y, DI4Y.
  replace (400 * a + 100 * b + 4 * c + e + 1 - 1)
    with (400 * a + 100 * b + 4 * c + e) by lia.
  Z.div_mod_to_equations. lia.
Qed.

Lemma is_leap_split (a b c e : Z) :
  0 <= b <= 3 -> 0 <= c <= 24 -> 0 <= e <= 3 ->
  is_leap (400 * a + 100 * b + 4 * c + e + 1)
  = (e =? 3) && (negb (c =? 24) || (b =? 3)).
Proof.
  intros Hb Hc He. unfold is_leap.
  destruct (Z.eqb_spec e 3), (Z.eqb_spec c 24), (Z.eqb_spec b 3);
    cbn [andb orb negb];
    repeat match goal with
    | |- context [?x mod ?k =? 0] => destruct (Z.eqb_spec (x mod k) 0)
    end; cbn [andb orb negb]; try reflexivity;
    exfalso; Z.div_mod_to_equations; lia.
Qed.

Lemma ymd2ord_split (a b c e m d : Z) :
  0 <= b <= 3 -> 0 <= c <= 24 -> 0 <= e <= 3 ->
  ymd2ord (400 * a + 100 * b + 4 * c + e + 1) m d
  = DI400Y * a + DI100Y * b + DI4Y * c + 365 * e
    + (DAYS_BEFORE_MONTH m
       + Z.b2z ((2 <? m) && ((e =? 3) && (negb (c =? 24) || (b =? 3)))))
    + d.
Proof.
  intros Hb Hc He. unfold ymd2ord, days_before_month.
  now rewrite days_before_year_split, is_leap_split.
Qed.

(** The month that [_ord2ymd] estimates from the day of the year is the
    month of that day or the one after it; stepping back one month subtracts
    that month's length, and the day left is a day of the month found. *)
Lemma month_estimate (n : Z) (leap : bool) :
  0 <= n < 365 ->
  let month := Z.shiftr (n + 50) 5 in
  let preceding := DAYS_BEFORE_MONTH month + Z.b2z ((2 <? month) && leap) in
  1 <= month <= 12 /\
  (n < preceding ->
   2 <= month /\
   preceding - (DAYS_IN_MONTH (month - 1) + Z.b2z ((month - 1 =? 2) && leap))
   = DAYS_BEFORE_MONTH (month - 1) + Z.b2z ((2 <? month - 1) && leap) /\
   1 <= n - (DAYS_BEFORE_MONTH (month - 1) + Z.b2z ((2 <? month - 1) && leap)) + 1
     <= DAYS_IN_MONTH (month - 1) + Z.b2z ((month - 1 =? 2) && leap)) /\
  (preceding <= n ->
   1 <= n - preceding + 1 <= DAYS_IN_MONTH month + Z.b2z ((month =? 2) && leap)).
Proof.
  intros Hn month preceding. subst preceding.
  assert (Hrel : 32 * month <= n + 50 < 32 * month + 32).
  { subst month. rewrite Z.shiftr_div_pow2 by lia.
    change (2 ^ 5) with 32. Z.div_mod_to_equations. lia. }
  assert (Hcases : month = 1 \/ month = 2 \/ month = 3 \/ month = 4 \/
                   month = 5 \/ month = 6 \/ month = 7 \/ month = 8 \/
                   month = 9 \/ month = 10 \/ month = 11 \/ month = 12) by lia.
  clearbody month.
  repeat (destruct Hcases as [-> | Hcases]); try subst month;
    destruct leap; (split; [lia |]);
    vm_compute DAYS_BEFORE_MONTH; vm_compute DAYS_IN_MONTH;
    repeat match goal with
    | |- context [Z.b2z ?b] =>
        let v := eval vm_compute in (Z.b2z b) in change (Z.b2z b) with v
    | |- context [DAYS_BEFORE_MONTH ?b] =>
        let v := eval vm_compute in (DAYS_BEFORE_MONTH b) in
        change (DAYS_BEFORE_MONTH b) with v
    | |- context [DAYS_IN_MONTH ?b] =>
        let v := eval vm_compute in (DAYS_IN_MONTH b) in
        change (DAYS_IN_MONTH b) with v
    end; lia.
Qed.

(** The decomposition of an ordinal into cycles of 400, 100, 4 and 1 years
    that [_ord2ymd] computes, with the bounds of each count. *)
Ltac split_ordinal n0 a b c e r4 :=
  let r1 := fresh "r1" in
  let r2 := fresh "r2" in
  let r3 := fresh "r3" in
  set (a := n0 / DI400Y); set (r1 := n0 mod DI400Y);
  set (b := r1 / DI100Y); set (r2 := r1 mod DI100Y);
  set (c := r2 / DI4Y); set (r3 := r2 mod DI4Y);
  set (e := r3 / 365); set (r4 := r3 mod 365);
  assert (n0 = DI400Y * a + r1 /\ 0 <= r1 < DI400Y)
    by (subst a r1; unfold DI400Y; Z.div_mod_to_equations; lia);
  assert (r1 = DI100Y * b + r2 /\ 0 <= r2 < DI100Y)
    by (subst b r2; unfold DI100Y; Z.div_mod_to_equations; lia);
  assert (r2 = DI4Y * c + r3 /\ 0 <= r3 < DI4Y)
    by (subst c r3; unfold DI4Y; Z.div_mod_to_equations; lia);
  assert (r3 = 365 * e + r4 /\ 0 <= r4 < 365)
    by (subst e r4; Z.div_mod_to_equations; lia);
  clearbody a r1 b r2 c r3 e r4; unfold DI400Y, DI100Y, DI4Y in *;
  assert (0 <= b <= 4) by lia;
  assert (0 <= c <= 24) by lia;
  assert (0 <= e <= 4) by lia.

(** [_ymd2ord] undoes [_ord2ymd] on every positive ordinal. *)
Lemma ymd2ord_ord2ymd (n : Z) :
  1 <= n ->
  let '(y, m, d) := ord2ymd n in ymd2ord y m d = n.
Proof.
  intros Hn. unfold ord2ymd. cbv zeta.
  set (n0 := n - 1). split_ordinal n0 a b c e r4.
  destruct (Z.eqb_spec e 4) as [He4 | He4]; cbn [orb].
  - (* the last day of a four-year cycle *)
    replace (a * 400 + 1 + b * 100 + c * 4 + e - 1)
      with (400 * a + 100 * b + 4 * c + 3 + 1) by lia.
    assert (b <= 3) by lia. assert (c <= 23) by lia.
    rewrite ymd2ord_split by lia. unfold DI400Y, DI100Y, DI4Y.
    destruct (Z.eqb_spec c 24); [lia|]. cbn. lia.
  - destruct (Z.eqb_spec b 4) as [Hb4 | Hb4].
    + (* the last day of a 400-year cycle *)
      replace (a * 400 + 1 + b * 100 + c * 4 + e - 1)
        with (400 * a + 100 * 3 + 4 * 24 + 3 + 1) by lia.
      rewrite ymd2ord_split by lia. unfold DI400Y, DI100Y, DI4Y. cbn. lia.
    + replace (a * 400 + 1 + b * 100 + c * 4 + e)
        with (400 * a + 100 * b + 4 * c + e + 1) by lia.
      set (leap := (e =? 3) && (negb (c =? 24) || (b =? 3))).
      destruct (month_estimate r4 leap ltac:(lia)) as (Hm & Hback & _).
      cbv zeta in Hback.
      set (month := Z.shiftr (r4 + 50) 5) in *.
      destruct (Z.ltb_spec r4
                  (DAYS_BEFORE_MONTH month + Z.b2z ((2 <? month) && leap)))
        as [Hlt | Hge].
      * destruct (Hback Hlt) as (_ & Heq & _).
        rewrite ymd2ord_split by lia. fold leap.
        unfold DI400Y, DI100Y, DI4Y. lia.
      * rewrite ymd2ord_split by lia. fold leap.
        unfold DI400Y, DI100Y, DI4Y. lia.
Qed.

Lemma days_in_month_alt (y m : Z) :
  days_in_month y m = DAYS_IN_MONTH m + Z.b2z ((m =? 2) && is_leap y).
Proof.
  unfold days_in_month.
  destruct (Z.eqb_spec m 2) as [-> | Hm]; destruct (is_leap y); cbn; lia.
Qed.

Lemma days_before_year_bounds (y : Z) :
  MINYEAR <= y <= MAXYEAR ->
  0 <= days_before_year y /\
  days_before_year y + 365 + Z.b2z (is_leap y) <= MAXORDINAL.
Proof.
  unfold MINYEAR, MAXYEAR, MAXORDINAL, days_before_year, is_leap. intros Hy.
  repeat match goal with
  | |- context [?x mod ?k =? 0] => destruct (Z.eqb_spec (x mod k) 0)
  end; cbn [andb orb negb Z.b2z];
  Z.div_mod_to_equations; lia.
Qed.

Lemma check_date_fields_spec (y m d : Z) :
  check_date_fields y m d = true <->
  MINYEAR <= y <= MAXYEAR /\ 1 <= m <= 12 /\ 1 <= d <= days_in_month y m.
Proof. unfold check_date_fields. rewrite !andb_true_iff, !Z.leb_le. lia. Qed.

(** The ordinal of a date that [_check_date_fields] accepts. *)
Lemma ymd2ord_bounds (y m d : Z) :
  check_date_fields y m d = true -> 1 <= ymd2ord y m d <= MAXORDINAL.
Proof.
  rewrite check_date_fields_spec. intros (Hy & Hm & Hd).
  pose proof (days_before_year_bounds y Hy) as Hb.
  unfold ymd2ord, days_before_month, days_in_month in *.
  assert (Hcases : m = 1 \/ m = 2 \/ m = 3 \/ m = 4 \/ m = 5 \/ m = 6 \/
                   m = 7 \/ m = 8 \/ m = 9 \/ m = 10 \/ m = 11 \/ m = 12) by lia.
  repeat (destruct Hcases as [-> | Hcases]); try subst m;
    destruct (is_leap y); cbn in *; lia.
Qed.

(** [_ord2ymd] yields a date that [_check_date_fields] accepts on every
    ordinal of the supported range. *)
Lemma ord2ymd_valid (n : Z) :
  1 <= n <= MAXORDINAL ->
  let '(y, m, d) := ord2ymd n in check_date_fields y m d = true.
Proof.
  unfold MAXORDINAL. intros Hn. unfold ord2ymd. cbv zeta.
  set (n0 := n - 1). split_ordinal n0 a b c e r4.
  assert (Ha : 0 <= a <= 24) by lia.
  destruct (Z.eqb_spec e 4) as [He4 | He4]; cbn [orb].
  - apply check_date_fields_spec. unfold MINYEAR, MAXYEAR.
    rewrite days_in_month_alt. cbn. lia.
  - destruct (Z.eqb_spec b 4) as [Hb4 | Hb4].
    + apply check_date_fields_spec. unfold MINYEAR, MAXYEAR.
      rewrite days_in_month_alt. cbn. lia.
    + replace (a * 400 + 1 + b * 100 + c * 4 + e)
        with (400 * a + 100 * b + 4 * c + e + 1) by lia.
      set (leap := (e =? 3) && (negb (c =? 24) || (b =? 3))).
      destruct (month_estimate r4 leap ltac:(lia)) as (Hm & Hback & Hstay).
      cbv zeta in Hback, Hstay.
      set (month := Z.shiftr (r4 + 50) 5) in *.
      destruct (Z.ltb_spec r4
                  (DAYS_BEFORE_MONTH month + Z.b2z ((2 <? month) && leap)))
        as [Hlt | Hge];
        apply check_date_fields_spec; unfold MINYEAR, MAXYEAR;
        rewrite days_in_month_alt, is_leap_split by lia; fold leap.
      * destruct (Hback Hlt) as (Hm2 & Heq & Hday). rewrite Heq. lia.
      * specialize (Hstay Hge). lia.
Qed.

Lemma days_before_year_mono (y y' : Z) :
  y < y' ->
  days_before_year y + 365 + Z.b2z (is_leap y) <= days_before_year y'.
Proof.
  intros Hlt. unfold days_before_year, is_leap.
  repeat match goal with
  | |- context [?x mod ?k =? 0] => destruct (Z.eqb_spec (x mod k) 0)
  end; cbn [andb orb negb Z.b2z];
  Z.div_mod_to_equations; lia.
Qed.

Lemma day_of_year_bounds (y m d : Z) :
  1 <= m <= 12 -> 1 <= d <= days_in_month y m ->
  1 <= days_before_month y m + d <= 365 + Z.b2z (is_leap y).
Proof.
  intros Hm Hd. unfold days_before_month, days_in_month in *.
  assert (Hcases : m = 1 \/ m = 2 \/ m = 3 \/ m = 4 \/ m = 5 \/ m = 6 \/
                   m = 7 \/ m = 8 \/ m = 9 \/ m = 10 \/ m = 11 \/ m = 12) by lia.
  repeat (destruct Hcases as [-> | Hcases]); try subst m;
    destruct (is_leap y); cbn in *; lia.
Qed.

Lemma day_of_year_inj (y m d m' d' : Z) :
  1 <= m <= 12 -> 1 <= d <= days_in_month y m ->
  1 <= m' <= 12 -> 1 <= d' <= days_in_month y m' ->
  days_before_month y m + d = days_before_month y m' + d' ->
  m = m' /\ d = d'.
Proof.
  intros Hm Hd Hm' Hd'. unfold days_before_month, days_in_month in *.
  assert (Hcases : m = 1 \/ m = 2 \/ m = 3 \/ m = 4 \/ m = 5 \/ m = 6 \/
                   m = 7 \/ m = 8 \/ m = 9 \/ m = 10 \/ m = 11 \/ m = 12) by lia.
  assert (Hcases' : m' = 1 \/ m' = 2 \/ m' = 3 \/ m' = 4 \/ m' = 5 \/ m' = 6 \/
                   m' = 7 \/ m' = 8 \/ m' = 9 \/ m' = 10 \/ m' = 11 \/ m' = 12) by lia.
  destruct (is_leap y);
  repeat (destruct Hcases as [-> | Hcases]); try subst m;
  repeat (destruct Hcases' as [-> | Hcases']); try subst m';
    cbn in *; lia.
Qed.

Lemma ymd2ord_inj (y m d y' m' d' : Z) :
  check_date_fields y m d = true -> check_date_fields y' m' d' = true ->
  ymd2ord y m d = ymd2ord y' m' d' -> (y, m, d) = (y', m', d').
Proof.
  rewrite !check_date_fields_spec. intros (_ & Hm & Hd) (_ & Hm' & Hd') Heq.
  unfold ymd2ord in Heq.
  pose proof (day_of_year_bounds y m d Hm Hd).
  pose proof (day_of_year_bounds y' m' d' Hm' Hd').
  assert (y = y') as <-.
  { destruct (Z.lt_trichotomy y y') as [Hlt | [Heq' | Hgt]]; [|exact Heq'|].
    - pose proof (days_before_year_mono y y' Hlt). lia.
    - pose proof (days_before_year_mono y' y ltac:(lia)). lia. }
  destruct (day_of_year_inj y m d m' d') as [-> ->]; try assumption; [lia|].
  reflexivity.
Qed.

Lemma ord2ymd_ymd2ord (y m d : Z) :
  check_date_fields y m d = true -> ord2ymd (ymd2ord y m d) = (y, m, d).
Proof.
  intros Hchk. pose proof (ymd2ord_bounds y m d Hchk) as Hb.
  pose proof (ymd2ord_ord2ymd (ymd2ord y m d) ltac:(lia)) as Hord.
  pose proof (ord2ymd_valid (ymd2ord y m d) Hb) as Hvalid.
  destruct (ord2ymd (ymd2ord y m d)) as [[y' m'] d'].
  now apply ymd2ord_inj.
Qed.

End CalendarFacts.

(** ** The error monad and the two loops *)

Section LoopFacts.
Context `{Library}.

Lemma mapM_result_app {A B : Type} (f : A -> result B) (l1 l2 : list A) :
  mapM f (l1 ++ l2) = (r1 ← mapM f l1; r2 ← mapM f l2; mret (r1 ++ r2)).
Proof.
  induction l1 as [|x l1 IH]; cbn.
  - destruct (mapM f l2); reflexivity.
  - destruct (f x); cbn; [|reflexivity].
    rewrite IH. destruct (mapM f l1); cbn; [|reflexivity].
    destruct (mapM f l2); reflexivity.
Qed.

Lemma mapM_result_map {A B C : Type} (f : B -> result C) (g : A -> B) (l : list A) :
  mapM f (map g l) = mapM (fun x => f (g x)) l.
Proof.
  induction l as [|x l IH]; cbn; [reflexivity|].
  destruct (f (g x)); cbn; [|reflexivity]. now rewrite IH.
Qed.

Lemma mapM_result_length {A B : Type} (f : A -> result B) (l : list A) (r : list B) :
  mapM f l = Ok r -> length r = length l.
Proof.
  revert r. induction l as [|x l IH]; cbn; intros r Hr.
  - now inversion Hr.
  - destruct (f x); cbn in Hr; [|discriminate].
    destruct (mapM f l) as [k|]; cbn in Hr; [|discriminate].
    inversion Hr; subst. cbn. f_equal. now apply IH.
Qed.

Lemma mapM_result_Forall2 {A B : Type} (f : A -> result B) (l : list A) (r : list B) :
  mapM f l = Ok r <-> Forall2 (fun x y => f x = Ok y) l r.
Proof.
  revert r. induction l as [|x l IH]; cbn; intros r.
  - split; intros Hr; [inversion Hr; constructor | now inversion Hr].
  - split.
    + intros Hr. destruct (f x) eqn:Hx; cbn in Hr; [|discriminate].
      destruct (mapM f l) as [k|]; cbn in Hr; [|discriminate].
      inversion Hr; subst. constructor; [exact Hx | now apply IH].
    + intros Hr. inversion Hr as [|? y ? k Hx Hk]; subst.
      rewrite Hx. cbn. apply IH in Hk. rewrite Hk. reflexivity.
Qed.

(** The first element that raises stops the traversal with its error. *)
Lemma mapM_result_first_error {A B : Type} (f : A -> result B)
    (l1 l2 : list A) (x : A) (e : exn) :
  Forall (fun x => is_ok (f x) = true) l1 -> f x = Raise e ->
  mapM f (l1 ++ x :: l2) = Raise e.
Proof.
  intros Hl1 Hx. induction Hl1 as [|y l1 Hy _ IH]; cbn.
  - now rewrite Hx.
  - destruct (f y); [|discriminate]. cbn. now rewrite IH.
Qed.

(** The inner loop appends to [tasks] the rows of the items, in order. *)
Lemma task_loop_mapM (section_name : json) (items : list json) (tasks : list row) :
  task_loop section_name items tasks
  = (rows ← mapM (task_row section_name) items; mret (tasks ++ rows)).
Proof.
  revert tasks. induction items as [|t items IH]; intros tasks; cbn.
  - now rewrite app_nil_r.
  - destruct (task_row section_name t) as [r|e]; cbn; [|reflexivity].
    rewrite IH. destruct (mapM (task_row section_name) items); cbn; [|reflexivity].
    now rewrite <- app_assoc.
Qed.

(** A property of rows that every appended row has is kept by the loops. *)
Lemma task_loop_Forall (P : row -> Prop) (section_name : json)
    (items : list json) (tasks tasks' : list row) :
  (forall t r, task_row section_name t = Ok r -> P r) ->
  Forall P tasks -> task_loop section_name items tasks = Ok tasks' ->
  Forall P tasks'.
Proof.
  intros HP. revert tasks. induction items as [|t items IH]; cbn; intros tasks Hin Hloop.
  - now inversion Hloop; subst.
  - destruct (task_row section_name t) as [r|e] eqn:Hr; cbn in Hloop; [|discriminate].
    apply (IH (tasks ++ [r])); [|exact Hloop].
    apply Forall_app; split; [exact Hin|]. constructor; [eauto | constructor].
Qed.

Lemma section_loop_Forall (P : row -> Prop) (sections : list json)
    (tasks tasks' : list row) :
  (forall n t r, task_row n t = Ok r -> P r) ->
  Forall P tasks -> section_loop sections tasks = Ok tasks' ->
  Forall P tasks'.
Proof.
  intros HP. revert tasks. induction sections as [|sec sections IH]; cbn; intros tasks Hin Hloop.
  - now inversion Hloop; subst.
  - destruct (getitem sec "section_name") as [n|]; cbn in Hloop; [|discriminate].
    destruct (getitem sec "tasks") as [ts|]; cbn in Hloop; [|discriminate].
    destruct (py_iter ts) as [items|]; cbn in Hloop; [|discriminate].
    destruct (task_loop n items tasks) as [tasks1|] eqn:Hinner; cbn in Hloop; [|discriminate].
    apply (IH tasks1); [|exact Hloop].
    eapply task_loop_Forall; [apply HP | exact Hin | exact Hinner].
Qed.

(** The outer loop only appends: the rows collected before it starts stay
    in front, unchanged. *)
Lemma section_loop_appends (sections : list json) (tasks : list row) :
  section_loop sections tasks
  = (rows ← section_loop sections []; mret (tasks ++ rows)).
Proof.
  revert tasks. induction sections as [|sec sections IH]; intros tasks; cbn.
  - now rewrite app_nil_r.
  - destruct (getitem sec "section_name") as [n|]; cbn; [|reflexivity].
    destruct (getitem sec "tasks") as [ts|]; cbn; [|reflexivity].
    destruct (py_iter ts) as [items|]; cbn; [|reflexivity].
    rewrite (task_loop_mapM n items tasks), (task_loop_mapM n items []).
    destruct (mapM (task_row n) items) as [rows1|]; cbn; [|reflexivity].
    rewrite (IH (tasks ++ rows1)), (IH rows1).
    destruct (section_loop sections []) as [rows|]; cbn; [|reflexivity].
    now rewrite app_assoc.
Qed.

Lemma section_loop_app (sections1 sections2 : list json) (tasks : list row) :
  section_loop (sections1 ++ sections2) tasks
  = (tasks' ← section_loop sections1 tasks; section_loop sections2 tasks').
Proof.
  revert tasks. induction sections1 as [|sec sections1 IH]; intros tasks; cbn;
    [reflexivity|].
  destruct (getitem sec "section_name") as [n|]; cbn; [|reflexivity].
  destruct (getitem sec "tasks") as [ts|]; cbn; [|reflexivity].
  destruct (py_iter ts) as [items|]; cbn; [|reflexivity].
  destruct (task_loop n items tasks) as [tasks1|]; cbn; [|reflexivity].
  apply IH.
Qed.

(** On sections of the expected shape the outer loop is the in-order
    traversal of all tasks. *)
Lemma section_loop_mapM (secs : list json) (tasks : list row) :
  forallb Spec.section_shape secs = true ->
  section_loop secs tasks
  = (rows ← mapM (fun st => task_row (fst st) (snd st))
              (concat (map Spec.section_tasks secs));
     mret (tasks ++ rows)).
Proof.
  revert tasks. induction secs as [|sec secs IH]; intros tasks Hshape; cbn.
  - now rewrite app_nil_r.
  - cbn in Hshape. apply andb_true_iff in Hshape as [Hsec Hsecs].
    destruct sec as [| | | | | |sm]; try discriminate.
    unfold Spec.section_tasks at 1. cbn in Hsec |- *.
    destruct (sm !! "section_name") as [n|]; [|discriminate].
    destruct (sm !! "tasks") as [[| | | | |ts|]|]; try discriminate.
    cbn. rewrite task_loop_mapM, mapM_result_app, mapM_result_map. cbn.
    match goal with |- context [mapM ?f ts] => destruct (mapM f ts) as [rows1|] end;
      cbn; [|reflexivity].
    rewrite (IH _ Hsecs).
    match goal with |- context [mapM ?f ?l] => destruct (mapM f l) end; cbn;
      [|reflexivity].
    now rewrite app_assoc.
Qed.

(** Lines 15-32 on a document of the expected shape. *)
Lemma gantt_data_well_shaped (doc : json) :
  Spec.well_shaped doc = true ->
  gantt_data doc
  = (rows ← mapM (fun st => task_row (fst st) (snd st)) (Spec.document_tasks doc);
     mret (rows, Spec.title_of doc)).
Proof.
  unfold Spec.well_shaped, Spec.document_tasks, Spec.sections_of, Spec.title_of,
    gantt_data.
  destruct doc as [| | | | | |m]; try discriminate. cbn.
  destruct (m !! "sections") as [[| | | | |secs|]|]; try discriminate.
  intros Hshape. cbn. rewrite (section_loop_mapM _ _ Hshape).
  match goal with |- context [mapM ?f ?l] => destruct (mapM f l) end; reflexivity.
Qed.

Lemma task_count_length (doc : json) :
  Spec.task_count doc = length (Spec.document_tasks doc).
Proof.
  unfold Spec.task_count, Spec.document_tasks.
  induction (Spec.sections_of doc) as [|sec secs IH]; cbn; [reflexivity|].
  rewrite length_app, IH. unfold Spec.section_tasks. now rewrite length_map.
Qed.

End LoopFacts.

(** ** Adding days to a date at midnight *)

Section DatetimeFacts.
Import Calendar.

Lemma datetime_add_midnight (y m d n : Z) :
  let start := mk_datetime y m d 0 0 0 0 in
  1 <= toordinal start + n <= MAXORDINAL ->
  exists fin,
    datetime_add start (mk_timedelta n 0 0) = Ok fin /\
    toordinal fin = toordinal start + n /\
    check_date_fields (dt_year fin) (dt_month fin) (dt_day fin) = true /\
    second_of_day fin = 0 /\ dt_microsecond fin = 0.
Proof.
  intros start Hn. unfold datetime_add. cbn.
  assert (Hs : second_of_day start + 0 + (0 + 0) / 1000000 = 0) by reflexivity.
  rewrite !Hs. change (0 / 86400) with 0. change (0 mod 86400) with 0.
  replace (toordinal start + n + 0) with (toordinal start + n) by lia.
  unfold MAXORDINAL, MAX_DELTA_DAYS in *.
  destruct (Z.ltb_spec 999999999 (Z.abs (toordinal start + n))); [lia|].
  destruct (Z.ltb_spec 0 (toordinal start + n)); [|lia].
  destruct (Z.leb_spec (toordinal start + n) 3652059); [|lia].
  cbn.
  pose proof (CalendarFacts.ymd2ord_ord2ymd (toordinal start + n) ltac:(lia)) as Hord.
  pose proof (CalendarFacts.ord2ymd_valid (toordinal start + n) ltac:(unfold MAXORDINAL; lia))
    as Hvalid.
  destruct (ord2ymd (toordinal start + n)) as [[y' m'] d'].
  eexists. split; [reflexivity|]. cbn. unfold toordinal at 1. cbn.
  repeat split; assumption.
Qed.

Lemma datetime_add_overflow (y m d n : Z) :
  let start := mk_datetime y m d 0 0 0 0 in
  ~ (1 <= toordinal start + n <= MAXORDINAL) ->
  datetime_add start (mk_timedelta n 0 0) = Raise OverflowError.
Proof.
  intros start Hn. unfold datetime_add. cbn.
  assert (Hs : second_of_day start + 0 + (0 + 0) / 1000000 = 0) by reflexivity.
  rewrite !Hs. change (0 / 86400) with 0.
  replace (toordinal start + n + 0) with (toordinal start + n) by lia.
  unfold MAXORDINAL in *.
  destruct (Z.ltb_spec MAX_DELTA_DAYS (Z.abs (toordinal start + n))); [reflexivity|].
  destruct (Z.ltb_spec 0 (toordinal start + n)); [|reflexivity].
  destruct (Z.leb_spec (toordinal start + n) 3652059); [lia|reflexivity].
Qed.

End DatetimeFacts.

(** ** Reading a date *)

#[local] Arguments String.append : simpl nomatch.

(** *** Characters *)

Lemma append_assoc (s1 s2 s3 : string) : (s1 +:+ s2) +:+ s3 = s1 +:+ (s2 +:+ s3).
Proof. induction s1 as [|c s1 IH]; cbn; [reflexivity | now rewrite IH]. Qed.

Lemma length_append (s1 s2 : string) :
  String.length (s1 +:+ s2) = (String.length s1 + String.length s2)%nat.
Proof. induction s1 as [|c s1 IH]; cbn; [reflexivity | now rewrite IH]. Qed.

Lemma append_empty_r (s : string) : s +:+ "" = s.
Proof. induction s as [|c s IH]; cbn; [reflexivity | now rewrite IH]. Qed.

Lemma split_at_append (n : nat) (s a b : string) :
  split_at n s = (a, b) -> s = a +:+ b.
Proof.
  revert s a b. induction n as [|n IH]; intros s a b; cbn.
  - destruct s; now intros [= <- <-].
  - destruct s as [|c s]; [now intros [= <- <-]|].
    destruct (split_at n s) as [a' b'] eqn:Hs. intros [= <- <-].
    cbn. f_equal. now apply IH.
Qed.

Lemma split_at_length (a t : string) :
  split_at (String.length a) (a +:+ t) = (a, t).
Proof.
  induction a as [|c a IH]; cbn; [now destruct t|]. now rewrite IH.
Qed.

Lemma next_char_append (s ch rest : string) :
  next_char s = Some (ch, rest) -> s = ch +:+ rest.
Proof.
  destruct s as [|c s]; [discriminate|]. unfold next_char.
  destruct (split_at _ s) as [tail rest'] eqn:Hs. intros [= <- <-].
  cbn. f_equal. now apply split_at_append in Hs.
Qed.

(** A whole character is cut off whatever follows it. *)
Lemma next_char_whole (c : ascii) (tail t : string) :
  String.length (String c tail) = char_length c ->
  next_char (String c tail +:+ t) = Some (String c tail, t).
Proof.
  intros Hlen. cbn [String.append next_char]. cbn in Hlen.
  replace (char_length c - 1)%nat with (String.length tail) by lia.
  now rewrite split_at_length.
Qed.

Lemma utf8_split_spec (k : nat) (s : string) :
  utf8_split k s = (fst (split_at k s), utf8_chars (snd (split_at k s))).
Proof.
  unfold utf8_chars. revert k. induction s as [|c s IH]; intros k.
  - now destruct k.
  - destruct k as [|k]; cbn [utf8_split split_at].
    + rewrite (IH (char_length c - 1)%nat). cbn. f_equal. now rewrite IH.
    + rewrite (IH k). destruct (split_at k s) as [a b]. reflexivity.
Qed.

Lemma utf8_chars_next (s : string) :
  utf8_chars s
  = match next_char s with
    | Some (ch, rest) => ch :: utf8_chars rest
    | None => []
    end.
Proof.
  destruct s as [|c s]; [reflexivity|].
  unfold utf8_chars at 1. cbn [utf8_split next_char].
  rewrite utf8_split_spec. destruct (split_at _ s) as [tail rest]. reflexivity.
Qed.

Lemma utf8_chars_whole (c : ascii) (tail t : string) :
  String.length (String c tail) = char_length c ->
  utf8_chars (String c tail +:+ t) = String c tail :: utf8_chars t.
Proof. intros Hlen. now rewrite utf8_chars_next, next_char_whole. Qed.

Module StrptimeFacts.
Import Strptime Spec.

Lemma digit_cases (k : Z) :
  0 <= k <= 9 ->
  k = 0 \/ k = 1 \/ k = 2 \/ k = 3 \/ k = 4 \/ k = 5 \/ k = 6 \/ k = 7 \/ k = 8 \/ k = 9.
Proof. lia. Qed.

Ltac each_digit k :=
  let H := fresh in
  match goal with
  | Hk : _ <= k <= _ |- _ => pose proof Hk as H
  end;
  apply digit_cases in H;
  repeat (destruct H as [-> | H]); try subst k.

(** Case analysis on an integer of a small range. *)
Ltac enum_range x lo n :=
  lazymatch n with
  | O => exfalso; lia
  | S ?n' =>
      let lo' := eval vm_compute in (lo + 1) in
      destruct (Z.eq_dec x lo) as [-> | ?]; [ | enum_range x lo' n' ]
  end.

Lemma is_digit_digit_char (k : Z) : 0 <= k <= 9 -> is_digit (digit_char k) = true.
Proof. intros Hk. each_digit k; reflexivity. Qed.

Lemma digit_value_digit_char (k : Z) : 0 <= k <= 9 -> digit_value (digit_char k) = k.
Proof. intros Hk. each_digit k; reflexivity. Qed.

Lemma skip_spaces_digit (k : Z) (s : string) :
  0 <= k <= 9 -> skip_spaces (String (digit_char k) s) = String (digit_char k) s.
Proof. intros Hk. each_digit k; reflexivity. Qed.

(** A character of a range of digits is a digit of the range. *)
Lemma in_range_digits (a b : Z) (c : ascii) :
  0 <= a <= 9 -> 0 <= b <= 9 ->
  in_range (digit_char a) (digit_char b) c = true ->
  exists k, a <= k <= b /\ c = digit_char k.
Proof.
  intros Ha Hb. unfold in_range, digit_char.
  rewrite andb_true_iff, !N.leb_le, !N_ascii_embedding by lia.
  intros [Hlo Hhi]. exists (Z.of_N (N_of_ascii c) - 48). split; [lia|].
  replace (48 + (Z.of_N (N_of_ascii c) - 48)) with (Z.of_N (N_of_ascii c)) by lia.
  now rewrite N2Z.id, ascii_N_embedding.
Qed.

Lemma is_digit_inv (c : ascii) :
  is_digit c = true -> exists k, 0 <= k <= 9 /\ c = digit_char k.
Proof. apply (in_range_digits 0 9); lia. Qed.

Lemma pad4_digits (k1 k2 k3 k4 : Z) :
  0 <= k1 <= 9 -> 0 <= k2 <= 9 -> 0 <= k3 <= 9 -> 0 <= k4 <= 9 ->
  pad4 (1000 * k1 + 100 * k2 + 10 * k3 + k4)
  = String (digit_char k1) (String (digit_char k2)
      (String (digit_char k3) (String (digit_char k4) ""))).
Proof.
  intros H1 H2 H3 H4. unfold pad4, pad2.
  repeat f_equal; Z.div_mod_to_equations; lia.
Qed.

Section Digits.
Context `{Library}.

(** The digits 0-9 are decimal digits, and a decimal digit is a whole
    character that is no blank. *)
Lemma decimal_digit_char (k : Z) :
  0 <= k <= 9 -> decimal (String (digit_char k) "") = Some k.
Proof. intros Hk. each_digit k; reflexivity. Qed.

Lemma decimal_whole (ch : string) (v : Z) :
  decimal ch = Some v ->
  exists c tail, ch = String c tail /\
    String.length (String c tail) = char_length c /\
    Ascii.eqb c " " = false.
Proof.
  destruct ch as [|c tail]; [discriminate|]. unfold decimal.
  destruct (is_ascii c) eqn:Hascii.
  - destruct tail; [|discriminate].
    destruct (is_digit c) eqn:Hdigit; [|discriminate]. intros _.
    exists c, "". split; [reflexivity|].
    apply is_digit_inv in Hdigit as (k & Hk & ->).
    split; each_digit k; reflexivity.
  - destruct (andb _ _) eqn:Hlen; [|discriminate]. intros _.
    apply andb_true_iff in Hlen as [Hlen%Nat.eqb_eq _].
    exists c, tail. split; [reflexivity|]. split; [exact Hlen|].
    destruct (Ascii.eqb_spec c " ") as [-> | _]; [discriminate | reflexivity].
Qed.

Lemma next_char_decimal (ch t : string) (v : Z) :
  decimal ch = Some v -> next_char (ch +:+ t) = Some (ch, t).
Proof.
  intros (c & tail & -> & Hlen & _)%decimal_whole. now apply next_char_whole.
Qed.

Lemma utf8_chars_decimal (ch t : string) (v : Z) :
  decimal ch = Some v -> utf8_chars (ch +:+ t) = ch :: utf8_chars t.
Proof.
  intros (c & tail & -> & Hlen & _)%decimal_whole. now apply utf8_chars_whole.
Qed.

Lemma skip_spaces_decimal (ch t : string) (v : Z) :
  decimal ch = Some v ->
  exists c s, ch +:+ t = String c s /\ skip_spaces (ch +:+ t) = ch +:+ t.
Proof.
  intros (c & tail & -> & _ & Hc)%decimal_whole. exists c, (tail +:+ t).
  split; [reflexivity|]. cbn [String.append skip_spaces].
  destruct (Ascii.eqb_spec c " ") as [-> | Hne]; [discriminate|].
  destruct c as [[] [] [] [] [] [] [] []]; try reflexivity. now destruct Hne.
Qed.

Lemma py_int_digits (ch t : string) (v : Z) :
  decimal ch = Some v ->
  py_int (ch +:+ t) = int_chars v (utf8_chars t).
Proof.
  intros Hch. unfold py_int.
  destruct (skip_spaces_decimal ch t v Hch) as (c & s & Hs & ->).
  rewrite Hs. cbv beta iota. rewrite <- Hs.
  rewrite (utf8_chars_decimal ch t v Hch). cbn [int_chars].
  rewrite Hch. reflexivity.
Qed.

Lemma int_chars_decimal (acc : Z) (ch t : string) (v : Z) :
  decimal ch = Some v ->
  int_chars acc (utf8_chars (ch +:+ t)) = int_chars (10 * acc + v) (utf8_chars t).
Proof.
  intros Hch. rewrite (utf8_chars_decimal ch t v Hch). cbn [int_chars].
  now rewrite Hch.
Qed.

(** A year of four decimal digits is read as its number. *)
Lemma py_int_year (y : Z) (ys : string) : year_text y ys -> py_int ys = Ok y.
Proof.
  intros (c1 & c2 & c3 & c4 & v1 & v2 & v3 & v4 & H1 & H2 & H3 & H4 & -> & ->).
  rewrite (py_int_digits c1 _ v1 H1).
  rewrite (int_chars_decimal _ c2 _ v2 H2), (int_chars_decimal _ c3 _ v3 H3).
  rewrite <- (append_empty_r c4), (int_chars_decimal _ c4 _ v4 H4).
  cbn. f_equal. lia.
Qed.

Lemma year_text_pad4 (y : Z) : 0 <= y <= 9999 -> year_text y (pad4 y).
Proof.
  intros Hy.
  exists (String (digit_char (y / 1000)) ""), (String (digit_char (y / 100 mod 10)) ""),
    (String (digit_char (y mod 100 / 10)) ""), (String (digit_char (y mod 100 mod 10)) ""),
    (y / 1000), (y / 100 mod 10), (y mod 100 / 10), (y mod 100 mod 10).
  rewrite !decimal_digit_char by (Z.div_mod_to_equations; lia).
  repeat (split; [reflexivity|]). Z.div_mod_to_equations; lia.
Qed.

End Digits.

(** *** Stepping and inverting a match *)

Section Matching.
Context `{Library} {A : Type}.
Implicit Types (K : string -> string -> list (string * string) -> option A).

Lemma re_match_Seq r1 r2 s g K :
  re_match (Seq r1 r2) s g K
  = re_match r1 s g (fun m1 s1 g1 =>
      re_match r2 s1 g1 (fun m2 s2 g2 => K (m1 +:+ m2) s2 g2)).
Proof. reflexivity. Qed.

Lemma re_match_Lit c s g K :
  re_match (Lit c) (String c s) g K = K (String c "") s g.
Proof. cbn. now rewrite Ascii.eqb_refl. Qed.

Lemma re_match_Lit_inv c s g K a :
  re_match (Lit c) s g K = Some a ->
  exists s', s = String c s' /\ K (String c "") s' g = Some a.
Proof.
  destruct s as [|c' s']; cbn; [discriminate|].
  destruct (Ascii.eqb_spec c c') as [<- | _]; [|discriminate]. eauto.
Qed.

Lemma re_match_Digit_ok ch v s g K :
  decimal ch = Some v -> re_match Digit (ch +:+ s) g K = K ch s g.
Proof.
  intros Hch. cbn [re_match]. now rewrite (next_char_decimal ch s v Hch), Hch.
Qed.

Lemma re_match_Digit_inv s g K a :
  re_match Digit s g K = Some a ->
  exists ch v s', decimal ch = Some v /\ s = ch +:+ s' /\ K ch s' g = Some a.
Proof.
  cbn [re_match]. destruct (next_char s) as [[ch s']|] eqn:Hnext; [|discriminate].
  destruct (decimal ch) as [v|] eqn:Hch; [|discriminate]. intros HK.
  exists ch, v, s'. split; [exact Hch|]. split; [|exact HK].
  now apply next_char_append.
Qed.

Lemma re_match_Range_inv (lo hi : Z) s g K a :
  0 <= lo <= 9 -> 0 <= hi <= 9 ->
  re_match (Range (digit_char lo) (digit_char hi)) s g K = Some a ->
  exists k s', lo <= k <= hi /\ s = String (digit_char k) s' /\
    K (String (digit_char k) "") s' g = Some a.
Proof.
  intros Hlo Hhi. destruct s as [|c' s']; cbn; [discriminate|].
  destruct (in_range _ _ c') eqn:Hc; [|discriminate].
  apply in_range_digits in Hc as (k & Hk & ->); eauto.
Qed.

Lemma re_match_Alt_inv r1 r2 s g K a :
  re_match (Alt r1 r2) s g K = Some a ->
  re_match r1 s g K = Some a \/ re_match r2 s g K = Some a.
Proof. cbn. destruct (re_match r1 s g K); intros; [left | right]; assumption. Qed.

Lemma re_match_Group name r s g K :
  re_match (Group name r) s g K
  = re_match r s g (fun m s' g' => K m s' ((name, m) :: g')).
Proof. reflexivity. Qed.

Lemma match_Y_ok (y : Z) (ys rest : string) g K :
  year_text y ys ->
  re_match Y_regex (ys +:+ rest) g K = K ys rest (("Y", ys) :: g).
Proof.
  intros (c1 & c2 & c3 & c4 & v1 & v2 & v3 & v4 & H1 & H2 & H3 & H4 & -> & _).
  unfold Y_regex. cbn [re_match]. rewrite !append_assoc.
  rewrite (next_char_decimal c1 _ v1 H1), H1. cbv beta iota.
  rewrite (next_char_decimal c2 _ v2 H2), H2. cbv beta iota.
  rewrite (next_char_decimal c3 _ v3 H3), H3. cbv beta iota.
  rewrite (next_char_decimal c4 _ v4 H4), H4. reflexivity.
Qed.

Lemma match_Y_inv s g K a :
  re_match Y_regex s g K = Some a ->
  exists y ys rest, year_text y ys /\ s = ys +:+ rest /\
    K ys rest (("Y", ys) :: g) = Some a.
Proof.
  unfold Y_regex. rewrite re_match_Group, re_match_Seq. intros HY.
  apply re_match_Digit_inv in HY as (c1 & v1 & s1 & H1 & -> & HY).
  rewrite re_match_Seq in HY.
  apply re_match_Digit_inv in HY as (c2 & v2 & s2 & H2 & -> & HY).
  rewrite re_match_Seq in HY.
  apply re_match_Digit_inv in HY as (c3 & v3 & s3 & H3 & -> & HY).
  apply re_match_Digit_inv in HY as (c4 & v4 & rest & H4 & -> & HY).
  exists (1000 * v1 + 100 * v2 + 10 * v3 + v4), (c1 +:+ c2 +:+ c3 +:+ c4), rest.
  split; [|split; [now rewrite !append_assoc | exact HY]].
  exists c1, c2, c3, c4, v1, v2, v3, v4. repeat (split; [assumption|]).
  split; reflexivity.
Qed.

Lemma match_m_ok (m : Z) (ms rest : string) g K (a : A) :
  1 <= m <= 12 -> month_text m ms ->
  K ms (String "-" rest) (("m", ms) :: g) = Some a ->
  re_match m_regex (ms +:+ String "-" rest) g K = Some a.
Proof.
  intros Hm Ht HK.
  enum_range m 1 12%nat; destruct Ht as [-> | [Hlt ->]]; try lia;
    vm_compute in HK; vm_compute; now rewrite HK.
Qed.

Lemma match_m_inv s g K a :
  re_match m_regex s g K = Some a ->
  exists m ms rest, 1 <= m <= 12 /\ month_text m ms /\ s = ms +:+ rest /\
    K ms rest (("m", ms) :: g) = Some a.
Proof.
  unfold m_regex. rewrite re_match_Group. intros Hm.
  apply re_match_Alt_inv in Hm as [Hm | Hm];
    [|apply re_match_Alt_inv in Hm as [Hm | Hm]].
  - rewrite re_match_Seq in Hm.
    apply re_match_Lit_inv in Hm as (s1 & -> & Hm).
    apply (re_match_Range_inv 0 2) in Hm as (k & s2 & Hk & -> & HK); [|lia..].
    exists (10 + k), (pad2 (10 + k)), s2.
    enum_range k 0 3%nat; (split; [lia|]); (split; [now left|]); now split.
  - rewrite re_match_Seq in Hm.
    apply re_match_Lit_inv in Hm as (s1 & -> & Hm).
    apply (re_match_Range_inv 1 9) in Hm as (k & s2 & Hk & -> & HK); [|lia..].
    exists k, (pad2 k), s2.
    enum_range k 1 9%nat; (split; [lia|]); (split; [now left|]); now split.
  - apply (re_match_Range_inv 1 9) in Hm as (k & s2 & Hk & -> & HK); [|lia..].
    exists k, (String (digit_char k) ""), s2.
    split; [lia|]. split; [right; split; [lia | reflexivity]|]. now split.
Qed.

Lemma match_d_ok (d : Z) (ds : string) g K (a : A) :
  1 <= d <= 31 -> day_text d ds ->
  K ds "" (("d", ds) :: g) = Some a ->
  re_match d_regex ds g K = Some a.
Proof.
  intros Hd Ht HK.
  destruct Ht as [-> | [(j & ch & v & Hj & Hch & -> & _) | [Hlt [-> | ->]]]].
  - enum_range d 1 31%nat; vm_compute in HK; vm_compute; now rewrite HK.
  - unfold d_regex. rewrite re_match_Group.
    assert (Hsecond :
      re_match (Seq (Range "1" "2") Digit) (String (digit_char j) ch) g
        (fun m s' g' => K m s' (("d", m) :: g')) = Some a).
    { rewrite re_match_Seq. rewrite <- (append_empty_r ch) at 1.
      enum_range j 1 2%nat; cbn [re_match digit_char]; cbn;
        rewrite (next_char_decimal ch "" v Hch), Hch; exact HK. }
    enum_range j 1 2%nat; cbn [re_match] in Hsecond |- *; cbn in Hsecond |- *;
      now rewrite Hsecond.
  - enum_range d 1 9%nat; vm_compute in HK; vm_compute; now rewrite HK.
  - enum_range d 1 9%nat; vm_compute in HK; vm_compute; now rewrite HK.
Qed.

End Matching.

Section Reading.
Context `{Library}.

Lemma py_int_month (m : Z) (ms : string) :
  1 <= m <= 12 -> month_text m ms -> py_int ms = Ok m.
Proof.
  intros Hm Ht.
  enum_range m 1 12%nat; destruct Ht as [-> | [Hlt ->]]; try lia; reflexivity.
Qed.

Lemma py_int_two_digits (j v : Z) (ch : string) :
  0 <= j <= 9 -> decimal ch = Some v ->
  py_int (String (digit_char j) ch) = Ok (10 * j + v).
Proof.
  intros Hj Hch.
  change (String (digit_char j) ch) with (String (digit_char j) "" +:+ ch).
  rewrite (py_int_digits _ _ j (decimal_digit_char j Hj)).
  rewrite <- (append_empty_r ch), (int_chars_decimal _ ch _ v Hch). reflexivity.
Qed.

Lemma py_int_day (d : Z) (ds : string) :
  1 <= d <= 31 -> day_text d ds -> py_int ds = Ok d.
Proof.
  intros Hd Ht.
  destruct Ht as [-> | [(j & ch & v & Hj & Hch & -> & ->) | [Hlt [-> | ->]]]].
  - enum_range d 1 31%nat; reflexivity.
  - apply py_int_two_digits; [lia | exact Hch].
  - enum_range d 1 9%nat; reflexivity.
  - enum_range d 1 9%nat; reflexivity.
Qed.

Lemma match_d_inv {A} s g
    (K : string -> string -> list (string * string) -> option A) a :
  re_match d_regex s g K = Some a ->
  exists d ds rest, day_text d ds /\ py_int ds = Ok d /\ s = ds +:+ rest /\
    K ds rest (("d", ds) :: g) = Some a.
Proof.
  unfold d_regex. rewrite re_match_Group. intros Hd.
  apply re_match_Alt_inv in Hd as [Hd | Hd];
    [|apply re_match_Alt_inv in Hd as [Hd | Hd];
      [|apply re_match_Alt_inv in Hd as [Hd | Hd];
        [|apply re_match_Alt_inv in Hd as [Hd | Hd]]]].
  - rewrite re_match_Seq in Hd.
    apply re_match_Lit_inv in Hd as (s1 & -> & Hd).
    apply (re_match_Range_inv 0 1) in Hd as (k & s2 & Hk & -> & HK); [|lia..].
    exists (30 + k), (pad2 (30 + k)), s2.
    enum_range k 0 2%nat; (split; [now left|]); (split; [reflexivity|]); now split.
  - rewrite re_match_Seq in Hd.
    apply (re_match_Range_inv 1 2) in Hd as (j & s1 & Hj & -> & Hd); [|lia..].
    apply re_match_Digit_inv in Hd as (ch & v & s2 & Hch & -> & HK).
    exists (10 * j + v), (String (digit_char j) ch), s2.
    split; [right; left; exists j, ch, v; repeat split; (lia || assumption)|].
    split; [apply py_int_two_digits; [lia | exact Hch]|]. now split.
  - rewrite re_match_Seq in Hd.
    apply re_match_Lit_inv in Hd as (s1 & -> & Hd).
    apply (re_match_Range_inv 1 9) in Hd as (k & s2 & Hk & -> & HK); [|lia..].
    exists k, (pad2 k), s2.
    enum_range k 1 9%nat; (split; [now left|]); (split; [reflexivity|]); now split.
  - apply (re_match_Range_inv 1 9) in Hd as (k & s2 & Hk & -> & HK); [|lia..].
    exists k, (String (digit_char k) ""), s2.
    split; [right; right; split; [lia | now left]|].
    split; [enum_range k 1 9%nat; reflexivity|]. now split.
  - rewrite re_match_Seq in Hd.
    apply re_match_Lit_inv in Hd as (s1 & -> & Hd).
    apply (re_match_Range_inv 1 9) in Hd as (k & s2 & Hk & -> & HK); [|lia..].
    exists k, (String " " (String (digit_char k) "")), s2.
    split; [right; right; split; [lia | now right]|].
    split; [enum_range k 1 9%nat; reflexivity|]. now split.
Qed.

Lemma days_in_month_le_31 (y m : Z) : Calendar.days_in_month y m <= 31.
Proof.
  unfold Calendar.days_in_month.
  destruct ((m =? 2) && Calendar.is_leap y); [lia|].
  destruct m as [|p|p]; cbn; try lia.
  do 4 (try destruct p as [p|p|]); cbn; lia.
Qed.

(** Every way of writing an existing date is read as that date. *)
Lemma strptime_date_text (s : string) (y m d : Z) :
  date_text s y m d -> strptime (JStr s) = Ok (mk_datetime y m d 0 0 0 0).
Proof.
  intros (Hchk & ys & ms & ds & Hys & Hms & Hds & ->).
  pose proof Hchk as Hr. apply CalendarFacts.check_date_fields_spec in Hr.
  unfold Calendar.MINYEAR, Calendar.MAXYEAR in Hr. destruct Hr as (Hy & Hm & Hd).
  pose proof (days_in_month_le_31 y m) as H31.
  set (s := ys +:+ "-" +:+ ms +:+ "-" +:+ ds).
  assert (Hmatch :
    re_match format_regex s [] (fun m _ found => Some (m, found))
    = Some (s, [("d", ds); ("m", ms); ("Y", ys)])).
  { subst s. unfold format_regex. rewrite re_match_Seq.
    rewrite (match_Y_ok y ys) by exact Hys.
    rewrite re_match_Seq. cbn [String.append]. rewrite re_match_Lit.
    rewrite re_match_Seq.
    apply (match_m_ok m); [lia | exact Hms |].
    rewrite re_match_Seq, re_match_Lit.
    apply (match_d_ok d); [lia | exact Hds |].
    reflexivity. }
  unfold strptime. rewrite Hmatch, Nat.eqb_refl. cbn [negb group String.eqb Ascii.eqb Bool.eqb].
  rewrite (py_int_year y ys Hys), bind_Ok.
  rewrite (py_int_month m ms), bind_Ok by (assumption || lia).
  rewrite (py_int_day d ds), bind_Ok by (assumption || lia).
  now rewrite Hchk.
Qed.

Lemma py_int_error (s : string) (e : exn) : py_int s = Raise e -> e = ValueError.
Proof.
  unfold py_int. destruct (skip_spaces s) as [|c s']; [now intros [= <-]|].
  generalize 0 (utf8_chars (String c s')). intros acc chars. revert acc.
  induction chars as [|ch chars IH]; intros acc; cbn; [discriminate|].
  destruct (decimal ch); [apply IH | now intros [= <-]].
Qed.

(** [strptime] raises nothing but [ValueError] on a string. *)
Lemma strptime_str_error (s : string) (e : exn) :
  strptime (JStr s) = Raise e -> e = ValueError.
Proof.
  unfold strptime.
  destruct (re_match _ _ _ _) as [[m found]|]; [|now intros [= <-]].
  destruct (negb _); [now intros [= <-]|].
  destruct (py_int (group found "Y")) eqn:HY; cbn; [|intros [= <-]; eauto using py_int_error].
  destruct (py_int (group found "m")) eqn:Hm; cbn; [|intros [= <-]; eauto using py_int_error].
  destruct (py_int (group found "d")) eqn:Hd; cbn; [|intros [= <-]; eauto using py_int_error].
  destruct (Calendar.check_date_fields _ _ _); [discriminate | now intros [= <-]].
Qed.

(** What [strptime] reads as a date is one of the ways of writing it. *)
Lemma strptime_Ok_inv (s : string) (dt : datetime) :
  strptime (JStr s) = Ok dt ->
  exists y m d, date_text s y m d /\ dt = mk_datetime y m d 0 0 0 0.
Proof.
  unfold strptime.
  destruct (re_match _ _ _ _) as [[mt found]|] eqn:Hmatch; [|discriminate].
  unfold format_regex in Hmatch. rewrite re_match_Seq in Hmatch.
  apply match_Y_inv in Hmatch as (y & ys & s1 & Hys & -> & Hmatch).
  rewrite re_match_Seq in Hmatch.
  apply re_match_Lit_inv in Hmatch as (s2 & -> & Hmatch).
  rewrite re_match_Seq in Hmatch.
  apply match_m_inv in Hmatch as (m & ms & s3 & Hm & Hms & -> & Hmatch).
  rewrite re_match_Seq in Hmatch.
  apply re_match_Lit_inv in Hmatch as (s4 & -> & Hmatch).
  apply match_d_inv in Hmatch as (d & ds & rest & Hds & Hday & -> & Hmatch).
  injection Hmatch as <- <-.
  destruct (negb _) eqn:Hlen; [discriminate|].
  apply negb_false_iff, Nat.eqb_eq in Hlen.
  assert (rest = "") as ->.
  { revert Hlen. cbn [String.append].
    repeat (rewrite !length_append; cbn [String.length String.append]).
    destruct rest; [reflexivity | cbn; lia]. }
  cbn [group String.eqb Ascii.eqb Bool.eqb].
  rewrite (py_int_year y ys Hys), bind_Ok.
  rewrite (py_int_month m ms), bind_Ok by assumption.
  rewrite Hday, bind_Ok.
  destruct (Calendar.check_date_fields y m d) eqn:Hchk; [|discriminate].
  intros [= <-]. exists y, m, d. split; [|reflexivity].
  split; [exact Hchk|]. exists ys, ms, ds. rewrite append_empty_r.
  repeat (split; [assumption|]). reflexivity.
Qed.

(** A string that writes no existing date in any of these ways is refused
    with [ValueError]. *)
Lemma strptime_rejects (s : string) :
  (forall y m d, ~ date_text s y m d) -> strptime (JStr s) = Raise ValueError.
Proof.
  intros Hno. destruct (strptime (JStr s)) as [dt|e] eqn:Hs.
  - apply strptime_Ok_inv in Hs as (y & m & d & Ht & _). now destruct (Hno y m d).
  - f_equal. eauto using strptime_str_error.
Qed.

End Reading.

End StrptimeFacts.


(** ** Valid documents *)

Section ValidFacts.
Context `{Library}.
Import Calendar.

Lemma datetime_add_zero (y m d : Z) :
  check_date_fields y m d = true ->
  datetime_add (mk_datetime y m d 0 0 0 0) (mk_timedelta 0 0 0)
  = Ok (mk_datetime y m d 0 0 0 0).
Proof.
  intros Hchk. pose proof (CalendarFacts.ymd2ord_bounds y m d Hchk) as Hb.
  unfold MAXORDINAL in Hb. unfold datetime_add. cbn.
  set (start := mk_datetime y m d 0 0 0 0).
  assert (Hs : second_of_day start + 0 + (0 + 0) / 1000000 = 0) by reflexivity.
  rewrite !Hs. change (0 / 86400) with 0. change (0 mod 86400) with 0.
  replace (toordinal start + 0 + 0) with (ymd2ord y m d) by (unfold toordinal; cbn; lia).
  unfold MAX_DELTA_DAYS, MAXORDINAL.
  destruct (Z.ltb_spec 999999999 (Z.abs (ymd2ord y m d))); [lia|].
  destruct (Z.ltb_spec 0 (ymd2ord y m d)); [|lia].
  destruct (Z.leb_spec (ymd2ord y m d) 3652059); [|lia].
  cbn. now rewrite CalendarFacts.ord2ymd_ymd2ord.
Qed.

Lemma valid_task_inv (t : json) :
  Spec.valid_task t = true ->
  exists tm name s n y m d,
    t = JObj tm /\
    tm !! "task_name" = Some (JStr name) /\
    tm !! "start_date" = Some (JStr s) /\
    tm !! "duration_days" = Some (JInt n) /\
    Spec.date_text s y m d /\
    (tm !! "is_critical" = None \/ exists b, tm !! "is_critical" = Some (JBool b)).
Proof.
  unfold Spec.valid_task. destruct t as [| | | | | |tm]; try discriminate.
  destruct (tm !! "task_name") as [[| | | |name| |]|] eqn:Hname; try discriminate.
  destruct (tm !! "start_date") as [[| | | |s| |]|] eqn:Hstart; try discriminate.
  destruct (tm !! "duration_days") as [[| |n| | | |]|] eqn:Hdays; try discriminate.
  rewrite andb_true_iff. intros [Hdate Hcrit].
  destruct (Strptime.strptime (JStr s)) as [dt|] eqn:Hs; [|discriminate].
  apply StrptimeFacts.strptime_Ok_inv in Hs as (y & m & d & Ht & _).
  exists tm, name, s, n, y, m, d. split; [reflexivity|]. do 3 (split; [assumption|]). split; [exact Ht|].
  destruct (tm !! "is_critical") as [[| b | | | | |]|]; try discriminate; eauto.
Qed.

(** The row of a valid task whose end date is a date of the calendar. *)
Lemma task_row_valid (section_name t : json) :
  Spec.valid_task t = true -> Spec.ends_in_calendar t = true ->
  exists r, task_row section_name t = Ok r /\ Spec.row_dates t r.
Proof.
  intros Hv Hcal.
  apply valid_task_inv in Hv as (tm & name & s & n & y & m & d & -> & Hname & Hs & Hn & Ht & Hc).
  pose proof (StrptimeFacts.strptime_date_text s y m d Ht) as Hstart.
  destruct Ht as [Hchk _].
  pose proof (CalendarFacts.ymd2ord_bounds y m d Hchk) as Hb.
  unfold Spec.ends_in_calendar, Spec.start_of, Spec.duration_of in Hcal.
  rewrite Hs, Hn in Hcal. cbn [from_option id] in Hcal. rewrite Hstart in Hcal.
  apply andb_true_iff in Hcal as [Hlo Hhi]. apply Z.leb_le in Hlo, Hhi.
  unfold task_row. cbn [getitem]. rewrite Hname, Hs, Hn. run_binds.
  rewrite Hstart. run_binds.
  unfold timedelta_days, MAX_DELTA_DAYS.
  unfold MAXORDINAL in *. unfold toordinal in Hlo, Hhi. cbn in Hlo, Hhi.
  destruct (Z.ltb_spec 999999999 (Z.abs n)); [lia|]. run_binds.
  destruct (datetime_add_midnight y m d n) as (fin & Hadd & Hord & Hfin & Hsec & Hus).
  { unfold toordinal, MAXORDINAL. cbn. lia. }
  rewrite Hadd. run_binds. cbn [dict_get]. run_binds.
  eexists. split; [reflexivity|].
  unfold Spec.row_dates, Spec.start_of, Spec.duration_of. cbn [row_Start row_Finish].
  rewrite Hs, Hn. cbn [from_option id].
  repeat split; try assumption.
  intros ->. rewrite datetime_add_zero in Hadd by assumption. now injection Hadd.
Qed.

(** The row of a valid task whose end date is outside the calendar. *)
Lemma task_row_overflow (section_name t : json) :
  Spec.valid_task t = true -> Spec.ends_in_calendar t = false ->
  task_row section_name t = Raise OverflowError.
Proof.
  intros Hv Hcal.
  apply valid_task_inv in Hv as (tm & name & s & n & y & m & d & -> & Hname & Hs & Hn & Ht & Hc).
  pose proof (StrptimeFacts.strptime_date_text s y m d Ht) as Hstart.
  unfold Spec.ends_in_calendar, Spec.start_of, Spec.duration_of in Hcal.
  rewrite Hs, Hn in Hcal. cbn [from_option id] in Hcal. rewrite Hstart in Hcal.
  unfold task_row. cbn [getitem]. rewrite Hname, Hs, Hn. run_binds.
  rewrite Hstart. run_binds. unfold timedelta_days.
  destruct (MAX_DELTA_DAYS <? Z.abs n); [reflexivity|]. run_binds.
  rewrite datetime_add_overflow; [reflexivity|].
  intros [Hlo Hhi]. apply Z.leb_le in Hlo, Hhi.
  now rewrite Hlo, Hhi in Hcal.
Qed.

Lemma valid_document_well_shaped (doc : json) :
  Spec.valid_document doc = true -> Spec.well_shaped doc = true.
Proof.
  unfold Spec.valid_document, Spec.well_shaped.
  destruct doc as [| | | | | |m]; try discriminate.
  rewrite andb_true_iff. intros [_ Hsecs].
  destruct (m !! "sections") as [[| | | | |secs|]|]; try discriminate.
  induction secs as [|sec secs IH]; [reflexivity|].
  cbn in Hsecs |- *. apply andb_true_iff in Hsecs as [Hsec Hsecs].
  rewrite (IH Hsecs), andb_true_r.
  unfold Spec.valid_section in Hsec. unfold Spec.section_shape.
  destruct sec as [| | | | | |sm]; try discriminate.
  destruct (sm !! "section_name") as [[| | | |n| |]|]; try discriminate.
  destruct (sm !! "tasks") as [[| | | | |ts|]|]; try discriminate. reflexivity.
Qed.

Lemma valid_document_tasks (doc : json) :
  Spec.valid_document doc = true ->
  Forall (fun st => Spec.valid_task (snd st) = true) (Spec.document_tasks doc).
Proof.
  unfold Spec.valid_document, Spec.document_tasks, Spec.sections_of.
  destruct doc as [| | | | | |m]; try discriminate.
  rewrite andb_true_iff. intros [_ Hsecs].
  destruct (m !! "sections") as [[| | | | |secs|]|]; try discriminate.
  induction secs as [|sec secs IH]; [constructor|].
  cbn in Hsecs |- *. apply andb_true_iff in Hsecs as [Hsec Hsecs].
  apply Forall_app. split; [|exact (IH Hsecs)].
  unfold Spec.valid_section in Hsec. unfold Spec.section_tasks, Spec.tasks_of.
  destruct sec as [| | | | | |sm]; try discriminate.
  destruct (sm !! "section_name") as [[| | | |n| |]|]; try discriminate.
  destruct (sm !! "tasks") as [[| | | | |ts|]|]; try discriminate.
  apply Forall_map. cbn. apply Forall_forall. intros t Hin%list_elem_of_In.
  exact (proj1 (forallb_forall _ _) Hsec t Hin).
Qed.

Lemma mapM_result_total {A B : Type} (f : A -> result B) (P : A -> B -> Prop)
    (l : list A) :
  Forall (fun x => exists y, f x = Ok y /\ P x y) l ->
  exists r, mapM f l = Ok r /\ Forall2 P l r.
Proof.
  induction 1 as [|x l (y & Hy & HP) _ (r & Hr & HF)].
  - exists []. split; [reflexivity | constructor].
  - exists (y :: r). cbn. rewrite Hy, Hr. split; [reflexivity | now constructor].
Qed.

Lemma prepare_gantt_data_loaded (w : world) (json_file : string) (doc : json) :
  files w !! json_file = Some (JsonFile doc) ->
  prepare_gantt_data w json_file = gantt_data doc.
Proof. intros Hf. unfold prepare_gantt_data, load_json. now rewrite Hf. Qed.

(** A traversal whose elements succeed or raise [e] raises [e] as soon as
    one of them does. *)
Lemma mapM_result_raises {A B : Type} (f : A -> result B) (e : exn) (l : list A) :
  Forall (fun x => is_ok (f x) = true \/ f x = Raise e) l ->
  Exists (fun x => is_ok (f x) = false) l ->
  mapM f l = Raise e.
Proof.
  induction 1 as [|x l [Hx | Hx] _ IH]; intros Hex.
  - inversion Hex.
  - inversion Hex as [? ? Hbad | ? ? Hlater]; subst; [congruence|].
    cbn. destruct (f x); [|discriminate]. cbn. now rewrite IH.
  - cbn. now rewrite Hx.
Qed.

(** A valid document whose tasks all end within the calendar parses: there
    is one row for each task, in document order. *)
Lemma valid_document_parses (doc : json) :
  Spec.valid_document doc = true ->
  forallb (fun st => Spec.ends_in_calendar (snd st)) (Spec.document_tasks doc) = true ->
  exists rows,
    gantt_data doc = Ok (rows, Spec.title_of doc) /\
    length rows = Spec.task_count doc /\
    Forall2 (fun st r => task_row (fst st) (snd st) = Ok r /\ Spec.row_dates (snd st) r)
      (Spec.document_tasks doc) rows.
Proof.
  intros Hvalid Hcal.
  rewrite gantt_data_well_shaped by now apply valid_document_well_shaped.
  pose proof (valid_document_tasks doc Hvalid) as Htasks.
  destruct (mapM_result_total (fun st => task_row (fst st) (snd st))
              (fun st r => task_row (fst st) (snd st) = Ok r /\ Spec.row_dates (snd st) r)
              (Spec.document_tasks doc))
    as (rows & Hrows & Hdates).
  { apply Forall_forall. intros [sn t] Hin.
    apply (proj1 (Forall_forall _ _) Htasks) in Hin as Hv.
    apply list_elem_of_In in Hin.
    apply (proj1 (forallb_forall _ _) Hcal) in Hin as Hc.
    destruct (task_row_valid sn t Hv Hc) as (r & Hr & Hd). exists r. cbn. auto. }
  exists rows. rewrite Hrows. split; [reflexivity|]. split; [|exact Hdates].
  rewrite task_count_length. now apply mapM_result_length in Hrows.
Qed.

End ValidFacts.

(** ** Where the errors of the loops come from *)

Section ErrorFacts.
Context `{Library}.

Lemma getitem_error (v : json) (k : string) (e : exn) :
  getitem v k = Raise e -> e = TypeError \/ e = KeyError.
Proof.
  destruct v as [| | | | | |m]; cbn; try (intros [= <-]; now left).
  destruct (m !! k); [discriminate | intros [= <-]; now right].
Qed.

Lemma py_iter_error (v : json) (e : exn) : py_iter v = Raise e -> e = TypeError.
Proof. destruct v; cbn; congruence. Qed.

Lemma task_loop_error (section_name : json) (items : list json)
    (tasks : list row) (e : exn) :
  task_loop section_name items tasks = Raise e ->
  exists task, In task items /\ task_row section_name task = Raise e.
Proof.
  revert tasks. induction items as [|t items IH]; cbn; intros tasks Hloop;
    [discriminate|].
  destruct (task_row section_name t) as [r|e'] eqn:Hr; cbn in Hloop.
  - destruct (IH _ Hloop) as (t' & Hin & Ht'). exists t'. split; [now right | exact Ht'].
  - injection Hloop as ->. exists t. split; [now left | exact Hr].
Qed.

Lemma section_loop_error (sections : list json) (tasks : list row) (e : exn) :
  section_loop sections tasks = Raise e ->
  Spec.malformed_schedule_error e = true \/
  exists section section_name section_tasks items task,
    In section sections /\
    getitem section "section_name" = Ok section_name /\
    getitem section "tasks" = Ok section_tasks /\
    py_iter section_tasks = Ok items /\
    In task items /\
    task_row section_name task = Raise e.
Proof.
  revert tasks. induction sections as [|sec sections IH]; cbn; intros tasks Hloop;
    [discriminate|].
  destruct (getitem sec "section_name") as [n|e1] eqn:Hn; cbn in Hloop.
  2: { injection Hloop as ->. left. apply getitem_error in Hn as [-> | ->]; reflexivity. }
  destruct (getitem sec "tasks") as [ts|e2] eqn:Hts; cbn in Hloop.
  2: { injection Hloop as ->. left. apply getitem_error in Hts as [-> | ->]; reflexivity. }
  destruct (py_iter ts) as [items|e3] eqn:Hitems; cbn in Hloop.
  2: { injection Hloop as ->. left. now apply py_iter_error in Hitems as ->. }
  destruct (task_loop n items tasks) as [tasks'|e4] eqn:Hinner; cbn in Hloop.
  - destruct (IH _ Hloop) as [Hm | (s' & n' & ts' & items' & t' & Hin & Hrest)];
      [now left|].
    right. exists s', n', ts', items', t'. split; [now right | exact Hrest].
  - injection Hloop as ->. right.
    apply task_loop_error in Hinner as (t & Hin & Ht).
    exists sec, n, ts, items, t. split; [now left|]. repeat split; assumption.
Qed.

(** A section that the loops cannot enter stops them, unless an earlier
    section already did. *)
Lemma section_loop_bad_shape (sections : list json) (tasks : list row) :
  forallb (fun sec =>
    match sec with
    | JObj sm =>
        match sm !! "section_name", sm !! "tasks" with
        | Some _, Some ts => is_ok (py_iter ts)
        | _, _ => false
        end
    | _ => false
    end) sections = false ->
  exists e, section_loop sections tasks = Raise e.
Proof.
  revert tasks. induction sections as [|sec sections IH]; cbn; intros tasks Hshape;
    [discriminate|].
  apply andb_false_iff in Hshape as [Hsec | Hrest].
  - destruct sec as [| | | | | |sm]; cbn; eauto.
    destruct (sm !! "section_name"); cbn; eauto.
    destruct (sm !! "tasks") as [ts|]; cbn; eauto.
    destruct (py_iter ts); [discriminate | cbn; eauto].
  - destruct (getitem sec "section_name"); cbn; eauto.
    destruct (getitem sec "tasks") as [ts|]; cbn; eauto.
    destruct (py_iter ts) as [items|]; cbn; eauto.
    destruct (task_loop _ items tasks); cbn; eauto.
Qed.

End ErrorFacts.

(** ** Dates written YYYY-MM-DD *)

(** A date written YYYY-MM-DD is one of the ways of writing it, and has the
    shape YYYY-MM-DD. *)
Lemma iso_date_text `{Library} (y m d : Z) :
  Calendar.check_date_fields y m d = true ->
  Spec.date_text (Spec.iso_date y m d) y m d /\
  Spec.is_YYYY_MM_DD (Spec.iso_date y m d) = true.
Proof.
  intros Hchk. split.
  - split; [exact Hchk|]. exists (Spec.pad4 y), (Spec.pad2 m), (Spec.pad2 d).
    split.
    { apply StrptimeFacts.year_text_pad4.
      apply CalendarFacts.check_date_fields_spec in Hchk as (Hy & _).
      unfold Calendar.MINYEAR, Calendar.MAXYEAR in Hy. lia. }
    split; [now left|]. split; [now left | reflexivity].
  - apply CalendarFacts.check_date_fields_spec in Hchk as (Hy & Hm & Hd).
    pose proof (StrptimeFacts.days_in_month_le_31 y m).
    unfold Calendar.MINYEAR, Calendar.MAXYEAR in Hy.
    unfold Spec.is_YYYY_MM_DD, Spec.iso_date, Spec.pad4, Spec.pad2. cbn.
    rewrite !StrptimeFacts.is_digit_digit_char by (Z.div_mod_to_equations; lia).
    reflexivity.
Qed.

Lemma day_first_is_no_date `{Library} (y m d : Z) :
  ~ Spec.date_text "01-01-2024" y m d.
Proof.
  intros Ht%StrptimeFacts.strptime_date_text. vm_compute in Ht. discriminate.
Qed.

(** ** The export *)

Section ExportFacts.
Context `{Library}.

(** Before the first click nothing is written and the status is empty. *)
Lemma export_not_clicked (w : world) (json_file : string) :
  export_chart w None json_file = Ok ("", w) /\
  export_chart w (Some 0) json_file = Ok ("", w).
Proof. split; reflexivity. Qed.

(** X2.  After a click, a successful export has written the chart of the
    selected file under [output_filename_of] and reports that name. *)
Lemma export_clicked (w w' : world) (n : Z) (json_file msg : string) :
  n <> 0 ->
  export_chart w (Some n) json_file = Ok (msg, w') ->
  msg = "Gantt chart exported as '" +:+ output_filename_of json_file +:+ "'" /\
  exists tasks chart_name fig,
    prepare_gantt_data w json_file = Ok (tasks, chart_name) /\
    create_gantt_figure tasks chart_name = Ok fig /\
    images w' !! output_filename_of json_file = Some fig.
Proof.
  intros Hn. unfold export_chart, clicked.
  destruct (Z.eqb_spec n 0) as [|_]; [contradiction|]. cbn [negb].
  destruct (prepare_gantt_data w json_file) as [[tasks chart_name]|];
    [|rewrite bind_Raise; discriminate].
  run_binds.
  destruct (create_gantt_figure tasks chart_name) as [fig|] eqn:Hfig;
    [|rewrite bind_Raise; discriminate].
  run_binds. unfold write_image.
  destruct (write_image_error _); [rewrite bind_Raise; discriminate|].
  run_binds. intros [= <- <-]. split; [reflexivity|].
  exists tasks, chart_name, fig. split; [reflexivity|]. split; [exact Hfig|].
  cbn. apply lookup_insert_eq.
Qed.

End ExportFacts.

Lemma replace_plain (stem : string) :
  Spec.plain stem = true ->
  str_replace (stem +:+ ".json") ".json" "_gantt_chart.png"
  = stem +:+ "_gantt_chart.png".
Proof.
  unfold str_replace. induction stem as [|c stem IH]; [reflexivity|].
  cbn [Spec.plain]. rewrite !andb_true_iff, !negb_true_iff.
  intros [[Hdot _] Hstem]. cbn [String.append replace_from String.prefix].
  destruct (Ascii.ascii_dec "." c) as [<- | _]; [discriminate|].
  now rewrite IH.
Qed.

Lemma basename_from_plain (stem candidate : string) :
  Spec.plain stem = true ->
  basename_from candidate (stem +:+ ".json") = candidate.
Proof.
  revert candidate. induction stem as [|c stem IH]; intros candidate; [reflexivity|].
  cbn [Spec.plain]. rewrite !andb_true_iff, !negb_true_iff.
  intros [[_ Hslash] Hstem]. cbn [String.append basename_from].
  rewrite Hslash. now apply IH.
Qed.

Lemma strip_last_extension_plain (stem : string) :
  Spec.plain stem = true ->
  Spec.strip_last_extension (stem +:+ ".json") = stem.
Proof.
  induction stem as [|c stem IH]; [reflexivity|].
  cbn [Spec.plain]. rewrite !andb_true_iff, !negb_true_iff.
  intros [[Hdot _] Hstem]. cbn [String.append Spec.strip_last_extension].
  rewrite Hdot. cbn [andb]. now rewrite IH.
Qed.

(** X3.  For a file [json/<stem>.json] whose stem has no dot, the name that the
    export writes is the one the specification gives. *)
Lemma export_name_plain (c : ascii) (stem : string) :
  Spec.plain (String c stem) = true ->
  output_filename_of ("json/" +:+ String c stem +:+ ".json")
  = String c stem +:+ "_gantt_chart.png" /\
  Spec.image_name ("json/" +:+ String c stem +:+ ".json")
  = String c stem +:+ "_gantt_chart.png".
Proof.
  intros Hplain.
  assert (Hbase : basename ("json/" +:+ String c stem +:+ ".json")
                  = String c stem +:+ ".json").
  { unfold basename. cbn [String.append basename_from]. cbn.
    exact (basename_from_plain (String c stem) _ Hplain). }
  unfold output_filename_of, Spec.image_name. rewrite Hbase. split.
  - now apply replace_plain.
  - cbn [String.append Spec.without_extension].
    cbn [Spec.plain] in Hplain. apply andb_true_iff in Hplain as [_ Hstem].
    now rewrite strip_last_extension_plain.
Qed.

(** The file [json/plan.json]. *)
Lemma export_name_plain_witness :
  output_filename_of "json/plan.json" = "plan_gantt_chart.png" /\
  Spec.image_name "json/plan.json" = "plan_gantt_chart.png".
Proof. exact (export_name_plain "p" "lan" eq_refl). Defined.

(** One click on the export button with [json/launch.json] selected. *)
Lemma export_clicked_witness :
  exists w',
    @export_chart Examples.obliging_library
      (Examples.one_file "json/launch.json" Examples.launch) (Some 1)
      "json/launch.json"
    = Ok ("Gantt chart exported as 'launch_gantt_chart.png'", w') /\
    exists tasks chart_name fig,
      @prepare_gantt_data Examples.obliging_library
        (Examples.one_file "json/launch.json" Examples.launch) "json/launch.json"
      = Ok (tasks, chart_name) /\
      @create_gantt_figure Examples.obliging_library tasks chart_name = Ok fig /\
      images w' !! output_filename_of "json/launch.json" = Some fig.
Proof.
  destruct (@export_chart Examples.obliging_library
              (Examples.one_file "json/launch.json" Examples.launch) (Some 1)
              "json/launch.json") as [[msg w']|e] eqn:Hexport;
    [|vm_compute in Hexport; discriminate].
  exists w'.
  destruct (@export_clicked Examples.obliging_library _ w' 1 _ msg
              ltac:(discriminate) Hexport) as [-> Hrest].
  split; [reflexivity | exact Hrest].
Defined.

(** ** The registry *)

(** A traversal with an element that raises does not succeed. *)
Lemma mapM_result_fails {A B : Type} (f : A -> result B) (l : list A) (x : A) :
  In x l -> is_ok (f x) = false -> exists e, mapM f l = Raise e.
Proof.
  induction l as [|y l IH]; [intros []|]. intros [-> | Hin] Hx; cbn.
  - destruct (f x); [discriminate | eauto].
  - destruct (f y); cbn; [|eauto].
    destruct (IH Hin Hx) as (e & ->). eauto.
Qed.

Lemma mapM_result_In {A B : Type} (f : A -> result B) (l : list A) (r : list B)
    (x : A) (y : B) :
  mapM f l = Ok r -> In x l -> f x = Ok y -> In y r.
Proof.
  revert r. induction l as [|z l IH]; [intros r _ []|]. intros r Hr [-> | Hin] Hx;
    cbn in Hr.
  - rewrite Hx in Hr. cbn in Hr. destruct (mapM f l); [|discriminate].
    injection Hr as <-. now left.
  - destruct (f z); [|discriminate]. cbn in Hr.
    destruct (mapM f l) as [k|]; [|discriminate]. injection Hr as <-.
    right. now apply (IH k).
Qed.

Lemma registry_entry_file (w : world) (f : string) (en : entry) :
  registry_entry w f = Ok en -> entry_file en = path_join "json" f.
Proof.
  unfold registry_entry. cbv zeta.
  destruct (load_json w (path_join "json" f)) as [data|];
    [|rewrite bind_Raise; discriminate].
  run_binds.
  destruct (dict_get data "chart_name" (JStr f)) as [name|];
    [|rewrite bind_Raise; discriminate].
  run_binds. now intros [= <-].
Qed.

(** X4.  The listing holds the schedule files of the directory, those whose
    names end in [.json], in the order of the directory, each under its path
    in [json/]. *)
Lemma listing_paths (w : world) (names : list string) (entries : list entry) :
  listdir_json w = Ok names ->
  load_json_files w = Ok entries ->
  map entry_file entries
  = map (path_join "json") (List.filter (fun f => endswith f ".json") names).
Proof.
  intros Hdir. unfold load_json_files. rewrite Hdir. run_binds.
  intros Hlist%mapM_result_Forall2.
  induction Hlist as [|f en l entries Hen _ IH]; [reflexivity|].
  cbn. f_equal; [exact (registry_entry_file w f en Hen) | exact IH].
Qed.

(** The directory [registry]: [notes.txt] is left out. *)
Lemma listing_paths_witness :
  exists entries,
    load_json_files Examples.registry = Ok entries /\
    map entry_file entries = ["json/plan.json"; "json/launch.json"].
Proof.
  destruct (load_json_files Examples.registry) as [entries|e] eqn:Hlist;
    [|vm_compute in Hlist; discriminate].
  exists entries. split; [reflexivity|].
  exact (listing_paths Examples.registry ["plan.json"; "notes.txt"; "launch.json"]
           entries eq_refl Hlist).
Defined.

(** ** Defaults and labels *)

Section RowFacts.
Context `{Library}.

(** [truthy] is false on Python's false values and on nothing else. *)
Lemma truthy_falsy (v : json) : truthy v = false <-> In v Spec.falsy_values.
Proof.
  unfold Spec.falsy_values. cbn [In]. split.
  - destruct v as [|b|n|f|s|l|m]; cbn.
    + auto.
    + intros ->. auto.
    + intros Hn%negb_false_iff%Z.eqb_eq. subst n. auto.
    + destruct f as [[|]| | |]; try discriminate; auto 10.
    + intros Hs%negb_false_iff%String.eqb_eq. subst s. auto 10.
    + destruct l; [auto 10 | discriminate].
    + destruct (map_to_list m) eqn:Hm; [|discriminate].
      apply map_to_list_empty_iff in Hm as ->. auto 10.
  - intros Hin.
    repeat (destruct Hin as [<- | Hin]);
      first [destruct Hin | reflexivity | cbn; now rewrite map_to_list_empty].
Qed.

(** The label and the section of the row of a task. *)
Lemma task_row_fields (section_name : json) (tm : gmap string json) (r : row) :
  task_row section_name (JObj tm) = Ok r ->
  row_Section r = section_name /\
  row_Critical_Path r
  = (if truthy (default (JBool false) (tm !! "is_critical"))
     then "Critical" else "Non-Critical").
Proof.
  unfold task_row. cbn [getitem dict_get].
  destruct (tm !! "task_name") as [name|]; [|rewrite bind_Raise; discriminate].
  run_binds.
  destruct (tm !! "start_date") as [sd|]; [|rewrite bind_Raise; discriminate].
  run_binds.
  destruct (Strptime.strptime sd) as [start|]; [|rewrite bind_Raise; discriminate].
  run_binds.
  destruct (tm !! "duration_days") as [n|]; [|rewrite bind_Raise; discriminate].
  run_binds.
  destruct (timedelta_days n) as [delta|]; [|rewrite bind_Raise; discriminate].
  run_binds.
  destruct (datetime_add start delta) as [fin|]; [|rewrite bind_Raise; discriminate].
  run_binds. intros [= <-]. split; reflexivity.
Qed.

Lemma task_row_section (section_name task : json) (r : row) :
  task_row section_name task = Ok r -> row_Section r = section_name.
Proof.
  destruct task as [| | | | | |tm]; try discriminate.
  intros Hr. now apply task_row_fields in Hr.
Qed.

Lemma task_row_label (section_name task : json) (r : row) :
  task_row section_name task = Ok r ->
  row_Critical_Path r = "Critical" \/ row_Critical_Path r = "Non-Critical".
Proof.
  destruct task as [| | | | | |tm]; try discriminate.
  intros Hr. apply task_row_fields in Hr as [_ ->].
  destruct (truthy _); [now left | now right].
Qed.

Lemma getitem_insert_ne (tm : gmap string json) (k k' : string) (v : json) :
  k <> k' -> getitem (JObj (<[k := v]> tm)) k' = getitem (JObj tm) k'.
Proof. intros Hk. cbn. now rewrite lookup_insert_ne. Qed.

(** The value of [is_critical] decides the label and nothing else: whether
    the task yields a row does not depend on it. *)
Lemma task_row_any_flag (section_name : json) (tm : gmap string json) (v : json) :
  is_ok (task_row section_name (JObj (<["is_critical" := v]> tm)))
  = is_ok (task_row section_name (JObj tm)).
Proof.
  unfold task_row.
  rewrite (getitem_insert_ne tm "is_critical" "task_name") by discriminate.
  rewrite (getitem_insert_ne tm "is_critical" "start_date") by discriminate.
  rewrite (getitem_insert_ne tm "is_critical" "duration_days") by discriminate.
  destruct (getitem (JObj tm) "task_name") as [name|]; [|reflexivity]. run_binds.
  destruct (getitem (JObj tm) "start_date") as [sd|]; [|reflexivity]. run_binds.
  destruct (Strptime.strptime sd) as [start|]; [|reflexivity]. run_binds.
  destruct (getitem (JObj tm) "duration_days") as [n|]; [|reflexivity]. run_binds.
  destruct (timedelta_days n) as [delta|]; [|reflexivity]. run_binds.
  destruct (datetime_add start delta) as [fin|]; reflexivity.
Qed.

(** The title is the only thing that [chart_name] decides. *)
Lemma gantt_data_any_title (m : gmap string json) (v : json) :
  gantt_data (JObj (<["chart_name" := v]> m))
  = (p ← gantt_data (JObj m); mret (fst p, v)).
Proof.
  unfold gantt_data. cbn [dict_get]. run_binds.
  rewrite lookup_insert_eq, lookup_insert_ne by discriminate. cbn [default from_option id].
  destruct (py_iter _) as [items|]; [|reflexivity]. run_binds.
  destruct (section_loop items []); reflexivity.
Qed.

End RowFacts.

(** * The claims of the specification *)

(** C1, as amended.  For every valid schedule document whose tasks all end
    within the calendar (0001-01-01..9999-12-31), [prepare_gantt_data]
    returns as many rows as the sections have tasks in total, with the title
    of the document, and the end date of each row is its start date plus
    [duration_days] calendar days at the same time of day, for every integer
    duration: zero gives an end equal to the start, a negative one an end
    before it.  When the end of some task leaves the calendar the call
    raises [OverflowError] and returns no rows. *)
Theorem rows_of_valid_document `{Library} (w : world) (json_file : string)
    (doc : json) :
  files w !! json_file = Some (JsonFile doc) ->
  Spec.valid_document doc = true ->
  if forallb (fun st => Spec.ends_in_calendar (snd st)) (Spec.document_tasks doc)
  then
    exists rows,
      prepare_gantt_data w json_file = Ok (rows, Spec.title_of doc) /\
      length rows = Spec.task_count doc /\
      Forall2 (fun st r => Spec.row_dates (snd st) r) (Spec.document_tasks doc) rows
  else prepare_gantt_data w json_file = Raise OverflowError.
Proof.
  intros Hfile Hvalid.
  rewrite (prepare_gantt_data_loaded _ _ _ Hfile).
  pose proof (valid_document_tasks doc Hvalid) as Htasks.
  destruct (forallb _ _) eqn:Hcal.
  - destruct (valid_document_parses doc Hvalid Hcal) as (rows & Hrows & Hlen & Hdates).
    exists rows. split; [exact Hrows|]. split; [exact Hlen|].
    eapply Forall2_impl; [exact Hdates|]. now intros st r [_ Hd].
  - rewrite gantt_data_well_shaped by now apply valid_document_well_shaped.
    rewrite (mapM_result_raises _ OverflowError); [reflexivity| |].
    + apply Forall_forall. intros [sn t] Hin.
      apply (proj1 (Forall_forall _ _) Htasks) in Hin as Hv. cbn in Hv |- *.
      destruct (Spec.ends_in_calendar t) eqn:Hc.
      * left. destruct (task_row_valid sn t Hv Hc) as (r & -> & _). reflexivity.
      * right. now apply task_row_overflow.
    + apply Exists_exists.
      assert (Hex : exists st, In st (Spec.document_tasks doc) /\
                      Spec.ends_in_calendar (snd st) = false).
      { clear -Hcal. induction (Spec.document_tasks doc) as [|st l IH];
          [discriminate|]. cbn in Hcal. apply andb_false_iff in Hcal as [Hst | Hl].
        - exists st. split; [now left | exact Hst].
        - destruct (IH Hl) as (st' & Hin & Hst'). exists st'. split; [now right | exact Hst']. }
      destruct Hex as ([sn t] & Hin & Hc). exists (sn, t).
      split; [now apply list_elem_of_In|]. cbn in Hc |- *.
      apply list_elem_of_In in Hin.
      apply (proj1 (Forall_forall _ _) Htasks) in Hin as Hv. cbn in Hv.
      now rewrite task_row_overflow.
Qed.

(** The document [two_sections] (durations 2, 0 and -10) is valid, its tasks
    end within the calendar, and its three rows come out. *)
Lemma rows_of_valid_document_witness :
  (forall L : Library, @Spec.valid_document L Examples.two_sections = true) /\
  forall L : Library,
  exists rows,
    @prepare_gantt_data L (Examples.one_file "json/plan.json" Examples.two_sections)
      "json/plan.json"
    = Ok (rows, Spec.title_of Examples.two_sections) /\
    length rows = Spec.task_count Examples.two_sections /\
    Forall2 (fun st r => Spec.row_dates (snd st) r)
      (Spec.document_tasks Examples.two_sections) rows.
Proof.
  split; [vm_compute; reflexivity|]. intros L.
  exact (@rows_of_valid_document L
           (Examples.one_file "json/plan.json" Examples.two_sections)
           "json/plan.json" Examples.two_sections
           ltac:(vm_compute; reflexivity) ltac:(vm_compute; reflexivity)).
Defined.

(** C1 as stated fails: [last_day] is a valid document with one task, of
    duration 1 from 9999-12-31, and the parser raises [OverflowError]
    instead of returning one row. *)
Lemma valid_document_overflow :
  (forall L : Library, @Spec.valid_document L Examples.last_day = true) /\
  Spec.task_count Examples.last_day = 1%nat /\
  forall L : Library,
    @prepare_gantt_data L (Examples.one_file "json/last.json" Examples.last_day)
      "json/last.json"
    = Raise OverflowError.
Proof. repeat split; intros; vm_compute; reflexivity. Qed.

(** C2, as amended.  For every document that is not an object, or whose
    [sections] cannot be iterated, or one of whose sections is not an object
    with a [section_name] and with [tasks] that can be iterated,
    [prepare_gantt_data] raises an exception and returns no rows at all:
    [AttributeError], [TypeError] or [KeyError], unless a task of an earlier
    section raised first.  A document without [sections] is not among them:
    every object without that key, whatever else it holds, yields the empty
    list of rows with its title, because the key defaults to the empty
    list. *)
Theorem malformed_document_fails `{Library} (w : world) (json_file : string)
    (doc : json) :
  files w !! json_file = Some (JsonFile doc) ->
  (Spec.loop_shape doc = false ->
   exists e,
     prepare_gantt_data w json_file = Raise e /\
     (Spec.malformed_schedule_error e = true \/ raised_by_task doc e)) /\
  (forall m, doc = JObj m -> m !! "sections" = None ->
   prepare_gantt_data w json_file
   = Ok ([], default (JStr PLACEHOLDER_TITLE) (m !! "chart_name"))).
Proof.
  intros Hfile. rewrite (prepare_gantt_data_loaded _ _ _ Hfile). split.
  - intros Hshape. unfold Spec.loop_shape in Hshape. unfold gantt_data.
    destruct doc as [| | | | | |m]; cbn; try (eexists; split; [reflexivity | now left]).
    destruct (py_iter (default (JArr []) (m !! "sections"))) as [secs|e] eqn:Hsecs; cbn.
    + destruct (section_loop_bad_shape secs [] Hshape) as (e & Hloop).
      exists e. rewrite Hloop. split; [reflexivity|].
      apply section_loop_error in Hloop
        as [Hm | (sec & n & ts & items & t & Hin & Hn & Hts & Hitems & Ht & Hrow)];
        [now left | right].
      exists m, secs, sec, n, ts, items, t. repeat split; assumption.
    + exists e. split; [reflexivity | left]. now apply py_iter_error in Hsecs as ->.
  - intros m -> Hnone. unfold gantt_data. cbn [dict_get]. run_binds.
    rewrite Hnone. reflexivity.
Qed.

(** The document [{"sections": 3}], and the document [no_sections]. *)
Lemma malformed_document_fails_witness :
  Spec.loop_shape Examples.sections_number = false /\
  (list_to_map [("chart_name", JStr "Empty")] : gmap string json) !! "sections"
  = None /\
  forall L : Library,
    (exists e,
       @prepare_gantt_data L
         (Examples.one_file "json/odd.json" Examples.sections_number) "json/odd.json"
       = Raise e /\
       (Spec.malformed_schedule_error e = true \/
        raised_by_task Examples.sections_number e)) /\
    @prepare_gantt_data L
      (Examples.one_file "json/empty.json" Examples.no_sections) "json/empty.json"
    = Ok ([], JStr "Empty").
Proof.
  split; [vm_compute; reflexivity|]. split; [vm_compute; reflexivity|].
  intros L. split.
  - exact (proj1 (@malformed_document_fails L
             (Examples.one_file "json/odd.json" Examples.sections_number)
             "json/odd.json" Examples.sections_number
             ltac:(vm_compute; reflexivity)) ltac:(vm_compute; reflexivity)).
  - exact (proj2 (@malformed_document_fails L
             (Examples.one_file "json/empty.json" Examples.no_sections)
             "json/empty.json" Examples.no_sections
             ltac:(vm_compute; reflexivity))
             (list_to_map [("chart_name", JStr "Empty")] : gmap string json)
             eq_refl ltac:(vm_compute; reflexivity)).
Defined.

(** C2 as stated fails: [no_sections] holds no sequence of sections, and
    the parser returns the empty list of rows with its title. *)
Lemma missing_sections_accepted :
  Spec.sequence_shape Examples.no_sections = false /\
  forall L : Library,
    @prepare_gantt_data L
      (Examples.one_file "json/empty.json" Examples.no_sections) "json/empty.json"
    = Ok ([], JStr "Empty").
Proof. split; intros; vm_compute; reflexivity. Qed.

(** C3, as amended.  For a task that has a [task_name] and that the loops
    reach (the sections before its own yield rows, its own section has a
    [section_name] and [tasks] that can be iterated, and the tasks before it
    there yield rows; nothing is asked of what comes after it): when its
    [start_date] string writes no existing date as [strptime] reads
    ['%Y-%m-%d'] (four decimal digits, a hyphen, the month in one or two
    digits, a hyphen, the day in one or two digits or a blank and a digit;
    the digits of the year and the second digit of a day from 10 to 29 may
    be decimal digits of any script, the others are 0-9),
    [prepare_gantt_data] raises [ValueError]; a string that writes an
    existing date so, in particular as YYYY-MM-DD, is read as that date,
    which is the start of the row. *)
Theorem invalid_date_fails `{Library} (w : world) (json_file : string)
    (m : gmap string json) (earlier later : list json) (section : json)
    (section_name section_tasks : json) (before after : list json)
    (rows : list row) (tm : gmap string json) (name : json) (s : string) :
  files w !! json_file = Some (JsonFile (JObj m)) ->
  py_iter (default (JArr []) (m !! "sections")) = Ok (earlier ++ section :: later) ->
  section_loop earlier [] = Ok rows ->
  getitem section "section_name" = Ok section_name ->
  getitem section "tasks" = Ok section_tasks ->
  py_iter section_tasks = Ok (before ++ JObj tm :: after) ->
  Forall (fun t => is_ok (task_row section_name t) = true) before ->
  tm !! "task_name" = Some name ->
  tm !! "start_date" = Some (JStr s) ->
  ((forall y mo d, ~ Spec.date_text s y mo d) ->
   prepare_gantt_data w json_file = Raise ValueError) /\
  (forall y mo d, Spec.date_text s y mo d ->
   Strptime.strptime (JStr s) = Ok (mk_datetime y mo d 0 0 0 0) /\
   forall r, task_row section_name (JObj tm) = Ok r ->
     row_Start r = mk_datetime y mo d 0 0 0 0) /\
  (forall y mo d, Calendar.check_date_fields y mo d = true ->
   s = Spec.iso_date y mo d ->
   Strptime.strptime (JStr s) = Ok (mk_datetime y mo d 0 0 0 0)).
Proof.
  intros Hfile Hsections Hearlier Hsection_name Htasks Hitems Hbefore Hname Hs.
  split; [|split].
  - intros Hno. rewrite (prepare_gantt_data_loaded _ _ _ Hfile).
    unfold gantt_data. cbn [dict_get]. run_binds. rewrite Hsections. run_binds.
    rewrite section_loop_app, Hearlier. run_binds. cbn [section_loop].
    rewrite Hsection_name, Htasks. run_binds. rewrite Hitems. run_binds.
    rewrite task_loop_mapM.
    rewrite (mapM_result_first_error _ before after _ ValueError);
      [reflexivity | exact Hbefore |].
    unfold task_row. cbn [getitem]. rewrite Hname, Hs. run_binds.
    now rewrite StrptimeFacts.strptime_rejects.
  - intros y mo d Ht.
    pose proof (StrptimeFacts.strptime_date_text s y mo d Ht) as Hstart.
    split; [exact Hstart|]. intros r. unfold task_row. cbn [getitem].
    rewrite Hname, Hs. run_binds. rewrite Hstart. run_binds.
    destruct (tm !! "duration_days") as [n|]; [|rewrite bind_Raise; discriminate].
    run_binds.
    destruct (timedelta_days n) as [delta|]; [|rewrite bind_Raise; discriminate].
    run_binds.
    destruct (datetime_add _ delta) as [fin|]; [|rewrite bind_Raise; discriminate].
    run_binds.
    cbn [dict_get]. run_binds. now intros [= <-].
  - intros y mo d Hchk ->. apply StrptimeFacts.strptime_date_text.
    now apply iso_date_text.
Qed.

(** The document [date_then_malformed]: the task dated "01-01-2024" comes
    after a section and a task that yield rows, and before a task and a
    section that are no objects.  The document [other_script], read with a
    Unicode database that knows the Arabic-Indic digits, yields its row. *)
Lemma invalid_date_fails_witness :
  Spec.is_YYYY_MM_DD "01-01-2024" = false /\
  Spec.well_shaped Examples.date_then_malformed = false /\
  @prepare_gantt_data Examples.arabic_indic_library
    (Examples.one_file "json/other.json" Examples.other_script) "json/other.json"
  = Ok ([{| row_Task := "Design";
            row_Start := mk_datetime 2024 1 15 0 0 0 0;
            row_Finish := mk_datetime 2024 1 20 0 0 0 0;
            row_Critical_Path := "Non-Critical";
            row_Section := JStr "Prep" |}],
        JStr "Project Gantt Chart") /\
  forall L : Library,
    @prepare_gantt_data L
      (Examples.one_file "json/day.json" Examples.date_then_malformed)
      "json/day.json"
    = Raise ValueError.
Proof.
  split; [vm_compute; reflexivity|]. split; [vm_compute; reflexivity|].
  split; [vm_compute; reflexivity|]. intros L.
  refine (proj1 (@invalid_date_fails L
            (Examples.one_file "json/day.json" Examples.date_then_malformed)
            "json/day.json"
            (list_to_map
               [("sections",
                 JArr [Examples.planned; Examples.prepared; JInt 3])])
            [Examples.planned] [JInt 3] Examples.prepared
            (JStr "Prep")
            (JArr [Examples.task "Order" "2024-1-5" 2;
                   Examples.task "Design" "01-01-2024" 5; JNull])
            [Examples.task "Order" "2024-1-5" 2] [JNull]
            [{| row_Task := "Scope";
                row_Start := mk_datetime 2024 1 2 0 0 0 0;
                row_Finish := mk_datetime 2024 1 5 0 0 0 0;
                row_Critical_Path := "Non-Critical";
                row_Section := JStr "Plan" |}]
            (list_to_map [("task_name", JStr "Design");
                          ("start_date", JStr "01-01-2024");
                          ("duration_days", JInt 5)])
            (JStr "Design") "01-01-2024" _ _ _ _ _ _ _ _ _) day_first_is_no_date).
  - vm_compute; reflexivity.
  - vm_compute; reflexivity.
  - vm_compute; reflexivity.
  - vm_compute; reflexivity.
  - vm_compute; reflexivity.
  - vm_compute; reflexivity.
  - constructor; [vm_compute; reflexivity | constructor].
  - vm_compute; reflexivity.
  - vm_compute; reflexivity.
Defined.

(** C3 as stated fails: "2024-1-5" is not of the shape YYYY-MM-DD, and the
    parser reads it as the 5th of January 2024 and returns the row. *)
Lemma short_date_accepted :
  Spec.is_YYYY_MM_DD "2024-1-5" = false /\
  forall L : Library,
    @prepare_gantt_data L (Examples.one_file "json/short.json" Examples.short_date)
      "json/short.json"
    = Ok ([{| row_Task := "Design";
              row_Start := mk_datetime 2024 1 5 0 0 0 0;
              row_Finish := mk_datetime 2024 1 10 0 0 0 0;
              row_Critical_Path := "Non-Critical";
              row_Section := JStr "Prep" |}],
          JStr "Project Gantt Chart").
Proof. split; intros; vm_compute; reflexivity. Qed.

(** C4, the defect.  For the selected file [json/roadmap.json.old.json] the
    specification names the image [roadmap.json.old_gantt_chart.png]; the
    export replaces every [.json] of the name and writes
    [roadmap_gantt_chart.png.old_gantt_chart.png], which its status message
    reports. *)
Theorem export_name_replaces_every_json :
  Spec.image_name "json/roadmap.json.old.json" = "roadmap.json.old_gantt_chart.png" /\
  output_filename_of "json/roadmap.json.old.json"
  = "roadmap_gantt_chart.png.old_gantt_chart.png" /\
  forall L : Library,
    let w := Examples.one_file "json/roadmap.json.old.json" Examples.launch in
    @export_chart L w (Some 1) "json/roadmap.json.old.json"
    = (fig ← @create_gantt_figure L
               [{| row_Task := "Design";
                   row_Start := mk_datetime 2024 1 1 0 0 0 0;
                   row_Finish := mk_datetime 2024 1 6 0 0 0 0;
                   row_Critical_Path := "Critical";
                   row_Section := JStr "Prep" |}] (JStr "Launch");
       w' ← @write_image L w fig "roadmap_gantt_chart.png.old_gantt_chart.png";
       mret ("Gantt chart exported as 'roadmap_gantt_chart.png.old_gantt_chart.png'",
             w')).
Proof. repeat split; intros; vm_compute; reflexivity. Qed.




(** C7.  A document without [chart_name] gets the placeholder title, and a
    task without [is_critical] gets the label "Non-Critical"; neither absence
    is an error: the document parses exactly when it does with a
    [chart_name] added, the task yields a row exactly when it does with an
    [is_critical] added, and a document that is valid but for these absences
    (its dates within the calendar) parses to the placeholder title and one
    row for each task. *)
Theorem absent_keys_default `{Library} (w : world) (json_file : string)
    (m : gmap string json) :
  files w !! json_file = Some (JsonFile (JObj m)) ->
  m !! "chart_name" = None ->
  (forall rows title,
     prepare_gantt_data w json_file = Ok (rows, title) ->
     title = JStr "Project Gantt Chart") /\
  (forall v,
     is_ok (prepare_gantt_data w json_file)
     = is_ok (gantt_data (JObj (<["chart_name" := v]> m)))) /\
  (forall section_name tm,
     tm !! "is_critical" = None ->
     (forall r, task_row section_name (JObj tm) = Ok r ->
        row_Critical_Path r = "Non-Critical") /\
     (forall v, is_ok (task_row section_name (JObj tm))
                = is_ok (task_row section_name (JObj (<["is_critical" := v]> tm))))) /\
  (forall rows title,
     Spec.well_shaped (JObj m) = true ->
     prepare_gantt_data w json_file = Ok (rows, title) ->
     Forall2 (fun st r => forall tm, snd st = JObj tm -> tm !! "is_critical" = None ->
                row_Critical_Path r = "Non-Critical")
       (Spec.document_tasks (JObj m)) rows) /\
  (Spec.valid_document (JObj m) = true ->
   forallb (fun st => Spec.ends_in_calendar (snd st))
     (Spec.document_tasks (JObj m)) = true ->
   exists rows,
     prepare_gantt_data w json_file = Ok (rows, JStr "Project Gantt Chart") /\
     length rows = Spec.task_count (JObj m)).
Proof.
  intros Hfile Hname. rewrite (prepare_gantt_data_loaded _ _ _ Hfile).
  split; [|split; [|split; [|split]]].
  - intros rows title. unfold gantt_data. cbn [dict_get]. rewrite Hname. run_binds.
    destruct (py_iter _) as [items|]; [|rewrite bind_Raise; discriminate]. run_binds.
    destruct (section_loop items []); [|rewrite bind_Raise; discriminate].
    run_binds. now intros [= _ <-].
  - intros v. rewrite gantt_data_any_title.
    destruct (gantt_data (JObj m)); reflexivity.
  - intros section_name tm Hflag. split.
    + intros r Hr. apply task_row_fields in Hr as [_ ->]. now rewrite Hflag.
    + intros v. now rewrite task_row_any_flag.
  - intros rows title Hshape. rewrite gantt_data_well_shaped by assumption.
    destruct (mapM _ _) as [rows'|] eqn:Hrows; [|rewrite bind_Raise; discriminate].
    run_binds. intros [= <- _]. apply mapM_result_Forall2 in Hrows.
    eapply Forall2_impl; [exact Hrows|]. intros [sn t] r Hr tm Ht Hflag.
    cbn in Ht, Hr. subst t. apply task_row_fields in Hr as [_ ->]. now rewrite Hflag.
  - intros Hvalid Hcal.
    destruct (valid_document_parses _ Hvalid Hcal) as (rows & Hrows & Hlen & _).
    exists rows. split; [|exact Hlen]. rewrite Hrows.
    unfold Spec.title_of. now rewrite Hname.
Qed.

(** [two_sections] has no [chart_name] and its tasks have no
    [is_critical]. *)
Lemma absent_keys_default_witness :
  (forall L : Library, @Spec.valid_document L Examples.two_sections = true) /\
  forall L : Library,
  exists rows,
    @prepare_gantt_data L
      (Examples.one_file "json/plan.json" Examples.two_sections) "json/plan.json"
    = Ok (rows, JStr "Project Gantt Chart") /\
    length rows = Spec.task_count Examples.two_sections.
Proof.
  split; [vm_compute; reflexivity|]. intros L.
  refine (proj2 (proj2 (proj2 (proj2 (@absent_keys_default L
            (Examples.one_file "json/plan.json" Examples.two_sections)
            "json/plan.json"
            (match Examples.two_sections with JObj m => m | _ => ∅ end) _ _)))) _ _).
  - vm_compute; reflexivity.
  - vm_compute; reflexivity.
  - vm_compute; reflexivity.
  - vm_compute; reflexivity.
Defined.

(** C8.  The scenario of the specification: the document [launch] yields
    one row, Design from 2024-01-01 to 2024-01-06, critical, of section
    Prep, and the title Launch. *)
Theorem launch_scenario (L : Library) :
  @prepare_gantt_data L (Examples.one_file "json/launch.json" Examples.launch)
    "json/launch.json"
  = Ok ([{| row_Task := "Design";
            row_Start := mk_datetime 2024 1 1 0 0 0 0;
            row_Finish := mk_datetime 2024 1 6 0 0 0 0;
            row_Critical_Path := "Critical";
            row_Section := JStr "Prep" |}],
        JStr "Launch").
Proof. vm_compute. reflexivity. Qed.

(** C9.  On a document whose sections are a sequence of objects with a name
    and a sequence of tasks, as every valid document is,
    [prepare_gantt_data] is the traversal of the tasks in document order
    (the sections in their order and, within each, the tasks in theirs) that
    stops at the first task that raises; so the rows it returns are, one for
    one and in that order, the rows of the tasks, each with the name of its
    section. *)
Theorem rows_in_document_order `{Library} (w : world) (json_file : string)
    (doc : json) :
  files w !! json_file = Some (JsonFile doc) ->
  Spec.well_shaped doc = true ->
  prepare_gantt_data w json_file
  = (rows ← mapM (fun st => task_row (fst st) (snd st)) (Spec.document_tasks doc);
     mret (rows, Spec.title_of doc)) /\
  forall rows title,
    prepare_gantt_data w json_file = Ok (rows, title) ->
    Forall2 (fun st r => task_row (fst st) (snd st) = Ok r /\ row_Section r = fst st)
      (Spec.document_tasks doc) rows.
Proof.
  intros Hfile Hshape. rewrite (prepare_gantt_data_loaded _ _ _ Hfile).
  rewrite gantt_data_well_shaped by assumption. split; [reflexivity|].
  intros rows title.
  destruct (mapM _ _) as [rows'|] eqn:Hrows; [|rewrite bind_Raise; discriminate].
  run_binds. intros [= <- _]. apply mapM_result_Forall2 in Hrows.
  eapply Forall2_impl; [exact Hrows|]. intros [sn t] r Hr. cbn in Hr |- *.
  split; [exact Hr | now apply task_row_section in Hr].
Qed.

(** [two_sections]: Frame and Roof of section Build, then List of section
    Sell. *)
Lemma rows_in_document_order_witness :
  (forall L : Library, @Spec.valid_document L Examples.two_sections = true) /\
  map (fun st => snd st) (Spec.document_tasks Examples.two_sections)
  = [Examples.task "Frame" "2024-02-28" 2; Examples.task "Roof" "2024-03-01" 0;
     Examples.task "List" "2024-03-10" (-10)] /\
  forall L : Library,
    map row_Task
      (match @prepare_gantt_data L
               (Examples.one_file "json/plan.json" Examples.two_sections)
               "json/plan.json" with
       | Ok (rows, _) => rows
       | Raise _ => []
       end)
    = ["Frame"; "Roof"; "List"].
Proof.
  split; [vm_compute; reflexivity|]. split; [vm_compute; reflexivity|]. intros L.
  rewrite (proj1 (@rows_in_document_order L
             (Examples.one_file "json/plan.json" Examples.two_sections)
             "json/plan.json" Examples.two_sections
             ltac:(vm_compute; reflexivity) ltac:(vm_compute; reflexivity))).
  vm_compute. reflexivity.
Defined.

(** C10.  Every row that [prepare_gantt_data] returns is labelled "Critical"
    or "Non-Critical".  The label of a task is "Non-Critical" when its
    [is_critical] is absent or is one of Python's false values ([null],
    [false], 0, 0.0, -0.0, the empty string, the empty list, the empty
    object), and "Critical" for every other value, of whatever kind: [true],
    any other number, any non-empty string, list or object.  No value of
    [is_critical] makes the task fail. *)
Theorem critical_path_label `{Library} (w : world) (json_file : string) :
  (forall rows title,
     prepare_gantt_data w json_file = Ok (rows, title) ->
     Forall (fun r => row_Critical_Path r = "Critical" \/
                      row_Critical_Path r = "Non-Critical") rows) /\
  (forall section_name tm r,
     task_row section_name (JObj tm) = Ok r ->
     (tm !! "is_critical" = None -> row_Critical_Path r = "Non-Critical") /\
     (forall v, tm !! "is_critical" = Some v ->
        (In v Spec.falsy_values -> row_Critical_Path r = "Non-Critical") /\
        (~ In v Spec.falsy_values -> row_Critical_Path r = "Critical"))) /\
  (forall section_name tm v,
     is_ok (task_row section_name (JObj (<["is_critical" := v]> tm)))
     = is_ok (task_row section_name (JObj tm))).
Proof.
  split; [|split].
  - intros rows title. unfold prepare_gantt_data.
    destruct (load_json w json_file) as [data|]; [|rewrite bind_Raise; discriminate].
    run_binds. unfold gantt_data.
    destruct (dict_get data "chart_name" _) as [name|]; [|rewrite bind_Raise; discriminate].
    run_binds.
    destruct (dict_get data "sections" _) as [secs|]; [|rewrite bind_Raise; discriminate].
    run_binds.
    destruct (py_iter secs) as [items|]; [|rewrite bind_Raise; discriminate].
    run_binds.
    destruct (section_loop items []) as [tasks|] eqn:Hloop;
      [|rewrite bind_Raise; discriminate].
    run_binds. intros [= <- _].
    eapply section_loop_Forall; [|constructor|exact Hloop].
    intros n t r. apply task_row_label.
  - intros section_name tm r Hr. apply task_row_fields in Hr as [_ ->]. split.
    + intros ->. reflexivity.
    + intros v ->. cbn [from_option id]. split.
      * intros Hfalsy%truthy_falsy. now rewrite Hfalsy.
      * intros Htruthy. destruct (truthy v) eqn:Hv; [reflexivity|].
        now apply truthy_falsy in Hv.
  - intros. apply task_row_any_flag.
Qed.

(** [all_flags]: [true], 1, the list that holds a zero, the object with a
    key and the negative fraction are labelled "Critical"; [false], the
    negative zero, the empty object and the absent key "Non-Critical".
    [odd_flags]: a non-empty string is labelled "Critical"; zero, null, the
    empty list and 0.0 "Non-Critical". *)
Lemma critical_path_label_witness :
  (forall L : Library,
     map row_Critical_Path
       (match @prepare_gantt_data L
                (Examples.one_file "json/flags.json" Examples.all_flags)
                "json/flags.json" with
        | Ok (rows, _) => rows
        | Raise _ => []
        end)
     = ["Critical"; "Non-Critical"; "Critical"; "Critical"; "Critical"; "Critical";
        "Non-Critical"; "Non-Critical"; "Non-Critical"]) /\
  (forall L : Library,
     map row_Critical_Path
       (match @prepare_gantt_data L
                (Examples.one_file "json/flags.json" Examples.odd_flags)
                "json/flags.json" with
        | Ok (rows, _) => rows
        | Raise _ => []
        end)
     = ["Critical"; "Non-Critical"; "Non-Critical"; "Non-Critical"; "Non-Critical"]) /\
  ~ In (JBool true) Spec.falsy_values /\
  (forall (L : Library) (r : row),
     @task_row L (JStr "All") (Examples.flagged "true" (JBool true)) = Ok r ->
     row_Critical_Path r = "Critical").
Proof.
  assert (Htrue : ~ In (JBool true) Spec.falsy_values).
  { cbn. intros Hin. repeat (destruct Hin as [Hin | Hin]; [discriminate|]).
    exact Hin. }
  split; [intros L; vm_compute; reflexivity|].
  split; [intros L; vm_compute; reflexivity|]. split; [exact Htrue|].
  intros L r Hr.
  exact (proj2 (proj2 (proj1 (proj2 (@critical_path_label L
           (Examples.one_file "json/flags.json" Examples.all_flags)
           "json/flags.json")) (JStr "All") _ r Hr) (JBool true)
           ltac:(vm_compute; reflexivity)) Htrue).
Defined.

(** * Further properties of the code *)

(** ** The parser *)

Section ParserFacts.
Context `{Library}.

Lemma strptime_error (v : json) (e : exn) :
  Strptime.strptime v = Raise e -> e = TypeError \/ e = ValueError.
Proof.
  destruct v as [| | | |s| |]; try (cbn; intros [= <-]; now left).
  intros He. right. exact (StrptimeFacts.strptime_str_error s e He).
Qed.

Lemma datetime_add_error (d : datetime) (delta : timedelta) (e : exn) :
  datetime_add d delta = Raise e -> e = OverflowError.
Proof.
  unfold datetime_add. cbv zeta.
  repeat match goal with
  | |- context [if ?b then _ else _] => destruct b
  | |- context [let '(_, _) := ?p in _] => destruct p
  end; congruence.
Qed.

Lemma task_row_error (section_name task : json) (e : exn) :
  float_days_errors -> task_row section_name task = Raise e -> task_error e.
Proof.
  intros Hfloat. unfold task_row, task_error.
  destruct task as [| | | | | |tm]; try (cbn; intros [= <-]; auto).
  destruct (getitem (JObj tm) "task_name") as [name|e1] eqn:Hname.
  2: { rewrite bind_Raise. intros [= <-].
       apply getitem_error in Hname as [-> | ->]; auto. }
  run_binds.
  destruct (getitem (JObj tm) "start_date") as [sd|e1] eqn:Hsd.
  2: { rewrite bind_Raise. intros [= <-].
       apply getitem_error in Hsd as [-> | ->]; auto. }
  run_binds.
  destruct (Strptime.strptime sd) as [start|e1] eqn:Hstart.
  2: { rewrite bind_Raise. intros [= <-].
       apply strptime_error in Hstart as [-> | ->]; auto. }
  run_binds.
  destruct (getitem (JObj tm) "duration_days") as [n|e1] eqn:Hn.
  2: { rewrite bind_Raise. intros [= <-].
       apply getitem_error in Hn as [-> | ->]; auto. }
  run_binds.
  destruct (timedelta_days n) as [delta|e1] eqn:Hdelta.
  2: { rewrite bind_Raise. intros [= <-]. unfold timedelta_days in Hdelta.
       destruct n as [| |k|x| | |]; try (injection Hdelta as <-; auto); try discriminate.
       - destruct (_ <? _); [injection Hdelta as <-; auto | discriminate].
       - apply Hfloat in Hdelta as [-> | ->]; auto. }
  run_binds.
  destruct (datetime_add start delta) as [fin|e1] eqn:Hfin.
  2: { rewrite bind_Raise. intros [= <-].
       apply datetime_add_error in Hfin as ->. auto. }
  run_binds. cbn. discriminate.
Qed.

Lemma section_loop_task_error (sections : list json) (tasks : list row) (e : exn) :
  float_days_errors -> section_loop sections tasks = Raise e -> task_error e.
Proof.
  intros Hfloat. revert tasks.
  induction sections as [|sec sections IH]; cbn; intros tasks Hloop; [discriminate|].
  destruct (getitem sec "section_name") as [n|e1] eqn:Hn; cbn in Hloop.
  2: { injection Hloop as ->. unfold task_error.
       apply getitem_error in Hn as [-> | ->]; auto. }
  destruct (getitem sec "tasks") as [ts|e2] eqn:Hts; cbn in Hloop.
  2: { injection Hloop as ->. unfold task_error.
       apply getitem_error in Hts as [-> | ->]; auto. }
  destruct (py_iter ts) as [items|e3] eqn:Hitems; cbn in Hloop.
  2: { injection Hloop as ->. apply py_iter_error in Hitems as ->.
       unfold task_error. auto. }
  destruct (task_loop n items tasks) as [tasks'|e4] eqn:Hinner; cbn in Hloop.
  - exact (IH _ Hloop).
  - injection Hloop as ->.
    apply task_loop_error in Hinner as (t & _ & Ht).
    exact (task_row_error n t e Hfloat Ht).
Qed.

(** X6.  Where an exception of [prepare_gantt_data] comes from, when
    [timedelta] raises nothing but [OverflowError] and [ValueError] for a
    fractional number of days (as Python's does).  Either opening and
    loading the file raised it; or the file was loaded, and then the
    exception is [AttributeError] exactly when the loaded value is not an
    object, and is a [TypeError], [KeyError], [ValueError] or
    [OverflowError] when it is one. *)
Theorem parse_error_kinds (w : world) (json_file : string) (e : exn) :
  float_days_errors ->
  prepare_gantt_data w json_file = Raise e ->
  load_json w json_file = Raise e \/
  exists data,
    load_json w json_file = Ok data /\
    (((forall m, data <> JObj m) /\ e = AttributeError) \/
     ((exists m, data = JObj m) /\ task_error e)).
Proof.
  intros Hfloat. unfold prepare_gantt_data.
  destruct (load_json w json_file) as [data|e0].
  2: { rewrite bind_Raise. intros [= <-]. now left. }
  run_binds. intros Hdata. right. exists data. split; [reflexivity|].
  destruct data as [| | | | | |m];
    try (left; split; [discriminate | cbn in Hdata; congruence]).
  right. split; [now exists m|].
  unfold gantt_data in Hdata. cbn [dict_get] in Hdata. revert Hdata. run_binds.
  destruct (py_iter _) as [items|e1] eqn:Hitems.
  2: { rewrite bind_Raise. intros [= <-]. apply py_iter_error in Hitems as ->.
       unfold task_error. auto. }
  run_binds.
  destruct (section_loop items []) as [rows|e1] eqn:Hloop.
  - run_binds. discriminate.
  - rewrite bind_Raise. intros [= <-].
    exact (section_loop_task_error items [] e1 Hfloat Hloop).
Qed.

Lemma task_row_insert_ne (section_name : json) (tm : gmap string json)
    (k : string) (v : json) :
  ~ In k ["task_name"; "start_date"; "duration_days"; "is_critical"] ->
  task_row section_name (JObj (<[k := v]> tm)) = task_row section_name (JObj tm).
Proof.
  intros Hk. unfold task_row. cbn [getitem dict_get].
  rewrite !lookup_insert_ne; [reflexivity|..]; intros ->; apply Hk; cbn; auto 10.
Qed.

(** X7.  Keys that the parser does not read are ignored: a document, a
    section or a task with one more key yields the same rows, the same title
    and the same exception. *)
Theorem unknown_keys_ignored (k : string) (v : json) :
  (~ In k ["chart_name"; "sections"] ->
   forall m, gantt_data (JObj (<[k := v]> m)) = gantt_data (JObj m)) /\
  (~ In k ["section_name"; "tasks"] ->
   forall sm sections tasks,
     section_loop (JObj (<[k := v]> sm) :: sections) tasks
     = section_loop (JObj sm :: sections) tasks) /\
  (~ In k ["task_name"; "start_date"; "duration_days"; "is_critical"] ->
   forall section_name tm items tasks,
     task_loop section_name (JObj (<[k := v]> tm) :: items) tasks
     = task_loop section_name (JObj tm :: items) tasks).
Proof.
  split; [|split]; intros Hk.
  - intros m. unfold gantt_data. cbn [dict_get].
    rewrite !lookup_insert_ne; [reflexivity|..]; intros ->; apply Hk; cbn; auto 10.
  - intros sm sections tasks. cbn [section_loop getitem].
    rewrite !lookup_insert_ne; [reflexivity|..]; intros ->; apply Hk; cbn; auto 10.
  - intros section_name tm items tasks. cbn [task_loop].
    now rewrite task_row_insert_ne.
Qed.

(** X8.  The rows of a document are the rows of its sections, one section
    after the other: a document whose sections are [sections1] followed by
    [sections2] yields the rows of the first part followed by the rows of
    the second, and fails as the first part does, or else as the second. *)
Theorem rows_of_sections_concatenate (m : gmap string json)
    (sections1 sections2 : list json) :
  gantt_data (JObj (<["sections" := JArr (sections1 ++ sections2)]> m))
  = (p1 ← gantt_data (JObj (<["sections" := JArr sections1]> m));
     p2 ← gantt_data (JObj (<["sections" := JArr sections2]> m));
     mret (fst p1 ++ fst p2, snd p1)).
Proof.
  unfold gantt_data. cbn [dict_get]. run_binds.
  rewrite !lookup_insert_eq, !lookup_insert_ne by discriminate.
  cbn [default from_option id py_iter]. run_binds.
  rewrite section_loop_app.
  destruct (section_loop sections1 []) as [rows1|]; [|reflexivity]. run_binds.
  rewrite (section_loop_appends sections2 rows1).
  destruct (section_loop sections2 []) as [rows2|]; reflexivity.
Qed.

(** X9.  The duration of a task whose name is present and whose start date
    is read: without [duration_days] the task is a [KeyError]; [true] and
    [false] count as one day and no day; a duration that is [null], a
    string, a list or an object is a [TypeError]. *)
Theorem duration_kinds (section_name : json) (tm : gmap string json)
    (name date_string : json) (start_date : datetime) :
  tm !! "task_name" = Some name ->
  tm !! "start_date" = Some date_string ->
  Strptime.strptime date_string = Ok start_date ->
  (tm !! "duration_days" = None ->
   task_row section_name (JObj tm) = Raise KeyError) /\
  (forall b, tm !! "duration_days" = Some (JBool b) ->
   task_row section_name (JObj tm)
   = task_row section_name (JObj (<["duration_days" := JInt (Z.b2z b)]> tm))) /\
  (forall v, tm !! "duration_days" = Some v -> not_a_number v = true ->
   task_row section_name (JObj tm) = Raise TypeError).
Proof.
  intros Hname Hdate Hstart. unfold task_row. cbn [getitem dict_get].
  rewrite Hname, Hdate. run_binds. rewrite Hstart. run_binds.
  split; [|split].
  - intros ->. reflexivity.
  - intros b Hb. rewrite Hb.
    rewrite lookup_insert_eq, !lookup_insert_ne by discriminate.
    rewrite Hname, Hdate. run_binds. rewrite Hstart. run_binds.
    unfold timedelta_days.
    destruct (Z.ltb_spec MAX_DELTA_DAYS (Z.abs (Z.b2z b))) as [Hbig|_];
      [destruct b; cbv in Hbig; discriminate | reflexivity].
  - intros v -> Hv. destruct v; try discriminate; reflexivity.
Qed.

(** X10.  The chart that a selection shows has one bar for each row of the
    selected file, in the order of the rows, under the title of the file,
    and every bar has a colour in the colour map: the label of a row is one
    of the two keys of the map. *)
Theorem chart_of_selection (w : world) (json_file : string) (fig : figure) :
  update_gantt_chart w json_file = Ok fig ->
  exists rows title,
    prepare_gantt_data w json_file = Ok (rows, title) /\
    fig_data_frame fig = rows /\ fig_title fig = title /\
    Forall (fun r => exists colour,
              In (row_Critical_Path r, colour) (fig_color_discrete_map fig)) rows.
Proof.
  unfold update_gantt_chart.
  destruct (prepare_gantt_data w json_file) as [[rows title]|] eqn:Hrows;
    [|rewrite bind_Raise; discriminate].
  run_binds. unfold create_gantt_figure.
  destruct (timeline_error rows title); [discriminate|]. intros [= <-].
  exists rows, title. repeat (split; [reflexivity|]). cbn.
  assert (Hlabels : Forall (fun r => row_Critical_Path r = "Critical" \/
                                      row_Critical_Path r = "Non-Critical") rows).
  { unfold prepare_gantt_data in Hrows.
    destruct (load_json w json_file) as [data|]; [|discriminate].
    revert Hrows. run_binds. unfold gantt_data.
    destruct (dict_get data "chart_name" _); [|rewrite bind_Raise; discriminate].
    run_binds.
    destruct (dict_get data "sections" _) as [secs|]; [|rewrite bind_Raise; discriminate].
    run_binds.
    destruct (py_iter secs) as [items|]; [|rewrite bind_Raise; discriminate].
    run_binds.
    destruct (section_loop items []) as [rows'|] eqn:Hloop;
      [|rewrite bind_Raise; discriminate].
    run_binds. intros [= <- _].
    eapply section_loop_Forall; [|constructor|exact Hloop].
    intros n t r Hr. exact (task_row_label n t r Hr). }
  eapply Forall_impl; [exact Hlabels|]. cbn.
  intros r [-> | ->]; eexists; [left | right; left]; reflexivity.
Qed.

End ParserFacts.

(** *** The dates of the rows *)

Section DateFacts.
Context `{Library}.

Lemma datetime_add_valid (d : datetime) (delta : timedelta) (fin : datetime) :
  datetime_add d delta = Ok fin -> valid_datetime fin = true.
Proof.
  unfold datetime_add. cbv zeta.
  destruct (_ <? _); [discriminate|].
  destruct (andb _ _) eqn:Hrange; [|discriminate].
  apply andb_true_iff in Hrange as [Hlo%Z.ltb_lt Hhi%Z.leb_le].
  match type of Hlo with 0 < ?n =>
    pose proof (CalendarFacts.ord2ymd_valid n ltac:(lia)) as Hvalid;
    destruct (Calendar.ord2ymd n) as [[y m] dd]
  end.
  intros [= <-]. unfold valid_datetime. cbn. rewrite Hvalid. cbn [andb].
  repeat (apply andb_true_intro; split);
    first [apply Z.leb_le | apply Z.ltb_lt]; Z.div_mod_to_equations; lia.
Qed.

Lemma strptime_valid (v : json) (dt : datetime) :
  Strptime.strptime v = Ok dt -> valid_datetime dt = true /\ midnight dt = true.
Proof.
  destruct v as [| | | |s| |]; try discriminate.
  intros (y & m & d & [Hvalid _] & ->)%StrptimeFacts.strptime_Ok_inv.
  unfold valid_datetime, midnight. cbn. rewrite Hvalid. split; reflexivity.
Qed.

Lemma task_row_dates (section_name task : json) (r : row) :
  task_row section_name task = Ok r ->
  valid_datetime (row_Start r) = true /\ midnight (row_Start r) = true /\
  valid_datetime (row_Finish r) = true.
Proof.
  unfold task_row.
  destruct (getitem task "task_name") as [name|]; [|rewrite bind_Raise; discriminate].
  run_binds.
  destruct (getitem task "start_date") as [sd|]; [|rewrite bind_Raise; discriminate].
  run_binds.
  destruct (Strptime.strptime sd) as [start|] eqn:Hstart;
    [|rewrite bind_Raise; discriminate].
  run_binds.
  destruct (getitem task "duration_days") as [n|]; [|rewrite bind_Raise; discriminate].
  run_binds.
  destruct (timedelta_days n) as [delta|]; [|rewrite bind_Raise; discriminate].
  run_binds.
  destruct (datetime_add start delta) as [fin|] eqn:Hfin;
    [|rewrite bind_Raise; discriminate].
  run_binds.
  destruct (dict_get task "is_critical" _); [|rewrite bind_Raise; discriminate].
  run_binds. intros [= <-]. cbn.
  apply strptime_valid in Hstart as [Hvalid Hmidnight].
  apply datetime_add_valid in Hfin. repeat split; assumption.
Qed.

(** X21.  Whatever the document, the rows that [prepare_gantt_data]
    returns hold dates of the calendar only: every [Start] is a date of the
    years 1 to 9999 at midnight, and every [Finish] is a date of the years 1
    to 9999 with a time of the day, also when the duration is a fraction of
    a day. *)
Theorem rows_hold_calendar_dates (w : world) (json_file : string)
    (rows : list row) (title : json) :
  prepare_gantt_data w json_file = Ok (rows, title) ->
  Forall (fun r => valid_datetime (row_Start r) = true /\
                   midnight (row_Start r) = true /\
                   valid_datetime (row_Finish r) = true) rows.
Proof.
  unfold prepare_gantt_data.
  destruct (load_json w json_file) as [data|]; [|rewrite bind_Raise; discriminate].
  run_binds. unfold gantt_data.
  destruct (dict_get data "chart_name" _); [|rewrite bind_Raise; discriminate].
  run_binds.
  destruct (dict_get data "sections" _) as [secs|]; [|rewrite bind_Raise; discriminate].
  run_binds.
  destruct (py_iter secs) as [items|]; [|rewrite bind_Raise; discriminate].
  run_binds.
  destruct (section_loop items []) as [rows'|] eqn:Hloop;
    [|rewrite bind_Raise; discriminate].
  run_binds. intros [= <- _].
  eapply section_loop_Forall; [|constructor|exact Hloop].
  intros n t r Hr. exact (task_row_dates n t r Hr).
Qed.

End DateFacts.

(** ** The export and its file name *)

Lemma replace_from_absent (old new s : string) :
  occurs old s = false -> replace_from old new 0 s = s.
Proof.
  induction s as [|c s IH]; [reflexivity|].
  cbn [occurs replace_from]. intros [Hhere Hlater]%orb_false_iff.
  rewrite Hhere. f_equal. exact (IH Hlater).
Qed.

(** X11.  For a selected file whose base name does not contain [.json],
    the file name that line 164 computes is that very base name: nothing is
    replaced, and the name gets no [_gantt_chart.png] ending.  What
    [write_image] does with such a name is not part of the statement. *)
Theorem export_name_without_json (json_file : string) :
  occurs ".json" (basename json_file) = false ->
  output_filename_of json_file = basename json_file.
Proof. intros Habsent. now apply replace_from_absent. Qed.

Lemma basename_from_no_slash (candidate name : string) :
  contains_slash name = false -> basename_from candidate name = candidate.
Proof.
  unfold contains_slash. revert candidate.
  induction name as [|c name IH]; intros candidate; [reflexivity|].
  cbn [list_ascii_of_string existsb basename_from].
  intros [Hc Hname]%orb_false_iff.
  rewrite Ascii.eqb_sym, Hc. exact (IH _ Hname).
Qed.

Lemma basename_from_directory (directory name candidate : string) :
  contains_slash name = false ->
  basename_from candidate (directory +:+ "/" +:+ name) = name.
Proof.
  intros Hname. revert candidate.
  induction directory as [|c directory IH]; intros candidate.
  - cbn. now apply basename_from_no_slash.
  - cbn [String.append basename_from]. destruct (Ascii.eqb c "/"); apply IH.
Qed.

(** X12.  The name of the image depends on the base name of the selected
    file only: files of the same name in different directories are exported
    to the same image. *)
Theorem export_name_ignores_directory (directory name : string) :
  contains_slash name = false ->
  output_filename_of (directory +:+ "/" +:+ name) = output_filename_of name.
Proof.
  intros Hname. unfold output_filename_of, basename.
  rewrite (basename_from_directory directory name _ Hname).
  now rewrite (basename_from_no_slash name name Hname).
Qed.

(** ** The registry and the dropdown *)

Lemma registry_entry_Ok (w : world) (f : string) (en : entry) :
  registry_entry w f = Ok en <->
  exists m, files w !! path_join "json" f = Some (JsonFile (JObj m)) /\
    en = {| entry_file := path_join "json" f;
            entry_name := default (JStr f) (m !! "chart_name") |}.
Proof.
  unfold registry_entry, load_json. cbv zeta.
  destruct (files w !! path_join "json" f) as [[data| |e]|].
  - run_binds. destruct data as [| | | | | |m]; cbn.
    7: { split.
         - intros [= <-]. exists m. split; reflexivity.
         - intros (m' & [= <-] & ->). reflexivity. }
    all: split; [discriminate | intros (m' & [=] & _)].
  - rewrite bind_Raise. split; [discriminate | intros (m' & [=] & _)].
  - rewrite bind_Raise. split; [discriminate | intros (m' & [=] & _)].
  - rewrite bind_Raise. split; [discriminate | intros (m' & [=] & _)].
Qed.

Lemma load_json_files_Ok (w : world) (entries : list entry) :
  load_json_files w = Ok entries <->
  exists names, listdir_json w = Ok names /\
    Forall2 (fun f en => registry_entry w f = Ok en)
      (List.filter (fun f => endswith f ".json") names) entries.
Proof.
  unfold load_json_files. destruct (listdir_json w) as [names|e].
  - run_binds. rewrite mapM_result_Forall2. split.
    + intros Hall. exists names. split; [reflexivity | exact Hall].
    + intros (names' & [= <-] & Hall). exact Hall.
  - rewrite bind_Raise. split; [discriminate | intros (names' & [=] & _)].
Qed.

(** X5.  The listing succeeds exactly when the directory can be listed and
    every file in it whose name ends in [.json] holds a JSON object; its
    entries are then these files in the order of the directory, each with
    the path [json/<name>] and, as display name, the [chart_name] of the
    object, whatever JSON value that is, or the file name when the object
    has none. *)
Theorem listing_succeeds_iff (w : world) (entries : list entry) :
  load_json_files w = Ok entries <->
  exists names, listdir_json w = Ok names /\
    Forall2 (fun f en =>
      exists m, files w !! path_join "json" f = Some (JsonFile (JObj m)) /\
        en = {| entry_file := path_join "json" f;
                entry_name := default (JStr f) (m !! "chart_name") |})
      (List.filter (fun f => endswith f ".json") names) entries.
Proof.
  rewrite load_json_files_Ok. split; intros (names & Hdir & Hall);
    exists names; (split; [exact Hdir|]);
    (eapply Forall2_impl; [exact Hall|]); intros f en; apply registry_entry_Ok.
Qed.

Lemma dropdown_values (entries : list entry) :
  map option_value (dropdown_options entries) = map entry_file entries.
Proof. unfold dropdown_options. rewrite map_map. reflexivity. Qed.

Lemma load_json_files_values (w : world) (names : list string) (entries : list entry) :
  listdir_json w = Ok names -> load_json_files w = Ok entries ->
  map entry_file entries
  = map (path_join "json") (List.filter (fun f => endswith f ".json") names).
Proof.
  intros Hdir (names' & Hdir' & Hall)%load_json_files_Ok.
  rewrite Hdir in Hdir'. injection Hdir' as <-.
  induction Hall as [|f en l entries Hen _ IH]; [reflexivity|].
  cbn. f_equal; [|exact IH]. now apply registry_entry_Ok in Hen as (m & _ & ->).
Qed.

(** X18.  The dropdown as the page starts: its values are the paths of
    the files of the directory whose names end in [.json], and the selected
    value is the first of them, a file that holds a JSON object.  Without
    such a file nothing is selected, and the chart callback, which is then
    called with [None], fails with [TypeError]. *)
Theorem selector_start `{Library} (w : world) (options : list dropdown_option)
    (value : option string) :
  json_selector w = Ok (options, value) ->
  exists names, listdir_json w = Ok names /\
    map option_value options
    = map (path_join "json") (List.filter (fun f => endswith f ".json") names) /\
    match List.filter (fun f => endswith f ".json") names with
    | f :: _ =>
        value = Some (path_join "json" f) /\
        exists m, load_json w (path_join "json" f) = Ok (JObj m)
    | [] =>
        options = [] /\ value = None /\
        update_gantt_chart_value w value = Raise TypeError
    end.
Proof.
  unfold json_selector.
  destruct (load_json_files w) as [entries|] eqn:Hlist;
    [|rewrite bind_Raise; discriminate].
  run_binds. intros [= <- <-].
  pose proof Hlist as (names & Hdir & Hall)%load_json_files_Ok.
  exists names. split; [exact Hdir|]. split.
  { rewrite dropdown_values. exact (load_json_files_values w names entries Hdir Hlist). }
  destruct Hall as [|f en l entries' Hen _].
  - repeat split; reflexivity.
  - apply registry_entry_Ok in Hen as (m & Hfile & ->). cbn. split; [reflexivity|].
    exists m. unfold load_json. now rewrite Hfile.
Qed.

(** ** The upload *)

Lemma split_on_length (sep : ascii) (s : string) :
  length (split_on sep s) = S (occurrences sep s).
Proof.
  unfold occurrences. induction s as [|c s IH]; [reflexivity|].
  cbn [split_on list_ascii_of_string count_occ].
  destruct (Ascii.eqb_spec c sep) as [-> | Hc].
  - destruct (Ascii.ascii_dec sep sep); [|contradiction]. cbn. now rewrite IH.
  - destruct (Ascii.ascii_dec c sep); [contradiction|].
    destruct (split_on sep s); [discriminate | exact IH].
Qed.

Lemma split_on_absent (sep : ascii) (s : string) :
  occurrences sep s = 0%nat -> split_on sep s = [s].
Proof.
  unfold occurrences. induction s as [|c s IH]; [reflexivity|].
  cbn [split_on list_ascii_of_string count_occ].
  destruct (Ascii.eqb_spec c sep) as [-> | Hc].
  - destruct (Ascii.ascii_dec sep sep); [discriminate | contradiction].
  - destruct (Ascii.ascii_dec c sep); [contradiction|].
    intros Hs. now rewrite (IH Hs).
Qed.

Lemma split_on_first (sep : ascii) (s rest : string) :
  occurrences sep s = 0%nat ->
  split_on sep (s +:+ String sep rest) = s :: split_on sep rest.
Proof.
  unfold occurrences. induction s as [|c s IH].
  - intros _. cbn. now rewrite Ascii.eqb_refl.
  - cbn [String.append split_on list_ascii_of_string count_occ].
    destruct (Ascii.eqb_spec c sep) as [-> | Hc].
    + destruct (Ascii.ascii_dec sep sep); [discriminate | contradiction].
    + destruct (Ascii.ascii_dec c sep); [contradiction|].
      intros Hs. now rewrite (IH Hs).
Qed.

Lemma path_join_inj (a b : string) :
  path_join "json" a = path_join "json" b -> a = b.
Proof.
  unfold path_join.
  destruct (String.prefix "/" a) eqn:Ha, (String.prefix "/" b) eqn:Hb.
  - auto.
  - intros ->. cbn in Ha. discriminate.
  - intros <-. cbn in Hb. discriminate.
  - cbn. now intros [= ->].
Qed.

Lemma listed_name_join (filename : string) :
  contains_slash filename = false -> endswith filename ".json" = true ->
  listed_name (path_join "json" filename) = Some filename.
Proof.
  intros Hslash Hend. unfold path_join, listed_name.
  assert (Hrel : String.prefix "/" filename = false).
  { destruct filename as [|c filename]; [reflexivity|].
    unfold contains_slash in Hslash.
    cbn [list_ascii_of_string existsb] in Hslash.
    apply orb_false_iff in Hslash as [Hc _]. cbn [String.prefix].
    destruct (Ascii.ascii_dec "/" c) as [<- | _]; [|reflexivity].
    now rewrite Ascii.eqb_refl in Hc. }
  rewrite Hrel. cbn [String.append after_prefix]. rewrite !Ascii.eqb_refl. cbn [after_prefix].
  rewrite Hslash.
  destruct (String.eqb_spec filename "") as [-> | _]; [discriminate|].
  destruct (String.eqb_spec filename ".") as [-> | _]; [discriminate|].
  destruct (String.eqb_spec filename "..") as [-> | _]; [discriminate|].
  reflexivity.
Qed.

Section UploadFacts.
Context `{Platform}.

(** The steps of an upload whose contents have one comma. *)
Lemma upload_json_steps (w : world) (content_type content_string filename : string) :
  occurrences "," content_type = 0%nat ->
  occurrences "," content_string = 0%nat ->
  upload_json w (Some (content_type +:+ "," +:+ content_string)) filename
  = match b64decode content_string ≫= decode_utf8 with
    | Ok decoded =>
        match write_text w (path_join "json" filename) decoded with
        | (w', Ok _) =>
            (w', json_files ← load_json_files w';
                 mret (updated (dropdown_options json_files)
                         (path_join "json" filename)))
        | (w', Raise e) => (w', Raise e)
        end
    | Raise e => (w, Raise e)
    end.
Proof.
  intros Htype Hstring. unfold upload_json.
  change (content_type +:+ "," +:+ content_string)
    with (content_type +:+ String "," content_string).
  now rewrite (split_on_first _ _ _ Htype), (split_on_absent _ _ Hstring).
Qed.

(** What a successful upload went through. *)
Lemma upload_json_updated (w w' : world) (contents filename : string)
    (options : list dropdown_option) (value : string) :
  upload_json w (Some contents) filename = (w', Ok (updated options value)) ->
  exists content_type content_string decoded entries,
    split_on "," contents = [content_type; content_string] /\
    b64decode content_string ≫= decode_utf8 = Ok decoded /\
    write_text w (path_join "json" filename) decoded = (w', Ok tt) /\
    load_json_files w' = Ok entries /\
    options = dropdown_options entries /\
    value = path_join "json" filename.
Proof.
  unfold upload_json.
  destruct (split_on "," contents) as [|content_type [|content_string [|]]];
    try discriminate.
  destruct (b64decode content_string ≫= decode_utf8) as [decoded|] eqn:Hdecoded;
    [|discriminate].
  cbv zeta.
  destruct (write_text w (path_join "json" filename) decoded) as [w1 [[]|]] eqn:Hwrite;
    [|discriminate].
  destruct (load_json_files w1) as [entries|] eqn:Hlist;
    [|rewrite bind_Raise; discriminate].
  run_binds. intros [= <- <- <-].
  exists content_type, content_string, decoded, entries.
  split; [reflexivity|]. split; [exact Hdecoded|]. split; [exact Hwrite|].
  split; [exact Hlist|]. split; reflexivity.
Qed.

(** X13.  An upload whose contents do not have exactly one comma (an empty
    text, a text without the [data:...;base64,] prefix, a prefix with a
    comma of its own) fails with [ValueError] before anything is decoded or
    written. *)
Theorem upload_needs_one_comma (w : world) (contents filename : string) :
  occurrences "," contents <> 1%nat ->
  upload_json w (Some contents) filename = (w, Raise ValueError).
Proof.
  intros Hcommas. unfold upload_json.
  pose proof (split_on_length "," contents) as Hlen.
  destruct (split_on "," contents) as [|a [|b [|c l]]]; try reflexivity.
  cbn in Hlen. congruence.
Qed.

(** X15.  A file uploaded under a name that does not end in [.json] is
    written and becomes the value of the dropdown, but it is not among the
    options: the listing leaves it out. *)
Theorem upload_of_other_name (w w' : world) (contents filename : string)
    (options : list dropdown_option) (value : string) :
  endswith filename ".json" = false ->
  upload_json w (Some contents) filename = (w', Ok (updated options value)) ->
  value = path_join "json" filename /\
  ~ In value (map option_value options).
Proof.
  intros Hend (t & cs & decoded & entries & _ & _ & _ & Hlist & -> & ->)%upload_json_updated.
  split; [reflexivity|]. rewrite dropdown_values.
  pose proof Hlist as (names & Hdir & _)%load_json_files_Ok.
  rewrite (load_json_files_values w' names entries Hdir Hlist).
  intros (f & Hf%path_join_inj & Hin)%in_map_iff. subst f.
  apply filter_In in Hin as [_ Hjson]. congruence.
Qed.

(** The world after a write that does not fail. *)
Lemma write_text_Ok (w w' : world) (path text : string) :
  write_text w path text = (w', Ok tt) ->
  files w' = <[path := json_of_text text]> (files w) /\
  forall f, listed_name path = Some f ->
    listdir_json w' = (names ← listdir_json w; mret (listing_with f names)).
Proof.
  unfold write_text. destruct (write_failure w path text) as [[e w1]|];
    [discriminate|].
  intros [= <-]. cbn. split; [reflexivity|]. now intros f ->.
Qed.

Lemma listing_with_In (f : string) (names : list string) :
  In f (listing_with f names).
Proof.
  apply list_elem_of_In. rewrite (listing_with_perm f names).
  destruct (bool_decide_reflect (f ∈ names)); [assumption | now left].
Qed.

(** X14.  Round trip: after an upload that could be decoded and written,
    the value it returns, when the listing succeeds, is the path
    [json/<filename>], and selecting that path gives what the parser makes
    of the uploaded text, whatever the file held before and whether or not
    the listing succeeded; the declared type of the contents plays no role. *)
Theorem upload_then_select `{Library} (w : world)
    (content_type content_string filename decoded : string) :
  occurrences "," content_type = 0%nat ->
  occurrences "," content_string = 0%nat ->
  b64decode content_string ≫= decode_utf8 = Ok decoded ->
  write_failure w (path_join "json" filename) decoded = None ->
  exists w' r,
    upload_json w (Some (content_type +:+ "," +:+ content_string)) filename = (w', r) /\
    (forall options value,
       r = Ok (updated options value) -> value = path_join "json" filename) /\
    prepare_gantt_data w' (path_join "json" filename)
    = (data ← load_text decoded; gantt_data data).
Proof.
  intros Htype Hstring Hdecoded Hwrite.
  rewrite (upload_json_steps w _ _ filename Htype Hstring), Hdecoded.
  unfold write_text. rewrite Hwrite. eexists _, _. split; [reflexivity|]. split.
  - intros options value.
    match goal with |- context [load_json_files ?w1] => destruct (load_json_files w1) end;
      [|rewrite bind_Raise; discriminate].
    run_binds. now intros [= _ <-].
  - unfold prepare_gantt_data, load_json, load_text. cbn [files].
    rewrite lookup_insert_eq. destruct (json_of_text decoded); reflexivity.
Qed.

(** X16.  No check at upload: a text that is no JSON object, uploaded
    under a name that ends in [.json], is written all the same.  The upload
    then fails in its listing, and so does every later listing and the
    start of the page, for as long as the file is there. *)
Theorem upload_of_no_object (w : world)
    (content_type content_string filename decoded : string) (names : list string) :
  occurrences "," content_type = 0%nat ->
  occurrences "," content_string = 0%nat ->
  b64decode content_string ≫= decode_utf8 = Ok decoded ->
  write_failure w (path_join "json" filename) decoded = None ->
  listdir_json w = Ok names ->
  contains_slash filename = false ->
  endswith filename ".json" = true ->
  (forall m, json_of_text decoded <> JsonFile (JObj m)) ->
  exists w' e,
    upload_json w (Some (content_type +:+ "," +:+ content_string)) filename
    = (w', Raise e) /\
    files w' !! path_join "json" filename = Some (json_of_text decoded) /\
    load_json_files w' = Raise e /\
    json_selector w' = Raise e.
Proof.
  intros Htype Hstring Hdecoded Hwrite Hdir Hslash Hend Hobject.
  rewrite (upload_json_steps w _ _ filename Htype Hstring), Hdecoded.
  destruct (write_text w (path_join "json" filename) decoded) as [w1 r] eqn:Hw1.
  assert (r = Ok tt) as ->.
  { unfold write_text in Hw1. rewrite Hwrite in Hw1. now injection Hw1 as _ <-. }
  apply write_text_Ok in Hw1 as [Hfiles Hlisting].
  specialize (Hlisting filename (listed_name_join filename Hslash Hend)).
  rewrite Hdir in Hlisting. revert Hlisting. run_binds. intros Hlisting.
  assert (Hfile : files w1 !! path_join "json" filename = Some (json_of_text decoded)).
  { rewrite Hfiles. apply lookup_insert_eq. }
  assert (Hfails : exists e, load_json_files w1 = Raise e).
  { unfold load_json_files. rewrite Hlisting. run_binds.
    apply (mapM_result_fails _ _ filename).
    - apply filter_In. split; [apply listing_with_In | exact Hend].
    - destruct (registry_entry w1 filename) as [en|] eqn:Hen; [|reflexivity].
      apply registry_entry_Ok in Hen as (m & Hm & _).
      rewrite Hfile in Hm. injection Hm as Hm. now destruct (Hobject m). }
  destruct Hfails as (e & Hfails). exists w1, e. rewrite Hfails.
  split; [reflexivity|]. split; [exact Hfile|]. split; [reflexivity|].
  unfold json_selector. now rewrite Hfails.
Qed.

(** X17.  A JSON object uploaded under a name that ends in [.json] is
    offered by the dropdown that the upload returns, under its [chart_name]
    or, without one, under its file name, with the returned value as its
    value. *)
Theorem upload_is_listed (w w' : world)
    (content_type content_string filename decoded : string)
    (m : gmap string json) (options : list dropdown_option) (value : string) :
  occurrences "," content_type = 0%nat ->
  occurrences "," content_string = 0%nat ->
  b64decode content_string ≫= decode_utf8 = Ok decoded ->
  json_of_text decoded = JsonFile (JObj m) ->
  contains_slash filename = false ->
  endswith filename ".json" = true ->
  upload_json w (Some (content_type +:+ "," +:+ content_string)) filename
  = (w', Ok (updated options value)) ->
  In {| option_label := default (JStr filename) (m !! "chart_name");
        option_value := value |} options.
Proof.
  intros Htype Hstring Hdecoded Hobject Hslash Hend.
  rewrite (upload_json_steps w _ _ filename Htype Hstring), Hdecoded.
  destruct (write_text w (path_join "json" filename) decoded) as [w1 [[]|]] eqn:Hw1;
    [|discriminate].
  apply write_text_Ok in Hw1 as [Hfiles Hlisting].
  specialize (Hlisting filename (listed_name_join filename Hslash Hend)).
  destruct (load_json_files w1) as [entries|] eqn:Hlist;
    [|rewrite bind_Raise; discriminate].
  run_binds. intros [= <- <- <-].
  unfold load_json_files in Hlist. rewrite Hlisting in Hlist.
  destruct (listdir_json w) as [names|]; [|discriminate].
  revert Hlist. run_binds. intros Hlist.
  unfold dropdown_options.
  apply (in_map (fun item => {| option_label := entry_name item;
                                option_value := entry_file item |}) entries
           {| entry_file := path_join "json" filename;
              entry_name := default (JStr filename) (m !! "chart_name") |}).
  apply (mapM_result_In _ _ _ filename _ Hlist).
  - apply filter_In. split; [apply listing_with_In | exact Hend].
  - apply registry_entry_Ok. exists m. split; [|reflexivity].
    rewrite Hfiles, lookup_insert_eq. now rewrite Hobject.
Qed.

End UploadFacts.

Section UploadNames.
Context `{Platform}.

(** X20.  The file name is not checked: for an absolute name,
    [os.path.join("json", filename)] is the name itself, so the upload
    writes the text at that path and not at [json/<filename>]: reading the
    path afterwards gives what [json.load] makes of the uploaded text, and
    the value that a successful upload returns is the name itself. *)
Theorem upload_of_absolute_name (w : world)
    (content_type content_string filename decoded : string) :
  occurrences "," content_type = 0%nat ->
  occurrences "," content_string = 0%nat ->
  b64decode content_string ≫= decode_utf8 = Ok decoded ->
  String.prefix "/" filename = true ->
  write_failure w filename decoded = None ->
  exists w' r,
    upload_json w (Some (content_type +:+ "," +:+ content_string)) filename = (w', r) /\
    load_json w' filename = load_text decoded /\
    (forall options value, r = Ok (updated options value) -> value = filename).
Proof.
  intros Htype Hstring Hdecoded Habsolute Hwrite.
  rewrite (upload_json_steps w _ _ filename Htype Hstring), Hdecoded.
  assert (Hpath : path_join "json" filename = filename).
  { unfold path_join. now rewrite Habsolute. }
  rewrite Hpath. unfold write_text. rewrite Hwrite.
  eexists _, _. split; [reflexivity|]. split.
  - unfold load_json, load_text. cbn [files]. rewrite lookup_insert_eq.
    destruct (json_of_text decoded); reflexivity.
  - intros options value.
    match goal with |- context [load_json_files ?w1] => destruct (load_json_files w1) end;
      [|rewrite bind_Raise; discriminate].
    run_binds. now intros [= _ <-].
Qed.

End UploadNames.

(** ** Instances *)

(** A date written day first, parsed with a library whose [timedelta]
    raises [OverflowError] for fractional days. *)
Lemma parse_error_kinds_witness :
  @float_days_errors Examples.obliging_library /\
  @prepare_gantt_data Examples.obliging_library
    (Examples.one_file "json/plan.json" Examples.day_first) "json/plan.json"
  = Raise ValueError /\
  (load_json (Examples.one_file "json/plan.json" Examples.day_first) "json/plan.json"
   = Raise ValueError \/
   exists data,
     load_json (Examples.one_file "json/plan.json" Examples.day_first) "json/plan.json"
     = Ok data /\
     (((forall m, data <> JObj m) /\ ValueError = AttributeError) \/
      ((exists m, data = JObj m) /\ task_error ValueError))).
Proof.
  assert (Hfloat : @float_days_errors Examples.obliging_library).
  { intros x e [= <-]. now left. }
  split; [exact Hfloat|]. split; [vm_compute; reflexivity|].
  exact (@parse_error_kinds Examples.obliging_library
           (Examples.one_file "json/plan.json" Examples.day_first) "json/plan.json"
           ValueError Hfloat ltac:(vm_compute; reflexivity)).
Defined.

(** A key [notes] in a document, in a section and in a task. *)
Lemma unknown_keys_ignored_witness :
  (~ In "notes" ["chart_name"; "sections"] /\
   ~ In "notes" ["section_name"; "tasks"] /\
   ~ In "notes" ["task_name"; "start_date"; "duration_days"; "is_critical"]) /\
  forall L : Library,
    (forall m, @gantt_data L (JObj (<["notes" := JStr "later"]> m))
               = @gantt_data L (JObj m)) /\
    (forall sm sections tasks,
       @section_loop L (JObj (<["notes" := JStr "later"]> sm) :: sections) tasks
       = @section_loop L (JObj sm :: sections) tasks) /\
    (forall section_name tm items tasks,
       @task_loop L section_name (JObj (<["notes" := JStr "later"]> tm) :: items) tasks
       = @task_loop L section_name (JObj tm :: items) tasks).
Proof.
  assert (H1 : ~ In "notes" ["chart_name"; "sections"]).
  { cbn. intros [Hk | [Hk | []]]; discriminate. }
  assert (H2 : ~ In "notes" ["section_name"; "tasks"]).
  { cbn. intros [Hk | [Hk | []]]; discriminate. }
  assert (H3 : ~ In "notes" ["task_name"; "start_date"; "duration_days"; "is_critical"]).
  { cbn. intros [Hk | [Hk | [Hk | [Hk | []]]]]; discriminate. }
  split; [repeat split; assumption|]. intros L.
  destruct (@unknown_keys_ignored L "notes" (JStr "later")) as (Hdoc & Hsec & Htask).
  split; [exact (Hdoc H1)|]. split; [exact (Hsec H2) | exact (Htask H3)].
Defined.

(** A task of [true] days lasts one day. *)
Lemma duration_kinds_witness :
  Examples.true_days !! "duration_days" = Some (JBool true) /\
  (forall L : Library,
     @Strptime.strptime L (JStr "2024-01-01") = Ok (mk_datetime 2024 1 1 0 0 0 0)) /\
  forall L : Library,
    @task_row L (JStr "Prep") (JObj Examples.true_days)
    = @task_row L (JStr "Prep")
        (JObj (<["duration_days" := JInt 1]> Examples.true_days)).
Proof.
  split; [vm_compute; reflexivity|]. split; [vm_compute; reflexivity|]. intros L.
  destruct (@duration_kinds L (JStr "Prep") Examples.true_days
              (JStr "Design") (JStr "2024-01-01") (mk_datetime 2024 1 1 0 0 0 0)
              ltac:(vm_compute; reflexivity) ltac:(vm_compute; reflexivity)
              ltac:(vm_compute; reflexivity)) as (_ & Hbool & _).
  exact (Hbool true ltac:(vm_compute; reflexivity)).
Defined.

(** The chart of the scenario of section 8. *)
Lemma chart_of_selection_witness :
  exists fig,
    @update_gantt_chart Examples.obliging_library
      (Examples.one_file "json/launch.json" Examples.launch) "json/launch.json"
    = Ok fig /\
    exists rows title,
      @prepare_gantt_data Examples.obliging_library
        (Examples.one_file "json/launch.json" Examples.launch) "json/launch.json"
      = Ok (rows, title) /\
      fig_data_frame fig = rows /\ fig_title fig = title /\
      Forall (fun r => exists colour,
                In (row_Critical_Path r, colour) (fig_color_discrete_map fig)) rows.
Proof.
  destruct (@update_gantt_chart Examples.obliging_library
              (Examples.one_file "json/launch.json" Examples.launch)
              "json/launch.json") as [fig|e] eqn:Hfig;
    [|vm_compute in Hfig; discriminate].
  exists fig. split; [reflexivity|].
  exact (@chart_of_selection Examples.obliging_library _ _ fig Hfig).
Defined.

(** The file [json/notes.txt]. *)
Lemma export_name_without_json_witness :
  occurs ".json" (basename "json/notes.txt") = false /\
  output_filename_of "json/notes.txt" = basename "json/notes.txt".
Proof.
  split; [vm_compute; reflexivity|].
  exact (export_name_without_json "json/notes.txt" ltac:(vm_compute; reflexivity)).
Defined.

(** [plan.json] in [json] and in [/tmp/old]. *)
Lemma export_name_ignores_directory_witness :
  contains_slash "plan.json" = false /\
  output_filename_of "json/plan.json" = output_filename_of "plan.json" /\
  output_filename_of "/tmp/old/plan.json" = output_filename_of "plan.json".
Proof.
  split; [vm_compute; reflexivity|]. split.
  - exact (export_name_ignores_directory "json" "plan.json" ltac:(vm_compute; reflexivity)).
  - exact (export_name_ignores_directory "/tmp/old" "plan.json"
             ltac:(vm_compute; reflexivity)).
Defined.

(** The start of the page on the directory [registry]. *)
Lemma selector_start_witness :
  exists options value,
    json_selector Examples.registry = Ok (options, value) /\
    map option_value options = ["json/plan.json"; "json/launch.json"] /\
    value = Some "json/plan.json".
Proof.
  destruct (json_selector Examples.registry) as [[options value]|e] eqn:Hstart;
    [|vm_compute in Hstart; discriminate].
  exists options, value. split; [reflexivity|].
  destruct (@selector_start Examples.obliging_library Examples.registry options value
              Hstart) as (names & Hdir & Hvalues & Hvalue).
  injection Hdir as <-. split; [exact Hvalues|]. exact (proj1 Hvalue).
Defined.

(** Contents without a comma, and contents with two. *)
Lemma upload_needs_one_comma_witness :
  occurrences "," "" <> 1%nat /\
  occurrences "," "data:text/csv;a,b,c" <> 1%nat /\
  forall (P : Platform) (w : world) (filename : string),
    @upload_json P w (Some "") filename = (w, Raise ValueError) /\
    @upload_json P w (Some "data:text/csv;a,b,c") filename = (w, Raise ValueError).
Proof.
  split; [vm_compute; discriminate|]. split; [vm_compute; discriminate|].
  intros P w filename. split.
  - exact (@upload_needs_one_comma P w "" filename ltac:(vm_compute; discriminate)).
  - exact (@upload_needs_one_comma P w "data:text/csv;a,b,c" filename
             ltac:(vm_compute; discriminate)).
Defined.

(** The document [two_sections], whose last task has a negative duration. *)
Lemma rows_hold_calendar_dates_witness :
  exists rows title,
    @prepare_gantt_data Examples.obliging_library
      (Examples.one_file "json/plan.json" Examples.two_sections) "json/plan.json"
    = Ok (rows, title) /\
    length rows = 3%nat /\
    Forall (fun r => valid_datetime (row_Start r) = true /\
                     midnight (row_Start r) = true /\
                     valid_datetime (row_Finish r) = true) rows.
Proof.
  destruct (@prepare_gantt_data Examples.obliging_library
              (Examples.one_file "json/plan.json" Examples.two_sections)
              "json/plan.json") as [[rows title]|e] eqn:Hrows;
    [|vm_compute in Hrows; discriminate].
  exists rows, title. split; [reflexivity|]. split.
  - vm_compute in Hrows. now injection Hrows as <- _.
  - exact (@rows_hold_calendar_dates Examples.obliging_library _ _ rows title Hrows).
Defined.

(** The scenario of section 8, uploaded as [launch.json] into the directory
    [registry], where a file of that name exists. *)
Lemma upload_then_select_witness :
  occurrences "," "data:application/json;base64" = 0%nat /\
  occurrences "," Examples.Uploads.launch_base64 = 0%nat /\
  forall L : Library,
  exists w' r,
    @upload_json Examples.Uploads.platform Examples.registry
      (Some Examples.Uploads.launch_contents) "launch.json" = (w', r) /\
    (forall options value,
       r = Ok (updated options value) -> value = "json/launch.json") /\
    @prepare_gantt_data L w' "json/launch.json" = @gantt_data L Examples.launch.
Proof.
  split; [vm_compute; reflexivity|]. split; [vm_compute; reflexivity|]. intros L.
  exact (@upload_then_select Examples.Uploads.platform L Examples.registry
           "data:application/json;base64" Examples.Uploads.launch_base64
           "launch.json" Examples.Uploads.launch_text
           ltac:(vm_compute; reflexivity) ltac:(vm_compute; reflexivity)
           ltac:(vm_compute; reflexivity) ltac:(vm_compute; reflexivity)).
Defined.

(** The text [not json] uploaded as [notes.txt]. *)
Lemma upload_of_other_name_witness :
  endswith "notes.txt" ".json" = false /\
  exists w' options,
    @upload_json Examples.Uploads.platform Examples.registry
      (Some Examples.Uploads.prose_contents) "notes.txt"
    = (w', Ok (updated options "json/notes.txt")) /\
    ~ In "json/notes.txt" (map option_value options).
Proof.
  split; [vm_compute; reflexivity|].
  destruct (@upload_json Examples.Uploads.platform Examples.registry
              (Some Examples.Uploads.prose_contents) "notes.txt")
    as [w' [[|options value]|e]] eqn:Hupload;
    [vm_compute in Hupload; discriminate | | vm_compute in Hupload; discriminate].
  destruct (@upload_of_other_name Examples.Uploads.platform Examples.registry w'
              Examples.Uploads.prose_contents "notes.txt" options value
              ltac:(vm_compute; reflexivity) Hupload) as [-> Hout].
  exists w', options. split; [reflexivity | exact Hout].
Defined.

(** The text [not json] uploaded as [broken.json]. *)
Lemma upload_of_no_object_witness :
  occurrences "," "data:text/plain;base64" = 0%nat /\
  occurrences "," Examples.Uploads.prose_base64 = 0%nat /\
  contains_slash "broken.json" = false /\
  endswith "broken.json" ".json" = true /\
  exists w' e,
    @upload_json Examples.Uploads.platform Examples.registry
      (Some Examples.Uploads.prose_contents) "broken.json" = (w', Raise e) /\
    files w' !! "json/broken.json" = Some NotJson /\
    load_json_files w' = Raise e /\
    json_selector w' = Raise e.
Proof.
  split; [vm_compute; reflexivity|]. split; [vm_compute; reflexivity|].
  split; [vm_compute; reflexivity|]. split; [vm_compute; reflexivity|].
  exact (@upload_of_no_object Examples.Uploads.platform Examples.registry
           "data:text/plain;base64" Examples.Uploads.prose_base64 "broken.json"
           "not json" ["plan.json"; "notes.txt"; "launch.json"]
           ltac:(vm_compute; reflexivity) ltac:(vm_compute; reflexivity)
           ltac:(vm_compute; reflexivity) ltac:(vm_compute; reflexivity)
           ltac:(vm_compute; reflexivity) ltac:(vm_compute; reflexivity)
           ltac:(vm_compute; reflexivity) ltac:(vm_compute; discriminate)).
Defined.

(** The scenario of section 8 uploaded as [new.json]. *)
Lemma upload_is_listed_witness :
  occurrences "," "data:application/json;base64" = 0%nat /\
  occurrences "," Examples.Uploads.launch_base64 = 0%nat /\
  contains_slash "new.json" = false /\
  endswith "new.json" ".json" = true /\
  exists w' options value,
    @upload_json Examples.Uploads.platform Examples.registry
      (Some Examples.Uploads.launch_contents) "new.json"
    = (w', Ok (updated options value)) /\
    In {| option_label := JStr "Launch"; option_value := value |} options.
Proof.
  split; [vm_compute; reflexivity|]. split; [vm_compute; reflexivity|].
  split; [vm_compute; reflexivity|]. split; [vm_compute; reflexivity|].
  destruct (@upload_json Examples.Uploads.platform Examples.registry
              (Some Examples.Uploads.launch_contents) "new.json")
    as [w' [[|options value]|e]] eqn:Hupload;
    [vm_compute in Hupload; discriminate | | vm_compute in Hupload; discriminate].
  exists w', options, value. split; [reflexivity|].
  exact (@upload_is_listed Examples.Uploads.platform Examples.registry w'
           "data:application/json;base64" Examples.Uploads.launch_base64 "new.json"
           Examples.Uploads.launch_text _ options value
           ltac:(vm_compute; reflexivity) ltac:(vm_compute; reflexivity)
           ltac:(vm_compute; reflexivity) ltac:(vm_compute; reflexivity)
           ltac:(vm_compute; reflexivity) ltac:(vm_compute; reflexivity) Hupload).
Defined.

(** The scenario of section 8 uploaded as [/tmp/launch.json]. *)
Lemma upload_of_absolute_name_witness :
  occurrences "," "data:application/json;base64" = 0%nat /\
  occurrences "," Examples.Uploads.launch_base64 = 0%nat /\
  String.prefix "/" "/tmp/launch.json" = true /\
  exists w' r,
    @upload_json Examples.Uploads.platform Examples.registry
      (Some Examples.Uploads.launch_contents) "/tmp/launch.json" = (w', r) /\
    load_json w' "/tmp/launch.json" = Ok Examples.launch /\
    (forall options value,
       r = Ok (updated options value) -> value = "/tmp/launch.json").
Proof.
  split; [vm_compute; reflexivity|]. split; [vm_compute; reflexivity|].
  split; [vm_compute; reflexivity|].
  exact (@upload_of_absolute_name Examples.Uploads.platform Examples.registry
           "data:application/json;base64" Examples.Uploads.launch_base64
           "/tmp/launch.json" Examples.Uploads.launch_text
           ltac:(vm_compute; reflexivity) ltac:(vm_compute; reflexivity)
           ltac:(vm_compute; reflexivity) ltac:(vm_compute; reflexivity)
           ltac:(vm_compute; reflexivity)).
Defined.
